(** * AutoFixer IDE backend (App.py): a shallow embedding and its properties

    The backend is a Flask application whose handlers are thin wrappers
    around the file system: every project is a directory under
    [projects/] that holds a JSON descriptor [project.json] next to the
    project's own files.  The embedding has four layers:

    - [Str]: the string functions the handlers use ([split], [in],
      [startswith], ...);
    - [Py]: JSON values as Python sees them (truthiness, [dict.get],
      subscripting, membership), with a raised exception as [None];
    - [Fs]: a POSIX directory tree with path resolution, and the
      [os]/[os.path] calls of the source; the tree has no symbolic
      links, no permissions and no limits on the names of entries;
    - the handlers themselves, written in a state-and-exception monad
      over the file system, one definition per function of App.py.

    [json.dump], [json.load] and [str()] belong to the Python runtime,
    not to the repository: they are taken as operations of a
    [PyRuntime], constrained by the round-trip law [runtime_lawful].
    JSON numbers are restricted to integers.  [health_check] and the
    two error handlers, which build a constant body and never touch
    the file system, are left out. *)

From Stdlib Require Import ZArith String Ascii DecimalString.
From stdpp Require Import base countable gmap strings option list.

Local Set Warnings "-register-all".
Local Open Scope string_scope.
Local Open Scope Z_scope.
Local Open Scope list_scope.

(* ================================================================== *)
(** ** Strings *)
(* ================================================================== *)

Module Str.

Definition slash : ascii := "/"%char.
Definition dot : ascii := "."%char.

(** The line feed of the source's ['\n']. *)
Definition nl : string := String (ascii_of_nat 10) "".

Definition lf : ascii := ascii_of_nat 10.
Definition cr : ascii := ascii_of_nat 13.
Definition nul : ascii := ascii_of_nat 0.

(** What a text stream opened for reading with the default [newline]
    hands out: every line ending of the file, be it CR LF, a lone CR
    or LF, is read as LF. *)
Fixpoint universal_newlines (s : string) : string :=
  match s with
  | "" => ""
  | String a s' =>
      if Ascii.eqb a cr then
        match s' with
        | String b s'' =>
            if Ascii.eqb b lf then String lf (universal_newlines s'')
            else String lf (universal_newlines s')
        | "" => String lf ""
        end
      else String a (universal_newlines s')
  end.

(** [s.startswith(p)] *)
Definition startswith (p s : string) : bool := String.prefix p s.

(** [s.endswith(c)] for a one-character [c]. *)
Fixpoint endswith (c : ascii) (s : string) : bool :=
  match s with
  | "" => false
  | String a "" => Ascii.eqb a c
  | String _ s' => endswith c s'
  end.

(** [needle in hay] on two strings. *)
Fixpoint contains (needle hay : string) : bool :=
  String.prefix needle hay
  || match hay with
     | "" => false
     | String _ hay' => contains needle hay'
     end.

(** [c in s] for a one-character [c]. *)
Fixpoint has_char (c : ascii) (s : string) : bool :=
  match s with
  | "" => false
  | String a s' => Ascii.eqb a c || has_char c s'
  end.

(** [s.split(c)] for a one-character separator: never empty. *)
Fixpoint split (c : ascii) (s : string) : list string :=
  match s with
  | "" => [""]
  | String a s' =>
      if Ascii.eqb a c then "" :: split c s'
      else match split c s' with
           | [] => [String a ""]
           | h :: t => String a h :: t
           end
  end.

(** [l[-1]] on a list of strings (the list is never empty here). *)
Definition last_item (l : list string) : string := List.last l "".

(** [list(s)]: the one-character strings of [s]. *)
Fixpoint chars (s : string) : list string :=
  match s with
  | "" => []
  | String a s' => String a "" :: chars s'
  end.

(** [s.rstrip('/')] *)
Fixpoint rstrip_slash (s : string) : string :=
  match s with
  | "" => ""
  | String a s' =>
      match rstrip_slash s' with
      | "" => if Ascii.eqb a slash then "" else String a ""
      | r => String a r
      end
  end.

(** [s[:s.rfind('/') + 1]] *)
Fixpoint upto_last_slash (s : string) : string :=
  match s with
  | "" => ""
  | String a s' => if has_char slash s then String a (upto_last_slash s') else ""
  end.

(** [str(n)] for an integer. *)
Definition of_Z (n : Z) : string := NilZero.string_of_int (Z.to_int n).

End Str.

(* ================================================================== *)
(** ** JSON values with Python's dynamic operations *)
(* ================================================================== *)

Module Py.

(** What [request.json] and [json.load] return.  A [dict] keeps its
    insertion order, as Python's does. *)
Inductive json : Type :=
| JNull
| JBool (b : bool)
| JInt (n : Z)
| JStr (s : string)
| JList (items : list json)
| JDict (fields : list (string * json)).

(** [bool(v)], the test behind [if not v]. *)
Definition truthy (v : json) : bool :=
  match v with
  | JNull => false
  | JBool b => b
  | JInt n => negb (n =? 0)
  | JStr s => negb (String.eqb s "")
  | JList l => match l with [] => false | _ => true end
  | JDict d => match d with [] => false | _ => true end
  end.

Fixpoint assoc (k : string) (d : list (string * json)) : option json :=
  match d with
  | [] => None
  | (k', v) :: d' => if String.eqb k' k then Some v else assoc k d'
  end.

Fixpoint assoc_set (k : string) (v : json) (d : list (string * json))
  : list (string * json) :=
  match d with
  | [] => [(k, v)]
  | (k', v') :: d' =>
      if String.eqb k' k then (k', v) :: d' else (k', v') :: assoc_set k v d'
  end.

(** [d.get(k, default)]; only a dict has [.get] (AttributeError
    otherwise). *)
Definition get (d : json) (k : string) (default : json) : option json :=
  match d with
  | JDict fs => Some (match assoc k fs with Some v => v | None => default end)
  | _ => None
  end.

(** [v[k]] for a string [k]: KeyError on a missing key, TypeError on
    anything that is not a dict. *)
Definition getitem (v : json) (k : string) : option json :=
  match v with
  | JDict fs => assoc k fs
  | _ => None
  end.

(** [d[k] = x] on a dict (the callers only reach it on dicts). *)
Definition setitem (d : json) (k : string) (x : json) : json :=
  match d with
  | JDict fs => JDict (assoc_set k x fs)
  | _ => d
  end.

(** [v == s] for a string [s]: no other JSON value equals a string. *)
Definition eq_str (v : json) (s : string) : bool :=
  match v with
  | JStr t => String.eqb t s
  | _ => false
  end.

(** [s in v] for a string [s]: substring of a string, element of a
    list, key of a dict; TypeError on the rest. *)
Definition contains_str (s : string) (v : json) : option bool :=
  match v with
  | JStr t => Some (Str.contains s t)
  | JList l => Some (existsb (fun x => eq_str x s) l)
  | JDict fs => Some (match assoc s fs with Some _ => true | None => false end)
  | _ => None
  end.

(** [iter(v)]: the elements of a list, the characters of a string,
    the keys of a dict; TypeError on the rest. *)
Definition iter (v : json) : option (list json) :=
  match v with
  | JList l => Some l
  | JStr s => Some (JStr <$> Str.chars s)
  | JDict fs => Some ((fun kv => JStr kv.1) <$> fs)
  | _ => None
  end.

(** [v.append(x)]: only a list has [.append]. *)
Definition append (v x : json) : option json :=
  match v with
  | JList l => Some (JList (l ++ [x]))
  | _ => None
  end.

(** [s.split('.')[-1]]: only a string has [.split]. *)
Definition split_last_dot (v : json) : option json :=
  match v with
  | JStr s => Some (JStr (Str.last_item (Str.split Str.dot s)))
  | _ => None
  end.

End Py.

Export Py.

(* ================================================================== *)
(** ** The file system *)
(* ================================================================== *)

Module Fs.

(** A directory tree: regular files hold text, directories map entry
    names to nodes.  Symbolic links, permissions and the limits that
    an operating system puts on names ([os_name] below) are not
    modelled. *)
Inductive node : Type :=
| File (content : string)
| Dir (entries : gmap string node).

(** [root] holds the entries of the root directory [/]; [cwd] is the
    absolute location (a list of entry names) of the server's working
    directory, which the application never changes. *)
Record world : Type := World { root : gmap string node; cwd : list string }.

(** The node at an absolute location. *)
Fixpoint node_at (c : list string) (o : option node) : option node :=
  match c with
  | [] => o
  | n :: c' =>
      match o with
      | Some (Dir es) => node_at c' (es !! n)
      | _ => None
      end
  end.

(** Change (create, replace or remove) the node at a location whose
    parent directory exists; elsewhere the tree is left as it is. *)
Fixpoint alter_at (f : option node -> option node) (c : list string)
         (o : option node) : option node :=
  match c with
  | [] => f o
  | n :: c' =>
      match o with
      | Some (Dir es) => Some (Dir (partial_alter (alter_at f c') n es))
      | _ => o
      end
  end.

Definition lookup (w : world) (c : list string) : option node :=
  node_at c (Some (Dir (root w))).

(** The root itself is never replaced. *)
Definition update (f : option node -> option node) (c : list string)
           (w : world) : world :=
  match c with
  | [] => w
  | n :: c' => World (partial_alter (alter_at f c') n (root w)) (cwd w)
  end.

Definition is_dir (w : world) (c : list string) : bool :=
  match lookup w c with Some (Dir _) => true | _ => false end.

(** One step of path resolution: the walk may only leave a directory;
    an empty component and [.] stay, [..] goes to the parent (the
    root is its own parent), a name goes to the entry of that name,
    whose existence the next step, or the caller, checks. *)
Definition move (d : list string) (comp : string) : list string :=
  if String.eqb comp "" || String.eqb comp "." then d
  else if String.eqb comp ".." then removelast d
  else d ++ [comp].

Definition walk_step (w : world) (cur : option (list string)) (comp : string)
  : option (list string) :=
  match cur with
  | Some d => if is_dir w d then Some (move d comp) else None
  | None => None
  end.

Definition start (w : world) (path : string) : list string :=
  if Str.startswith "/" path then [] else cwd w.

(** Resolution of a path string: the location it names, when every
    component but the last leads through existing directories.  The
    empty path names nothing. *)
Definition resolve (w : world) (path : string) : option (list string) :=
  if String.eqb path "" then None
  else foldl (walk_step w) (Some (start w path)) (Str.split Str.slash path).

(** [os.path.join(a, b)] *)
Definition path_join (a b : string) : string :=
  if Str.startswith "/" b then b
  else if String.eqb a "" || Str.endswith Str.slash a then a +:+ b
  else a +:+ "/" +:+ b.

(** [os.path.dirname(p)] *)
Definition dirname (p : string) : string :=
  let head := Str.upto_last_slash p in
  match Str.rstrip_slash head with
  | "" => head
  | stripped => stripped
  end.

(** [os.path.exists(path)] *)
Definition path_exists (w : world) (path : string) : bool :=
  match resolve w path ≫= lookup w with Some _ => true | None => false end.

(** [os.path.isdir(path)] *)
Definition path_isdir (w : world) (path : string) : bool :=
  match resolve w path ≫= lookup w with Some (Dir _) => true | _ => false end.

(** [os.listdir(path)]: the entry names, in the order the directory
    yields them, which is arbitrary (here that of [map_to_list]);
    [None] when [path] is not a directory. *)
Definition listdir (w : world) (path : string) : option (list string) :=
  match resolve w path ≫= lookup w with
  | Some (Dir es) => Some ((map_to_list es).*1)
  | _ => None
  end.

(** The characters that the regular file at [path] holds; [None]
    when [path] is not a regular file. *)
Definition file_text (w : world) (path : string) : option string :=
  match resolve w path ≫= lookup w with
  | Some (File s) => Some s
  | _ => None
  end.

(** [open(path, 'r').read()]: the file is read in text mode, where
    its line endings come out as LF.  [open(path, 'w')] writes the
    characters as they are, a POSIX system's line separator being
    LF. *)
Definition read_text (w : world) (path : string) : option string :=
  Str.universal_newlines <$> file_text w path.

(** [open(path, 'w')]: creates the file or truncates it, and yields
    its location as the handle; [None] when [path] is a directory or
    its parent is missing. *)
Definition open_w (w : world) (path : string) : option (world * list string) :=
  c ← resolve w path;
  match lookup w c with
  | Some (Dir _) => None
  | _ => Some (update (fun _ => Some (File "")) c w, c)
  end.

(** [f.write(text)] on a handle that [open_w] returned. *)
Definition write_handle (c : list string) (text : string) (w : world) : world :=
  update (fun _ => Some (File text)) c w.

(** [os.remove(path)]; [None] unless [path] is a regular file. *)
Definition remove (w : world) (path : string) : option world :=
  c ← resolve w path;
  match lookup w c with
  | Some (File _) => Some (update (fun _ => None) c w)
  | _ => None
  end.

(** [os.makedirs(path, exist_ok=True)], by its effect: walk [path],
    creating each missing directory on the way, and fail on a
    regular file in the way.  The directories made before a failure
    stay.  The flag is [None] once the call has failed. *)
Definition makedirs_step (acc : world * option (list string)) (comp : string)
  : world * option (list string) :=
  match acc with
  | (w, Some d) =>
      if is_dir w d then
        let d' := move d comp in
        match lookup w d' with
        | None => (update (fun _ => Some (Dir ∅)) d' w, Some d')
        | Some (Dir _) => (w, Some d')
        | Some (File _) => (w, None)
        end
      else (w, None)
  | (w, None) => (w, None)
  end.

Definition makedirs (w : world) (path : string) : world * bool :=
  if String.eqb path "" then (w, false)
  else
    let r := foldl makedirs_step (w, Some (start w path))
                   (Str.split Str.slash path) in
    (r.1, match r.2 with Some _ => true | None => false end).

(** What the operating system asks of the name of an entry before it
    makes it, and the tree above does not: no NUL byte, and no more
    than 255 bytes; and of a path, fewer than 4096 bytes.  [open] and
    [os.makedirs] raise on a name or a path that fails this.  The
    properties that promise a file or a directory to be made ask it
    of the request. *)
Definition os_name (s : string) : bool :=
  negb (Str.has_char Str.nul s) && (String.length s <=? 255)%nat.

Definition os_path (p : string) : bool :=
  negb (Str.has_char Str.nul p) && (String.length p <? 4096)%nat.

(** The component that a path ends in, trailing slashes apart: the
    last one that is not empty, or [""] when there is none (as in
    ["/"]). *)
Fixpoint last_component (comps : list string) : string :=
  match comps with
  | [] => ""
  | comp :: rest =>
      match last_component rest with
      | "" => comp
      | later => later
      end
  end.

(** [os.rmdir(path)]: unlinks an empty directory from its parent;
    [None] when [path] does not lead to an empty directory, and when
    it ends in [.] or [..] or names the root, which no parent entry
    stands for. *)
Definition rmdir (w : world) (path : string) : option world :=
  c ← resolve w path;
  let name := last_component (Str.split Str.slash path) in
  if String.eqb name "" || String.eqb name "." || String.eqb name ".." then None
  else
    match lookup w c with
    | Some (Dir es) =>
        match map_to_list es with
        | [] => Some (update (fun _ => None) c w)
        | _ :: _ => None
        end
    | _ => None
    end.

(** Remove all that a directory holds; the directory itself stays. *)
Definition clear (c : list string) (w : world) : world :=
  match c with
  | [] => World ∅ (cwd w)
  | _ :: _ => update (fun _ => Some (Dir ∅)) c w
  end.

End Fs.

Export Fs.

(* ================================================================== *)
(** ** Handlers: state, exceptions, responses *)
(* ================================================================== *)

(** What a Flask view returns: [(jsonify(body), status)].  The answer
    of the [except Exception] clause is [InternalError]: its body is
    [{'success': False, 'error': str(e)}] with status 500, and the
    text of the exception is left out of the model. *)
Inductive response : Type :=
| Reply (body : json) (status : Z)
| InternalError.

Definition status_of (r : response) : Z :=
  match r with
  | Reply _ st => st
  | InternalError => 500
  end.

(** A computation over the file system that returns a value or raises
    ([None]); what it did to the file system before raising stays. *)
Definition M (A : Type) : Type := world -> world * option A.

Definition ret {A} (a : A) : M A := fun w => (w, Some a).

Definition bind {A B} (m : M A) (k : A -> M B) : M B :=
  fun w =>
    match m w with
    | (w', Some a) => k a w'
    | (w', None) => (w', None)
    end.

Declare Scope handler_scope.
Delimit Scope handler_scope with handler.
Notation "'let*' x := m 'in' k" := (bind m (fun x => k))
  (at level 10, x name, m at level 100, k at level 200) : handler_scope.

(** A pure Python operation that may raise. *)
Definition lift {A} (o : option A) : M A :=
  fun w => (w, o).

(** A query of the file system. *)
Definition ask {A} (q : world -> A) : M A :=
  fun w => (w, Some (q w)).

(** A file-system call that succeeds with a new state or raises. *)
Definition act (f : world -> option world) : M unit :=
  fun w =>
    match f w with
    | Some w' => (w', Some tt)
    | None => (w, None)
    end.

(** [try: ... except Exception as e: return jsonify(...), 500] *)
Definition handle (m : M response) (w : world) : world * response :=
  match m w with
  | (w', Some r) => (w', r)
  | (w', None) => (w', InternalError)
  end.

(** [os.makedirs(path, exist_ok=True)] as a step of a handler. *)
Definition os_makedirs (path : string) : M unit :=
  fun w =>
    let r := makedirs w path in
    (r.1, if r.2 then Some tt else None).

(** [with open(path, 'w') as f: f.write(text)] for a text known to be
    a string. *)
Definition write_text (path text : string) : M unit :=
  fun w =>
    match open_w w path with
    | Some (w', c) => (write_handle c text w', Some tt)
    | None => (w, None)
    end.

(** [with open(path, 'w') as f: f.write(v)] for a value of the request:
    the file is opened, hence created or emptied, before [write]
    rejects anything that is not a string. *)
Definition write_value (path : string) (v : json) : M unit :=
  fun w =>
    match open_w w path with
    | Some (w', c) =>
        match v with
        | JStr text => (write_handle c text w', Some tt)
        | _ => (w', None)
        end
    | None => (w, None)
    end.

(** [os.path.join(a, v)] for a value of the request: TypeError unless
    [v] is a string. *)
Definition join_value (a : string) (v : json) : option string :=
  match v with
  | JStr b => Some (path_join a b)
  | _ => None
  end.

(** [shutil.rmtree(path)]: [path] has to lead to a directory; what the
    directory holds is removed first, then the directory itself, by
    [os.rmdir(path)], which follows [path] once more.  What was
    removed before a failure stays removed. *)
Definition rmtree (path : string) : M unit :=
  fun w =>
    match resolve w path with
    | Some c =>
        match lookup w c with
        | Some (Dir _) =>
            match rmdir (clear c w) path with
            | Some w' => (w', Some tt)
            | None => (clear c w, None)
            end
        | _ => (w, None)
        end
    | None => (w, None)
    end.

(** The Python runtime the handlers call into: [json.dumps] with the
    source's [indent=2], [json.loads] ([None] is JSONDecodeError) and
    [str()], which the f-string of [run_project] applies. *)
Class PyRuntime : Type := {
  json_dumps : json -> string;
  json_loads : string -> option json;
  py_str : json -> string
}.

(** What the handlers rely on: a value that was dumped loads back as
    itself. *)
Definition runtime_lawful `{PyRuntime} : Prop :=
  forall v, json_loads (json_dumps v) = Some v.

(** The two readings of the clock that [create_project] takes:
    [int(datetime.now().timestamp() * 1000)] and
    [datetime.now().isoformat()]. *)
Record clock : Type := Clock { millis : Z; isoformat : string }.

(* ================================================================== *)
(** ** App.py *)
(* ================================================================== *)

Section App.

Context `{PyRuntime}.

Local Open Scope handler_scope.

Definition PROJECTS_DIR : string := "projects".

(** The module-level [if not os.path.exists(PROJECTS_DIR):
    os.makedirs(PROJECTS_DIR)]; this [makedirs] has no [exist_ok], but
    it only runs when the path does not exist. *)
Definition startup : M unit :=
  let* present := ask (fun w => path_exists w PROJECTS_DIR) in
  if present then ret tt else os_makedirs PROJECTS_DIR.

Definition get_project_path (project_id : string) : string :=
  path_join PROJECTS_DIR project_id.

Definition metadata_path (project_id : string) : string :=
  path_join (get_project_path project_id) "project.json".

Definition save_project_metadata (project_id : string) (metadata : json) : M unit :=
  write_text (metadata_path project_id) (json_dumps metadata).

(** [None] inside the monad is the source's [return None]; a
    descriptor that cannot be read or parsed raises.  [json.load(f)]
    is the runtime's parser on the characters of the file: that the
    stream hands it every line ending as LF is of no consequence to
    a JSON parser, which takes CR and LF alike for white space
    between tokens and refuses both inside a string. *)
Definition load_project_metadata (project_id : string) : M (option json) :=
  let* present := ask (fun w => path_exists w (metadata_path project_id)) in
  if present then
    let* text := (fun w => (w, file_text w (metadata_path project_id))) in
    let* v := lift (json_loads text) in
    ret (Some v)
  else ret None.

(** [if not metadata]: an absent descriptor and one that holds a falsy
    value ([{}], [[]], [0], ...) are treated alike. *)
Definition present (metadata : option json) : option json :=
  match metadata with
  | Some v => if truthy v then Some v else None
  | None => None
  end.

Definition failure (msg : string) (st : Z) : response :=
  Reply (JDict [("success", JBool false); ("error", JStr msg)]) st.

Definition success (key : string) (v : json) (st : Z) : response :=
  Reply (JDict [("success", JBool true); (key, v)]) st.

(** The loop of [get_projects] over [os.listdir(PROJECTS_DIR)]. *)
Fixpoint collect_projects (names : list string) (projects : list json)
  : M (list json) :=
  match names with
  | [] => ret projects
  | project_id :: rest =>
      let* isdir := ask (fun w => path_isdir w (get_project_path project_id)) in
      if isdir then
        let* metadata := load_project_metadata project_id in
        match present metadata with
        | Some m => collect_projects rest (projects ++ [m])
        | None => collect_projects rest projects
        end
      else collect_projects rest projects
  end.

Definition get_projects : world -> world * response :=
  handle (
    let* root_present := ask (fun w => path_exists w PROJECTS_DIR) in
    let* projects :=
      (if root_present then
         let* names := (fun w => (w, listdir w PROJECTS_DIR)) in
         collect_projects names []
       else ret []) in
    ret (success "projects" (JList projects) 200)).

Definition main_java : json :=
  JDict [("name", JStr "Main.java"); ("path", JStr "src/Main.java");
         ("content", JStr ""); ("type", JStr "java")].

Definition pom_xml : json :=
  JDict [("name", JStr "pom.xml"); ("path", JStr "pom.xml");
         ("content", JStr ""); ("type", JStr "xml")].

(** The template branch of [create_project]: it scaffolds the disk and
    returns the [files] and [folders] lists. *)
Definition scaffold (project_path : string) (template : json)
  : M (list json * list json) :=
  if eq_str template "basic" then
    let src_path := path_join project_path "src" in
    let* _ := os_makedirs src_path in
    let* _ := write_text (path_join src_path "Main.java") "" in
    ret ([main_java], [JStr "src"])
  else if eq_str template "maven" then
    let* _ := os_makedirs (path_join project_path "src/main/java") in
    let* _ := os_makedirs (path_join project_path "src/test/java") in
    let* _ := write_text (path_join project_path "pom.xml") "" in
    ret ([pom_xml], [JStr "src"; JStr "src/main/java"; JStr "src/test/java"])
  else
    let* _ := os_makedirs (path_join project_path "src") in
    ret ([], [JStr "src"]).

Definition create_project (now : clock) (data : json) : world -> world * response :=
  handle (
    let* project_name := lift (get data "name" JNull) in
    let* template := lift (get data "template" (JStr "empty")) in
    if negb (truthy project_name) then
      ret (failure "Project name is required" 400)
    else
      let project_id := Str.of_Z (millis now) in
      let project_path := get_project_path project_id in
      let* _ := os_makedirs project_path in
      let* ff := scaffold project_path template in
      let metadata :=
        JDict [("id", JStr project_id); ("name", project_name);
               ("template", template); ("files", JList ff.1);
               ("folders", JList ff.2);
               ("createdAt", JStr (isoformat now))] in
      let* _ := save_project_metadata project_id metadata in
      ret (success "project" metadata 201)).

Definition get_project (project_id : string) : world -> world * response :=
  handle (
    let* metadata := load_project_metadata project_id in
    match present metadata with
    | None => ret (failure "Project not found" 404)
    | Some m => ret (success "project" m 200)
    end).

Definition delete_project (project_id : string) : world -> world * response :=
  handle (
    let project_path := get_project_path project_id in
    let* found := ask (fun w => path_exists w project_path) in
    if negb found then ret (failure "Project not found" 404)
    else
      let* _ := rmtree project_path in
      ret (success "message" (JStr "Project deleted successfully") 200)).

(** The expression
    [file_name.split('.')[-1] if '.' in file_name else 'txt']. *)
Definition file_type (file_name : json) : option json :=
  has_dot ← contains_str "." file_name;
  if has_dot : bool then split_last_dot file_name else Some (JStr "txt").

Definition create_file (project_id : string) (data : json)
  : world -> world * response :=
  handle (
    let* file_name := lift (get data "name" JNull) in
    let* file_path := lift (get data "path" JNull) in
    let* file_content := lift (get data "content" (JStr "")) in
    if negb (truthy file_name) || negb (truthy file_path) then
      ret (failure "File name and path are required" 400)
    else
      let* metadata := load_project_metadata project_id in
      match present metadata with
      | None => ret (failure "Project not found" 404)
      | Some metadata =>
          let project_path := get_project_path project_id in
          let* full_file_path := lift (join_value project_path file_path) in
          let* _ := os_makedirs (dirname full_file_path) in
          let* _ := write_value full_file_path file_content in
          let* type := lift (file_type file_name) in
          let file_info :=
            JDict [("name", file_name); ("path", file_path);
                   ("content", file_content); ("type", type)] in
          let* files := lift (getitem metadata "files") in
          let* files := lift (append files file_info) in
          let metadata := setitem metadata "files" files in
          let* _ := save_project_metadata project_id metadata in
          ret (success "file" file_info 201)
      end).

Definition get_file (project_id file_path : string)
  : world -> world * response :=
  handle (
    let project_path := get_project_path project_id in
    let full_file_path := path_join project_path file_path in
    let* found := ask (fun w => path_exists w full_file_path) in
    if negb found then ret (failure "File not found" 404)
    else
      let* content := (fun w => (w, read_text w full_file_path)) in
      ret (success "content" (JStr content) 200)).

(** The loop of [update_file]: the first entry whose path matches gets
    the new content and the loop breaks; subscripting an entry that
    has no ['path'] raises. *)
Fixpoint update_first (file_path : string) (content : json) (files : list json)
  : option (list json) :=
  match files with
  | [] => Some []
  | file_info :: rest =>
      p ← getitem file_info "path";
      if eq_str p file_path then Some (setitem file_info "content" content :: rest)
      else cons file_info <$> update_first file_path content rest
  end.

(** [for file_info in metadata['files']: ...] on whatever the
    descriptor holds under ['files']: the entries of a list are
    updated in place; the items of a string or of a dict are strings,
    on which the loop body raises. *)
Definition update_entries (file_path : string) (content : json) (metadata : json)
  : option json :=
  files ← getitem metadata "files";
  items ← iter files;
  items' ← update_first file_path content items;
  match files with
  | JList _ => Some (setitem metadata "files" (JList items'))
  | _ => Some metadata
  end.

Definition update_file (project_id file_path : string) (data : json)
  : world -> world * response :=
  handle (
    let* content := lift (get data "content" (JStr "")) in
    let project_path := get_project_path project_id in
    let full_file_path := path_join project_path file_path in
    let* found := ask (fun w => path_exists w full_file_path) in
    if negb found then ret (failure "File not found" 404)
    else
      let* _ := write_value full_file_path content in
      let* metadata := load_project_metadata project_id in
      let* _ :=
        match present metadata with
        | Some metadata =>
            let* metadata := lift (update_entries file_path content metadata) in
            save_project_metadata project_id metadata
        | None => ret tt
        end in
      ret (success "message" (JStr "File updated successfully") 200)).

(** [[f for f in files if f['path'] != file_path]] *)
Fixpoint drop_path (file_path : string) (files : list json) : option (list json) :=
  match files with
  | [] => Some []
  | f :: rest =>
      p ← getitem f "path";
      rest' ← drop_path file_path rest;
      Some (if eq_str p file_path then rest' else f :: rest')
  end.

Definition drop_entries (file_path : string) (metadata : json) : option json :=
  files ← getitem metadata "files";
  items ← iter files;
  kept ← drop_path file_path items;
  Some (setitem metadata "files" (JList kept)).

Definition delete_file (project_id file_path : string)
  : world -> world * response :=
  handle (
    let project_path := get_project_path project_id in
    let full_file_path := path_join project_path file_path in
    let* found := ask (fun w => path_exists w full_file_path) in
    if negb found then ret (failure "File not found" 404)
    else
      let* _ := act (fun w => remove w full_file_path) in
      let* metadata := load_project_metadata project_id in
      let* _ :=
        match present metadata with
        | Some metadata =>
            let* metadata := lift (drop_entries file_path metadata) in
            save_project_metadata project_id metadata
        | None => ret tt
        end in
      ret (success "message" (JStr "File deleted successfully") 200)).

(** [folder_name not in metadata['folders']] and the [append] under
    it; [folder_name] is a string once [os.path.join] accepted it. *)
Definition add_folder (folder_name : string) (metadata : json)
  : option (option json) :=
  folders ← getitem metadata "folders";
  known ← contains_str folder_name folders;
  if known : bool then Some None
  else
    folders' ← append folders (JStr folder_name);
    Some (Some (setitem metadata "folders" folders')).

Definition create_folder (project_id : string) (data : json)
  : world -> world * response :=
  handle (
    let* folder_name := lift (get data "name" JNull) in
    if negb (truthy folder_name) then
      ret (failure "Folder name is required" 400)
    else
      let* metadata := load_project_metadata project_id in
      match present metadata with
      | None => ret (failure "Project not found" 404)
      | Some metadata =>
          let project_path := get_project_path project_id in
          let* folder_path := lift (join_value project_path folder_name) in
          let* _ := os_makedirs folder_path in
          let name := match folder_name with JStr s => s | _ => "" end in
          let* changed := lift (add_folder name metadata) in
          let* _ :=
            match changed with
            | Some metadata => save_project_metadata project_id metadata
            | None => ret tt
            end in
          ret (success "folder" folder_name 201)
      end).

Definition run_project (project_id : string) : world -> world * response :=
  handle (
    let* metadata := load_project_metadata project_id in
    match present metadata with
    | None => ret (failure "Project not found" 404)
    | Some metadata =>
        let* name := lift (getitem metadata "name") in
        ret (success "output"
               (JStr ("Running project: " +:+ py_str name +:+ "..." +:+ Str.nl
                      +:+ "Compilation started..." +:+ Str.nl))
               200)
    end).

End App.

(* ================================================================== *)
(** ** Observations of a state *)
(* ================================================================== *)

(** The notions the statements below are phrased in. *)

(** What is at a location: nothing, a directory ([Some None]) or a
    regular file with its text. *)
Definition stat (w : world) (c : list string) : option (option string) :=
  match lookup w c with
  | Some (File s) => Some (Some s)
  | Some (Dir _) => Some None
  | None => None
  end.

(** A node without children: none, a regular file, an empty
    directory. *)
Definition leafy (o : option node) : Prop :=
  match o with
  | Some (Dir es) => es = ∅
  | _ => True
  end.

(** [stat], on a node. *)
Definition kind (o : option node) : option (option string) :=
  match o with
  | Some (File s) => Some (Some s)
  | Some (Dir _) => Some None
  | None => None
  end.

(** Two states in which the same locations are directories resolve
    every path alike. *)
Definition same_dirs (w w' : world) : Prop :=
  cwd w' = cwd w ∧ ∀ c, is_dir w' c = is_dir w c.

(** [w'] has every directory and every regular file of [w]. *)
Definition extends (w w' : world) : Prop :=
  cwd w' = cwd w
  ∧ (∀ c, is_dir w c = true → is_dir w' c = true)
  ∧ (∀ c s, stat w c = Some (Some s) → stat w' c = Some (Some s)).

(** What a path leads to: nothing, a directory ([Some None]) or a
    regular file with its text. *)
Definition obs (w : world) (p : string) : option (option string) :=
  resolve w p ≫= stat w.

(** The effect of writing [text] to the file that [p] names. *)
Definition wrote (p text : string) (w w' : world) : Prop :=
  ∃ c, resolve w p = Some c ∧ stat w c ≠ Some None
       ∧ stat w' c = Some (Some text) ∧ cwd w' = cwd w
       ∧ ∀ c', c' ≠ c → stat w' c' = stat w c'.

(** The effect of removing the file that [p] names. *)
Definition removed (p : string) (w w' : world) : Prop :=
  ∃ c s, resolve w p = Some c ∧ stat w c = Some (Some s)
         ∧ stat w' c = None ∧ cwd w' = cwd w
         ∧ ∀ c', c' ≠ c → stat w' c' = stat w c'.

(** What a successful [rmtree] did: the directory that [path] leads to
    is gone with all that it held, and nothing else has changed. *)
Definition tree_removed (p : string) (w w' : world) : Prop :=
  ∃ c, resolve w p = Some c ∧ c ≠ [] ∧ is_dir w c = true
       ∧ cwd w' = cwd w
       ∧ (∀ l, stat w' (c ++ l) = None)
       ∧ (∀ c', ¬ c `prefix_of` c' → stat w' c' = stat w c').

(** [w'] differs from [w] at [P] and below at most. *)
Definition within (P : list string) (w w' : world) : Prop :=
  cwd w' = cwd w ∧ ∀ c, ¬ P `prefix_of` c → stat w' c = stat w c.

(** An entry name: not empty, no ['/'], neither [.] nor [..]. *)
Definition is_name (s : string) : bool :=
  negb (Str.has_char Str.slash s) && negb (String.eqb s "")
  && negb (String.eqb s ".") && negb (String.eqb s "..").

(** [w'] is [w] with a directory at [d ++ p] for every non-empty
    prefix [p] of [names], and nothing else changed. *)
Definition made (d names : list string) (w w' : world) : Prop :=
  cwd w' = cwd w
  ∧ (∀ p, p ≠ [] → p `prefix_of` names → is_dir w' (d ++ p) = true)
  ∧ (∀ c, (∀ p, p ≠ [] → p `prefix_of` names → c ≠ d ++ p) →
          stat w' c = stat w c).

(** A project directory [P], reached by [get_project_path], in which
    nothing has been made yet. *)
Definition project_dir (w : world) (pid : string) (P : list string) : Prop :=
  resolve w (get_project_path pid) = Some P
  ∧ is_dir w P = true
  ∧ ∀ l, l ≠ [] → stat w (P ++ l) = None.

(** The state of a root in which [create_project] can work: the
    working directory exists, [projects] is a directory or is yet to
    be made, and nothing bears the new identifier. *)
Definition fresh (w : world) (pid : string) : Prop :=
  is_dir w (cwd w) = true
  ∧ (∀ s, stat w (cwd w ++ ["projects"]) ≠ Some (Some s))
  ∧ stat w (cwd w ++ ["projects"; pid]) = None.

(** The non-empty prefixes of a list. *)
Fixpoint prefixes {A} (l : list A) : list (list A) :=
  match l with
  | [] => []
  | x :: l' => [x] :: (cons x <$> prefixes l')
  end.

Section Observations.

Context `{PyRuntime}.

(** What [load_project_metadata] finds: no descriptor, one that
    cannot be read or parsed, or a value. *)
Inductive descriptor_state : Type :=
| Absent
| Unreadable
| Loaded (v : json).

Definition descriptor (w : world) (project_id : string) : descriptor_state :=
  match obs w (metadata_path project_id) with
  | None => Absent
  | Some None => Unreadable
  | Some (Some text) =>
      match json_loads text with
      | Some v => Loaded v
      | None => Unreadable
      end
  end.

(** What [load_project_metadata] does with it: [None] at the outside
    is an exception raised, [Some None] is the source's [None]. *)
Definition load_result (d : descriptor_state) : option (option json) :=
  match d with
  | Absent => Some None
  | Unreadable => None
  | Loaded v => Some (Some v)
  end.

(** The type that [create_file] derives from a name: the text after
    the last dot of a string that has one, ['txt'] for a name that
    holds no dot. *)
Definition extension_of (file_name : json) (type : string) : Prop :=
  (∃ s pre, file_name = JStr s ∧ s = pre +:+ "." +:+ type
            ∧ Str.has_char Str.dot type = false)
  ∨ (contains_str "." file_name = Some false ∧ type = "txt").

(** The text that [run_project] answers with. *)
Definition canned_output (name : json) : json :=
  JStr ("Running project: " +:+ py_str name +:+ "..." +:+ Str.nl
        +:+ "Compilation started..." +:+ Str.nl).

(** What [get_projects] makes of one entry of the root: [None] when
    loading its descriptor raises, [Some None] when the entry is
    skipped, [Some (Some m)] when [m] is listed. *)
Definition listed (w : world) (project_id : string) : option (option json) :=
  if path_isdir w (get_project_path project_id) then
    match descriptor w project_id with
    | Absent => Some None
    | Unreadable => None
    | Loaded v => Some (if truthy v then Some v else None)
    end
  else Some None.

(** The file path of a request names the descriptor of its own
    project. *)
Definition targets_descriptor (w : world) (pid file_path : string) : Prop :=
  resolve w (path_join (get_project_path pid) file_path)
  = resolve w (metadata_path pid).

(** [m'] is [m] but for its entry [key]. *)
Definition same_but (key : string) (m m' : json) : Prop :=
  ∀ k, k ≠ key → getitem m' k = getitem m k.

(** Every entry of [files] bears a ['path'], and none of these paths
    is [fp]. *)
Definition no_match (fp : string) (files : list json) : Prop :=
  ∀ entry, entry ∈ files →
    ∃ p, getitem entry "path" = Some p ∧ eq_str p fp = false.

(** The answer of [update_file] when it succeeds. *)
Definition updated : response :=
  success "message" (JStr "File updated successfully") 200.

(** The answer of [delete_project] when it succeeds. *)
Definition deleted : response :=
  success "message" (JStr "Project deleted successfully") 200.

(** An entry of a ['files'] list bears the path [fp]. *)
Definition path_is (fp : string) (entry : json) : bool :=
  match getitem entry "path" with
  | Some p => eq_str p fp
  | None => false
  end.

(** Project [other] looks the same in [w'] as in [w]: [get_project]
    answers the same, and so does [get_file] on every path made of
    entry names. *)
Definition same_project (other : string) (w w' : world) : Prop :=
  (get_project other w').2 = (get_project other w).2
  ∧ ∀ fp, Forall (λ n, is_name n = true) (Str.split Str.slash fp) →
          (get_file other fp w').2 = (get_file other fp w).2.

End Observations.

(* ================================================================== *)
(** ** A reference runtime *)
(* ================================================================== *)

(** One lawful [PyRuntime], so that the handlers can be run on
    concrete requests: a value is dumped as the binary numeral of its
    code as a countable tree, which is not JSON text but satisfies the
    same round-trip law; with it, a text that holds any other
    character is not a dump of anything, as a text that is not JSON is
    for Python. *)
Module Reference.

Definition atom : Type := (unit + bool) + (Z + string).

Fixpoint to_tree (v : json) : gen_tree atom :=
  match v with
  | JNull => GenLeaf (inl (inl tt))
  | JBool b => GenLeaf (inl (inr b))
  | JInt n => GenLeaf (inr (inl n))
  | JStr s => GenLeaf (inr (inr s))
  | JList l => GenNode 0 (to_tree <$> l)
  | JDict fs =>
      GenNode 1 ((fun kv => GenNode 2 [GenLeaf (inr (inr kv.1)); to_tree kv.2])
                   <$> fs)
  end.

Fixpoint of_tree (t : gen_tree atom) : option json :=
  match t with
  | GenLeaf (inl (inl _)) => Some JNull
  | GenLeaf (inl (inr b)) => Some (JBool b)
  | GenLeaf (inr (inl n)) => Some (JInt n)
  | GenLeaf (inr (inr s)) => Some (JStr s)
  | GenNode 0 ts =>
      JList <$>
        (fix items (ts : list (gen_tree atom)) : option (list json) :=
           match ts with
           | [] => Some []
           | t :: ts' => v ← of_tree t; l ← items ts'; Some (v :: l)
           end) ts
  | GenNode 1 ts =>
      JDict <$>
        (fix fields (ts : list (gen_tree atom)) : option (list (string * json)) :=
           match ts with
           | [] => Some []
           | GenNode 2 [GenLeaf (inr (inr k)); t] :: ts' =>
               v ← of_tree t; l ← fields ts'; Some ((k, v) :: l)
           | _ => None
           end) ts
  | _ => None
  end.

Fixpoint bits_of (p : positive) : string :=
  match p with
  | xH => ""
  | xO p' => String "0"%char (bits_of p')
  | xI p' => String "1"%char (bits_of p')
  end.

Fixpoint of_bits (s : string) : option positive :=
  match s with
  | "" => Some xH
  | String c s' =>
      if Ascii.eqb c "0"%char then xO <$> of_bits s'
      else if Ascii.eqb c "1"%char then xI <$> of_bits s'
      else None
  end.

Definition dumps (v : json) : string := bits_of (encode (to_tree v)).

Definition loads (s : string) : option json :=
  p ← of_bits s; t ← decode p; of_tree t.

(** [str()] of the scalar values; the [repr] that Python prints for a
    list or a dict is stood in for by the dump. *)
Definition str (v : json) : string :=
  match v with
  | JNull => "None"
  | JBool true => "True"
  | JBool false => "False"
  | JInt n => Str.of_Z n
  | JStr s => s
  | _ => dumps v
  end.

#[export] Instance runtime : PyRuntime :=
  {| json_dumps := dumps; json_loads := loads; py_str := str |}.

(** The state of a fresh checkout: an empty working directory at [/]. *)
Definition empty_world : world := World ∅ [].

Definition body (fs : list (string * string)) : json :=
  JDict ((fun kv => (kv.1, JStr kv.2)) <$> fs).

(** A small scenario for the reference runtime: one project made from
    the [basic] template in an empty working directory, a second
    project directory whose descriptor is not a dump of anything, and
    a few requests. *)
Definition now : clock := Clock 1700000000123 "2026-01-01T12:00:00".

Definition demo_id : string := "1700000000123".

Definition demo_fields : list (string * json) :=
  [("name", JStr "Demo"); ("template", JStr "basic")].

Definition demo : json :=
  JDict [("id", JStr demo_id); ("name", JStr "Demo"); ("template", JStr "basic");
         ("files", JList [main_java]); ("folders", JList [JStr "src"]);
         ("createdAt", JStr "2026-01-01T12:00:00")].

Definition demo_world : world := (create_project now (JDict demo_fields) empty_world).1.

Definition other : json :=
  JDict [("id", JStr "7"); ("name", JStr "Other"); ("template", JStr "empty");
         ("files", JList []); ("folders", JList []);
         ("createdAt", JStr "1999-12-31T23:59:59")].

Definition overwrite : json := JDict [("content", JStr (dumps other))].

Definition corrupt_world : world :=
  (write_text "projects/broken/project.json" "{broken"
     (os_makedirs "projects/broken" demo_world).1).1.

Definition nameless : list (string * json) :=
  [("name", JStr ""); ("path", JStr "src/App.java"); ("content", JStr "class App{}")].

Definition app_request : json :=
  body [("name", "App.java"); ("path", "src/App.java"); ("content", "class App{}")].

Definition app_reply : json :=
  JDict [("success", JBool true);
         ("file", JDict [("name", JStr "App.java"); ("path", JStr "src/App.java");
                         ("content", JStr "class App{}"); ("type", JStr "java")])].

Definition main_update : list (string * json) := [("content", JStr "class Main {}")].

(** A second project, made from the [maven] template a little later;
    a request for a template that does not exist; a regular file among
    the project directories; a project whose descriptor holds [{}];
    an update whose content is a number; the projects that the
    [maven] and the unknown template give; a second request for the
    file that the [basic] template made; requests for a file and for
    a folder below directories that are yet to be made. *)
Definition later : clock := Clock 1700000000456 "2026-01-02T09:30:00".

Definition second_id : string := "1700000000456".

Definition maven_fields : list (string * json) :=
  [("name", JStr "Library"); ("template", JStr "maven")].

Definition second_world : world :=
  (create_project later (JDict maven_fields) demo_world).1.

Definition gradle_fields : list (string * json) :=
  [("name", JStr "Demo"); ("template", JStr "gradle")].

Definition notes_world : world := (write_text "projects/notes" "to do" demo_world).1.


Definition numeric_update : list (string * json) := [("content", JInt 5)].

Definition library : json :=
  JDict [("id", JStr second_id); ("name", JStr "Library"); ("template", JStr "maven");
         ("files", JList [pom_xml]);
         ("folders", JList [JStr "src"; JStr "src/main/java"; JStr "src/test/java"]);
         ("createdAt", JStr "2026-01-02T09:30:00")].

Definition gradle : json :=
  JDict [("id", JStr demo_id); ("name", JStr "Demo"); ("template", JStr "gradle");
         ("files", JList []); ("folders", JList [JStr "src"]);
         ("createdAt", JStr "2026-01-01T12:00:00")].


Definition util_request : list (string * json) :=
  [("name", JStr "Util.java"); ("path", JStr "src/util/Util.java");
   ("content", JStr "class Util {}")].

Definition native_request : list (string * json) := [("name", JStr "lib/native")].

(** A text with a DOS line ending and what a text stream reads it as;
    a request for a file with that text, its reply, and an update with
    it. *)
Definition dos_text : string := "a" +:+ String Str.cr (String Str.lf "b").

Definition unix_text : string := "a" +:+ String Str.lf "b".

Definition dos_request : list (string * json) :=
  [("name", JStr "notes.txt"); ("path", JStr "notes.txt"); ("content", JStr dos_text)].

Definition dos_reply : json :=
  JDict [("success", JBool true);
         ("file", JDict [("name", JStr "notes.txt"); ("path", JStr "notes.txt");
                         ("content", JStr dos_text); ("type", JStr "txt")])].

Definition dos_update : list (string * json) := [("content", JStr dos_text)].

(** A descriptor one of whose entries bears no ['path'], and the
    state after a request has put it in the place of the first
    project's. *)
Definition pathless : json :=
  JDict [("id", JStr demo_id); ("name", JStr "Demo");
         ("files", JList [JDict [("name", JStr "Main.java")]])].

Definition pathless_world : world :=
  (update_file demo_id "project.json" (JDict [("content", JStr (dumps pathless))])
     demo_world).1.

End Reference.

(* ================================================================== *)
(** ** Facts about strings and the directory tree *)
(* ================================================================== *)

(** *** Strings *)

Lemma string_app_cons x a b : String x a +:+ b = String x (a +:+ b).
Proof. done. Qed.

Lemma string_prefix_nil s : String.prefix "" s = true.
Proof. by destruct s. Qed.

Lemma string_prefix_cons a p b s :
  String.prefix (String a p) (String b s)
  = if ascii_dec a b then String.prefix p s else false.
Proof. done. Qed.

Lemma universal_newlines_id s :
  Str.has_char Str.cr s = false → Str.universal_newlines s = s.
Proof.
  induction s as [|a s IH]; [done|]. cbn [Str.has_char Str.universal_newlines].
  intros [Ha Hs]%orb_false_elim. rewrite Ha. by rewrite IH.
Qed.

Lemma split_nonempty c s : Str.split c s ≠ [].
Proof.
  destruct s as [|a s]; simpl; [done|].
  destruct (Ascii.eqb a c); [done|]. by destruct (Str.split c s).
Qed.

Lemma split_app c a b :
  Str.split c (a +:+ String c b) = (Str.split c a ++ Str.split c b)%list.
Proof.
  induction a as [|x a IH]; simpl.
  - by rewrite Ascii.eqb_refl.
  - rewrite IH. destruct (Ascii.eqb x c); [done|].
    pose proof (split_nonempty c a). by destruct (Str.split c a).
Qed.

Lemma contains_char c s : Str.contains (String c "") s = Str.has_char c s.
Proof.
  induction s as [|x s IH]; [done|]. cbn [Str.contains Str.has_char].
  rewrite IH, string_prefix_cons, string_prefix_nil. f_equal.
  destruct (ascii_dec c x) as [->|Hne].
  - by rewrite Ascii.eqb_refl.
  - symmetry. apply Ascii.eqb_neq. congruence.
Qed.

Lemma last_cons_cons {A} (x : A) l d : l ≠ [] → List.last (x :: l) d = List.last l d.
Proof. by destruct l. Qed.

Lemma split_last c s :
  (Str.has_char c s = false → Str.split c s = [s])
  ∧ (Str.has_char c s = true →
     ∃ h t pre, Str.split c s = h :: t ∧ t ≠ []
       ∧ s = pre +:+ String c (List.last t "")
       ∧ Str.has_char c (List.last t "") = false).
Proof.
  induction s as [|x s [IH1 IH2]]; [done|]. cbn [Str.split Str.has_char].
  destruct (Ascii.eqb x c) eqn:Hx.
  - apply Ascii.eqb_eq in Hx as ->. split; [done|]. intros _.
    destruct (Str.has_char c s) eqn:Hs.
    + destruct IH2 as (h & t & pre & Hsp & Ht & -> & Hl); [done|].
      exists "", (h :: t), (String c pre). rewrite Hsp.
      split; [done|]. split; [done|]. by rewrite last_cons_cons.
    + exists "", [s], "". rewrite IH1 by done. done.
  - simpl. split.
    + intros Hs. by rewrite IH1.
    + intros Hs. destruct IH2 as (h & t & pre & -> & Ht & -> & Hl); [done|].
      by exists (String x h), t, (String x pre).
Qed.

(** *** The directory tree *)

Lemma node_at_none c : node_at c None = None.
Proof. by destruct c. Qed.

Lemma node_at_app c1 c2 o : node_at (c1 ++ c2) o = node_at c2 (node_at c1 o).
Proof.
  revert o. induction c1 as [|n c1 IH]; intros o; simpl; [done|].
  destruct o as [[s|es]|]; simpl; try by rewrite node_at_none.
  apply IH.
Qed.

(** Reading back the altered location. *)
Lemma removelast_cons {A} (x y : A) l : removelast (x :: y :: l) = x :: removelast (y :: l).
Proof. done. Qed.

Lemma node_at_alter_same f c o :
  (f None = None ∨ ∃ es, node_at (removelast c) o = Some (Dir es)) →
  node_at c (alter_at f c o) = f (node_at c o).
Proof.
  revert o. induction c as [|n c IH]; intros o Hc; [done|].
  assert (Hbad : ∀ o', (∀ es, o' ≠ Some (Dir es)) →
            (∃ es, node_at (removelast (n :: c)) o' = Some (Dir es)) → False).
  { intros o' Ho' [es H]. destruct c as [|m c].
    - simpl in H. by eapply Ho'.
    - rewrite removelast_cons in H. simpl in H.
      destruct o' as [[?|es']|]; try done. by eapply Ho'. }
  destruct o as [[s|es]|]; simpl.
  - destruct Hc as [->|Hc]; [done|]. by destruct (Hbad (Some (File s))).
  - rewrite lookup_partial_alter_eq. destruct c as [|m c]; [done|]. apply IH.
    destruct Hc as [?|[es' H]]; [by left|]. right. exists es'. exact H.
  - destruct Hc as [->|Hc]; [done|]. by destruct (Hbad None).
Qed.

Lemma node_at_leafy c o : c ≠ [] → leafy o → node_at c o = None.
Proof.
  intros Hc Ho. destruct c as [|n c]; [done|].
  destruct o as [[s|es]|]; simpl in *; try done.
  subst es. by rewrite lookup_empty, node_at_none.
Qed.

(** A change between leaves (no node, a regular file, an empty
    directory) is invisible at every other location. *)
Lemma kind_alter_ne f c c' o :
  c' ≠ c → leafy (node_at c o) → leafy (f (node_at c o)) →
  kind (node_at c' (alter_at f c o)) = kind (node_at c' o).
Proof.
  revert c' o. induction c as [|n c IH]; intros c' o Hne H1 H2; simpl in *.
  - by rewrite !node_at_leafy.
  - destruct o as [[s|es]|]; try done.
    destruct c' as [|m c']; [done|]. simpl.
    destruct (decide (m = n)) as [->|Hmn].
    + rewrite lookup_partial_alter_eq. apply IH; [congruence|done..].
    + by rewrite lookup_partial_alter_ne.
Qed.

Lemma stat_kind w c : stat w c = kind (lookup w c).
Proof. done. Qed.

Lemma is_dir_stat w c : is_dir w c = bool_decide (stat w c = Some None).
Proof. unfold is_dir, stat. by destruct (lookup w c) as [[?|?]|]. Qed.

Lemma lookup_update f c w c' :
  c ≠ [] → lookup (update f c w) c' = node_at c' (alter_at f c (Some (Dir (root w)))).
Proof. by destruct c. Qed.

Lemma cwd_update f c w : cwd (update f c w) = cwd w.
Proof. by destruct c. Qed.

Lemma stat_update_ne f c w c' :
  c' ≠ c → leafy (lookup w c) → leafy (f (lookup w c)) →
  stat (update f c w) c' = stat w c'.
Proof.
  intros Hne H1 H2. destruct (decide (c = [])) as [->|Hc]; [done|].
  rewrite !stat_kind, lookup_update by done. by apply kind_alter_ne.
Qed.

Lemma is_dir_parent w d : is_dir w d = true → is_dir w (removelast d) = true.
Proof.
  destruct (decide (d = [])) as [->|Hd]; [done|].
  destruct (exists_last Hd) as (d0 & x & ->). rewrite removelast_last.
  unfold is_dir, lookup. rewrite node_at_app.
  destruct (node_at d0 _) as [[?|?]|]; simpl; done.
Qed.

Lemma lookup_update_same f c w :
  c ≠ [] → f None = None ∨ is_dir w (removelast c) = true →
  lookup (update f c w) c = f (lookup w c).
Proof.
  intros Hc Hp. rewrite lookup_update by done. apply node_at_alter_same.
  destruct Hp as [?|Hp]; [by left|right].
  unfold is_dir, lookup in Hp. destruct (node_at _ _) as [[?|es]|]; try done. by exists es.
Qed.

(** *** Path resolution *)

Lemma walk_same_dirs w w' cur l :
  same_dirs w w' → foldl (walk_step w') cur l = foldl (walk_step w) cur l.
Proof.
  intros [_ Hd]. revert cur. induction l as [|x l IH]; intros cur; simpl; [done|].
  rewrite IH. f_equal. destruct cur as [d|]; simpl; [|done]. by rewrite Hd.
Qed.

Lemma resolve_same_dirs w w' p : same_dirs w w' → resolve w' p = resolve w p.
Proof.
  intros Hs. unfold resolve, start. destruct Hs as [Hc Hd]. rewrite Hc.
  destruct (String.eqb p ""); [done|]. by apply walk_same_dirs.
Qed.

Lemma walk_none w l : foldl (walk_step w) None l = None.
Proof. by induction l. Qed.

Lemma walk_extends w w' cur l c :
  extends w w' → foldl (walk_step w) cur l = Some c →
  foldl (walk_step w') cur l = Some c.
Proof.
  intros (_ & Hd & _). revert cur. induction l as [|x l IH]; intros cur; simpl; [done|].
  intros Hw. apply IH. destruct cur as [d|]; simpl in *; [|by rewrite walk_none in Hw].
  destruct (is_dir w d) eqn:E; [|by rewrite walk_none in Hw]. by rewrite (Hd _ E).
Qed.

Lemma resolve_extends w w' p c :
  extends w w' → resolve w p = Some c → resolve w' p = Some c.
Proof.
  intros He. unfold resolve, start. destruct (He) as (Hc & _). rewrite Hc.
  destruct (String.eqb p ""); [done|]. by apply walk_extends.
Qed.

Lemma extends_refl w : extends w w.
Proof. done. Qed.

Lemma extends_trans w1 w2 w3 : extends w1 w2 → extends w2 w3 → extends w1 w3.
Proof.
  intros (A1 & B1 & C1) (A2 & B2 & C2). split; [congruence|]. split; eauto.
Qed.

Lemma move_cases d x : move d x = d ∨ move d x = removelast d ∨ move d x = (d ++ [x])%list.
Proof.
  unfold move. destruct (_ || _); [by left|]. destruct (String.eqb x ".."); auto.
Qed.

Lemma walk_last w cur l c :
  l ≠ [] → foldl (walk_step w) cur l = Some c →
  ∃ d x, is_dir w d = true ∧ c = move d x.
Proof.
  intros Hl. destruct (exists_last Hl) as (l0 & x & ->).
  rewrite foldl_snoc. destruct (foldl _ _ l0) as [d|]; simpl; [|done].
  destruct (is_dir w d) eqn:E; [|done]. intros [= <-]. eauto.
Qed.

(** A resolved location is the root or lies in an existing directory. *)
Lemma resolve_parent w p c :
  resolve w p = Some c → is_dir w (removelast c) = true.
Proof.
  unfold resolve. destruct (String.eqb p ""); [done|]. intros Hw.
  apply walk_last in Hw as (d & x & Hd & ->); [|apply split_nonempty].
  destruct (move_cases d x) as [->|[->| ->]].
  - by apply is_dir_parent.
  - by do 2 apply is_dir_parent.
  - by rewrite removelast_last.
Qed.

(** *** Reading, writing and removing files *)

Lemma path_exists_obs w p : path_exists w p = bool_decide (obs w p ≠ None).
Proof.
  unfold path_exists, obs, stat. destruct (resolve w p) as [c|]; simpl; [|done].
  by destruct (lookup w c) as [[?|?]|].
Qed.

Lemma path_isdir_obs w p : path_isdir w p = bool_decide (obs w p = Some None).
Proof.
  unfold path_isdir, obs, stat. destruct (resolve w p) as [c|]; simpl; [|done].
  by destruct (lookup w c) as [[?|?]|].
Qed.

Lemma file_text_obs w p : file_text w p = obs w p ≫= id.
Proof.
  unfold file_text, obs, stat. destruct (resolve w p) as [c|]; simpl; [|done].
  by destruct (lookup w c) as [[?|?]|].
Qed.

Lemma leafy_not_dir w c : stat w c ≠ Some None → leafy (lookup w c).
Proof. unfold stat. by destruct (lookup w c) as [[?|?]|]. Qed.

Lemma update_file_spec w c text :
  stat w c ≠ Some None → is_dir w (removelast c) = true →
  stat (update (λ _, Some (File text)) c w) c = Some (Some text)
  ∧ ∀ c', c' ≠ c → stat (update (λ _, Some (File text)) c w) c' = stat w c'.
Proof.
  intros Hc Hp. assert (c ≠ []) by (by intros ->). split.
  - unfold stat. by rewrite lookup_update_same by auto.
  - intros c' Hne. apply stat_update_ne; [done| |done]. by apply leafy_not_dir.
Qed.

Lemma open_w_spec w p w1 c :
  open_w w p = Some (w1, c) → wrote p "" w w1 ∧ resolve w p = Some c.
Proof.
  unfold open_w. destruct (resolve w p) as [c0|] eqn:Hr; simpl; [|done].
  intros Ho.
  assert (stat w c0 ≠ Some None ∧ w1 = update (λ _, Some (File "")) c0 w ∧ c = c0)
    as (Hs & -> & ->).
  { unfold stat. destruct (lookup w c0) as [[?|?]|]; naive_solver. }
  split; [|done]. exists c0. split; [done|]. split; [done|].
  destruct (update_file_spec w c0 "" Hs (resolve_parent _ _ _ Hr)) as [A B].
  by rewrite cwd_update.
Qed.

Lemma wrote_same_dirs p text w w' : wrote p text w w' → same_dirs w w'.
Proof.
  intros (c & _ & H1 & H2 & Hc & Hf). split; [done|]. intros c'.
  rewrite !is_dir_stat. destruct (decide (c' = c)) as [->|Hne].
  - rewrite H2. by rewrite !bool_decide_eq_false_2.
  - by rewrite Hf.
Qed.

Lemma wrote_resolve p text w w' q : wrote p text w w' → resolve w' q = resolve w q.
Proof. intros Hw. eapply resolve_same_dirs, wrote_same_dirs, Hw. Qed.

Lemma wrote_obs_same p text w w' : wrote p text w w' → obs w' p = Some (Some text).
Proof.
  intros Hw. unfold obs. rewrite (wrote_resolve _ _ _ _ _ Hw).
  destruct Hw as (c & -> & _ & H2 & _). done.
Qed.

Lemma wrote_obs_other p text w w' q :
  wrote p text w w' → resolve w q ≠ resolve w p → obs w' q = obs w q.
Proof.
  intros Hw Hne. unfold obs. rewrite (wrote_resolve _ _ _ _ _ Hw).
  destruct Hw as (c & Hr & _ & _ & _ & Hf). rewrite Hr in Hne.
  destruct (resolve w q) as [cq|]; simpl; [|done]. apply Hf. congruence.
Qed.

Lemma wrote_again p t1 t2 w w1 w2 :
  wrote p t1 w w1 → wrote p t2 w1 w2 → wrote p t2 w w2.
Proof.
  intros Hw1 (c & Hr & H1 & H2 & Hc & Hf).
  rewrite (wrote_resolve _ _ _ _ _ Hw1) in Hr.
  destruct Hw1 as (c' & Hr' & H1' & H2' & Hc' & Hf').
  assert (c' = c) as -> by congruence.
  exists c. split; [done|]. split; [done|]. split; [done|]. split; [congruence|].
  intros c' Hne. rewrite Hf, Hf'; done.
Qed.

Lemma write_handle_spec p w w1 c text :
  wrote p "" w w1 → resolve w p = Some c → wrote p text w (write_handle c text w1).
Proof.
  intros Hw Hr. eapply wrote_again; [exact Hw|].
  pose proof (wrote_resolve _ _ _ _ p Hw) as Hr1. rewrite Hr in Hr1.
  assert (stat w1 c = Some (Some "")) as Hs.
  { destruct Hw as (c' & Hr' & _ & H2 & _). congruence. }
  exists c. split; [done|]. split; [by rewrite Hs|].
  destruct (update_file_spec w1 c text) as [A B].
  { by rewrite Hs. } { by eapply resolve_parent. }
  unfold write_handle. by rewrite cwd_update.
Qed.

Lemma write_text_spec p text w w' r :
  write_text p text w = (w', r) →
  (r = Some tt ∧ wrote p text w w') ∨ (r = None ∧ w' = w).
Proof.
  unfold write_text. destruct (open_w w p) as [[w1 c]|] eqn:Ho.
  - intros [= <- <-]. left. split; [done|].
    apply open_w_spec in Ho as [Hw Hr]. by eapply write_handle_spec.
  - intros [= <- <-]. by right.
Qed.

Lemma write_value_spec p v w w' r :
  write_value p v w = (w', r) →
  (r = Some tt ∧ ∃ text, v = JStr text ∧ wrote p text w w')
  ∨ (r = None ∧ (w' = w ∨ wrote p "" w w')).
Proof.
  unfold write_value. destruct (open_w w p) as [[w1 c]|] eqn:Ho.
  - apply open_w_spec in Ho as [Hw Hr].
    destruct v; intros [= <- <-]; try (right; split; [done|by right]).
    left. split; [done|]. eexists. split; [done|]. by eapply write_handle_spec.
  - intros [= <- <-]. right. split; [done|by left].
Qed.

Lemma remove_spec w p w' : remove w p = Some w' → removed p w w'.
Proof.
  unfold remove. destruct (resolve w p) as [c|] eqn:Hr; simpl; [|done].
  destruct (lookup w c) as [[s|?]|] eqn:Hl; try done. intros [= <-].
  assert (c ≠ []) by (intros ->; done).
  exists c, s. split; [done|]. unfold stat. rewrite Hl. split; [done|].
  rewrite lookup_update_same by auto. split; [done|].
  rewrite cwd_update. split; [done|]. intros c' Hne.
  apply (stat_update_ne (λ _, None)); [done|by rewrite Hl|done].
Qed.

Lemma removed_same_dirs p w w' : removed p w w' → same_dirs w w'.
Proof.
  intros (c & s & _ & H1 & H2 & Hc & Hf). split; [done|]. intros c'.
  rewrite !is_dir_stat. destruct (decide (c' = c)) as [->|Hne].
  - rewrite H1, H2. done.
  - by rewrite Hf.
Qed.

Lemma removed_obs_same p w w' : removed p w w' → obs w' p = None.
Proof.
  intros Hw. unfold obs. rewrite (resolve_same_dirs _ _ _ (removed_same_dirs _ _ _ Hw)).
  destruct Hw as (c & s & -> & _ & H2 & _). done.
Qed.

Lemma removed_obs_other p w w' q :
  removed p w w' → resolve w q ≠ resolve w p → obs w' q = obs w q.
Proof.
  intros Hw Hne. unfold obs.
  rewrite (resolve_same_dirs _ _ _ (removed_same_dirs _ _ _ Hw)).
  destruct Hw as (c & s & Hr & _ & _ & _ & Hf). rewrite Hr in Hne.
  destruct (resolve w q) as [cq|]; simpl; [|done]. apply Hf. congruence.
Qed.

(** *** Making directories *)

Lemma makedirs_step_extends w cur x :
  extends w (makedirs_step (w, cur) x).1.
Proof.
  unfold makedirs_step. destruct cur as [d|]; [|apply extends_refl].
  destruct (is_dir w d); [|apply extends_refl].
  destruct (lookup w (move d x)) as [[?|?]|] eqn:Hl; simpl; try apply extends_refl.
  assert (∀ c', c' ≠ move d x →
            stat (update (λ _, Some (Dir ∅)) (move d x) w) c' = stat w c') as Hf.
  { intros c' Hne. apply stat_update_ne; [done|by rewrite Hl|done]. }
  split; [by rewrite cwd_update|]. split.
  - intros c Hc. rewrite is_dir_stat in *. destruct (decide (c = move d x)) as [->|Hne].
    + unfold stat in Hc. by rewrite Hl in Hc.
    + by rewrite Hf.
  - intros c s Hc. destruct (decide (c = move d x)) as [->|Hne].
    + unfold stat in Hc. by rewrite Hl in Hc.
    + by rewrite Hf.
Qed.

Lemma makedirs_foldl_extends l w cur :
  extends w (foldl makedirs_step (w, cur) l).1.
Proof.
  revert w cur. induction l as [|x l IH]; intros w cur; [apply extends_refl|].
  cbn [foldl]. pose proof (makedirs_step_extends w cur x) as H1.
  destruct (makedirs_step (w, cur) x) as [w1 cur1]. simpl in H1.
  eapply extends_trans; [exact H1|apply IH].
Qed.

(** [os.makedirs] only adds directories. *)
Lemma makedirs_extends w p : extends w (makedirs w p).1.
Proof.
  unfold makedirs. destruct (String.eqb p ""); [apply extends_refl|].
  apply makedirs_foldl_extends.
Qed.

Lemma os_makedirs_extends p w w' r : os_makedirs p w = (w', r) → extends w w'.
Proof. unfold os_makedirs. intros [= <- _]. apply makedirs_extends. Qed.

(** *** Joined paths *)

Lemma append_assoc_slash a b : (a +:+ "/") +:+ b = a +:+ String Str.slash b.
Proof. induction a as [|x a IH]; [done|]. by rewrite !string_app_cons, IH. Qed.

Lemma endswith_inv c a : Str.endswith c a = true → ∃ a0, a = a0 +:+ String c "".
Proof.
  induction a as [|x a IH]; simpl; [done|]. destruct a as [|y a].
  - intros ->%Ascii.eqb_eq. by exists "".
  - intros [a0 ->]%IH. by exists (String x a0).
Qed.

Lemma eqb_app_nonempty a b : a ≠ "" → String.eqb (a +:+ b) "" = false.
Proof. by destruct a. Qed.

Lemma start_app w a b : a ≠ "" → start w (a +:+ b) = start w a.
Proof.
  unfold start, Str.startswith. destruct a as [|x a]; [done|]. intros _.
  rewrite string_app_cons, !string_prefix_cons. destruct (ascii_dec "/" x); [|done].
  by rewrite !string_prefix_nil.
Qed.

Lemma walk_step_stay w cur x :
  walk_step w (walk_step w cur "") x = walk_step w cur x.
Proof.
  destruct cur as [d|]; simpl; [|done]. destruct (is_dir w d) eqn:E; simpl; [|done].
  change (move d "") with d. by rewrite E.
Qed.

Lemma walk_stay w cur l :
  l ≠ [] →
  foldl (walk_step w) (walk_step w cur "") l = foldl (walk_step w) cur l.
Proof. destruct l as [|x l]; [done|]. intros _. cbn [foldl]. by rewrite walk_step_stay. Qed.

(** Resolving a joined path continues the walk of its first part. *)
Lemma resolve_join w a b :
  a ≠ "" → Str.startswith "/" b = false →
  resolve w (path_join a b)
  = foldl (walk_step w) (resolve w a) (Str.split Str.slash b).
Proof.
  intros Ha Hb. unfold path_join. rewrite Hb.
  replace (String.eqb a "") with false by (by destruct a). cbn [orb].
  destruct (Str.endswith Str.slash a) eqn:He.
  - apply endswith_inv in He as [a0 ->]. unfold resolve.
    rewrite !eqb_app_nonempty, !start_app by done.
    replace (String.eqb (a0 +:+ String Str.slash "") "") with false
      by (by destruct a0).
    rewrite (split_app _ a0 ""), foldl_app. cbn [Str.split foldl].
    rewrite walk_stay by apply split_nonempty.
    change (String Str.slash "") with "/".
    by rewrite append_assoc_slash, split_app, foldl_app.
  - unfold resolve. rewrite !eqb_app_nonempty, !start_app by done.
    replace (String.eqb a "") with false by (by destruct a).
    change ("/" +:+ b) with (String Str.slash b).
    by rewrite split_app, foldl_app.
Qed.

Lemma get_project_path_nonempty pid : get_project_path pid ≠ "".
Proof.
  unfold get_project_path, path_join, PROJECTS_DIR.
  destruct (Str.startswith "/" pid) eqn:E; [by destruct pid|done].
Qed.

(** Nothing exists below a path that does not exist. *)
Lemma obs_join_none w a b :
  a ≠ "" → Str.startswith "/" b = false → obs w a = None →
  obs w (path_join a b) = None.
Proof.
  intros Ha Hb Ho. unfold obs in *. rewrite resolve_join by done.
  pose proof (split_nonempty Str.slash b).
  destruct (Str.split Str.slash b) as [|x l]; [done|]. simpl.
  replace (walk_step w (resolve w a) x) with (@None (list string)).
  { by rewrite walk_none. }
  destruct (resolve w a) as [c|]; simpl in *; [|done].
  by rewrite is_dir_stat, Ho.
Qed.

(** *** Entry names *)

Lemma uint_digits d :
  Str.has_char Str.slash (NilEmpty.string_of_uint d) = false
  ∧ Str.has_char Str.dot (NilEmpty.string_of_uint d) = false.
Proof. induction d; simpl; tauto. Qed.

Lemma no_dot_name s :
  Str.has_char Str.slash s = false → Str.has_char Str.dot s = false → s ≠ "" →
  is_name s = true.
Proof.
  intros Hs Hd Hne. unfold is_name. rewrite Hs. simpl.
  destruct s as [|a s]; [done|]. unfold Str.dot in *. simpl in *.
  apply orb_false_iff in Hd as [Ha Hd].
  destruct s as [|b s]; simpl.
  - by rewrite Ha.
  - by rewrite Ha.
Qed.

Lemma of_Z_name n : is_name (Str.of_Z n) = true.
Proof.
  unfold Str.of_Z, NilZero.string_of_int.
  assert (∀ d, is_name (NilZero.string_of_uint d) = true) as Hu.
  { intros d. destruct (uint_digits d) as [H1 H2].
    destruct d; try done; apply no_dot_name; simpl in *; done. }
  destruct (Z.to_int n) as [d|d]; [apply Hu|].
  destruct (uint_digits d) as [H1 H2].
  assert (Str.has_char Str.slash (NilZero.string_of_uint d) = false
          ∧ Str.has_char Str.dot (NilZero.string_of_uint d) = false) as [H3 H4].
  { by destruct d. }
  apply no_dot_name; simpl; done.
Qed.

Lemma name_move d s : is_name s = true → move d s = (d ++ [s])%list.
Proof.
  unfold is_name, move. intros H.
  repeat (apply andb_true_iff in H as [H ?]).
  destruct (String.eqb s ""), (String.eqb s "."), (String.eqb s ".."); done.
Qed.

Lemma name_split s : is_name s = true → Str.split Str.slash s = [s].
Proof.
  unfold is_name. intros H. repeat (apply andb_true_iff in H as [H ?]).
  apply split_last. by destruct (Str.has_char Str.slash s).
Qed.

Lemma name_relative s : is_name s = true → Str.startswith "/" s = false.
Proof.
  unfold is_name, Str.startswith. intros H. repeat (apply andb_true_iff in H as [H ?]).
  destruct s as [|a s]; [done|]. rewrite string_prefix_cons.
  destruct (ascii_dec "/" a) as [<-|]; [|done]. done.
Qed.

(** *** Directories and files below an existing directory *)

Lemma makedirs_step_name w d n :
  is_dir w d = true → is_name n = true →
  (∀ s, stat w (d ++ [n]) ≠ Some (Some s)) →
  ∃ w', makedirs_step (w, Some d) n = (w', Some (d ++ [n])%list)
        ∧ cwd w' = cwd w ∧ is_dir w' (d ++ [n]) = true
        ∧ ∀ c, c ≠ (d ++ [n])%list → stat w' c = stat w c.
Proof.
  intros Hd Hn Hf. unfold makedirs_step. rewrite Hd, (name_move _ _ Hn).
  destruct (lookup w (d ++ [n])) as [[s|es]|] eqn:Hl.
  - destruct (Hf s). unfold stat. by rewrite Hl.
  - exists w. split; [done|]. split; [done|]. split; [|done].
    unfold is_dir. by rewrite Hl.
  - eexists. split; [done|]. rewrite cwd_update. split; [done|].
    assert ((d ++ [n])%list ≠ []) by (by destruct d).
    split.
    + unfold is_dir. rewrite lookup_update_same; [done|done|].
      right. by rewrite removelast_last.
    + intros c Hc. apply stat_update_ne; [done|by rewrite Hl|done].
Qed.

Lemma app_ne_self {A} (d p : list A) : p ≠ [] → (d ++ p)%list ≠ d.
Proof.
  intros Hp Heq. apply Hp. apply (app_inv_head d). by rewrite app_nil_r.
Qed.

Lemma app_cons_ne {A} (d : list A) n p : p ≠ [] → d ++ n :: p ≠ d ++ [n].
Proof. intros Hp Heq. apply app_inv_head in Heq. by injection Heq. Qed.

(** [os.makedirs] along a path of names with no regular file in the
    way makes every directory of the path. *)
Lemma makedirs_names names w d :
  is_dir w d = true → Forall (λ n, is_name n = true) names →
  (∀ p s, p ≠ [] → p `prefix_of` names → stat w (d ++ p) ≠ Some (Some s)) →
  ∃ w', foldl makedirs_step (w, Some d) names = (w', Some (d ++ names)%list)
        ∧ made d names w w'.
Proof.
  revert w d. induction names as [|n names IH]; intros w d Hd Hnames Hfree.
  - exists w. rewrite app_nil_r. split; [done|]. split; [done|]. split; [|done].
    intros p Hp Hpre. by apply prefix_nil_inv in Hpre.
  - inversion Hnames as [|? ? Hn Hnames']; subst. cbn [foldl].
    destruct (makedirs_step_name w d n Hd Hn) as (w1 & -> & Hc1 & Hd1 & Hf1).
    { intros s. apply Hfree; [done|]. apply prefix_cons, prefix_nil. }
    destruct (IH w1 (d ++ [n]) Hd1 Hnames') as (w' & Hw' & Hc' & Hd' & Hf').
    { intros p s Hp Hpre. rewrite <- app_assoc. cbn [app].
      rewrite Hf1 by (by apply app_cons_ne).
      apply Hfree; [done|by apply prefix_cons]. }
    exists w'. rewrite Hw', <- app_assoc. split; [done|].
    split; [congruence|]. split.
    + intros p Hp Hpre. destruct p as [|x p]; [done|].
      pose proof (prefix_cons_inv_1 _ _ _ _ Hpre) as ->.
      apply prefix_cons_inv_2 in Hpre.
      destruct (decide (p = [])) as [->|Hp'].
      * rewrite is_dir_stat, Hf', <- is_dir_stat; [done|].
        intros q Hq _ Heq. by apply (app_ne_self (d ++ [n]) q).
      * change (d ++ n :: p) with (d ++ ([n] ++ p)). rewrite app_assoc. by apply Hd'.
    + intros c Hc. rewrite Hf', Hf1; [done| |].
      * apply Hc; [done|]. apply prefix_cons, prefix_nil.
      * intros q Hq Hpre. rewrite <- app_assoc. apply Hc; [done|by apply prefix_cons].
Qed.

Lemma makedirs_existing w cur l D :
  foldl (walk_step w) cur l = Some D → is_dir w D = true →
  foldl makedirs_step (w, cur) l = (w, Some D).
Proof.
  revert D. induction l as [|x l IH] using rev_ind; intros D.
  - simpl. by intros ->.
  - rewrite !foldl_snoc. destruct (foldl (walk_step w) cur l) as [D0|]; [|done].
    simpl. destruct (is_dir w D0) eqn:E; [|done]. intros [= <-] HD.
    rewrite (IH D0 eq_refl E). unfold makedirs_step. rewrite E.
    unfold is_dir in HD. by destruct (lookup w (move D0 x)) as [[?|?]|].
Qed.

(** The components of a joined path: those of the first part, which
    lead where the first part leads, then those of the second. *)
Lemma join_split w a b :
  a ≠ "" → Str.startswith "/" b = false →
  ∃ l, Str.split Str.slash (path_join a b) = (l ++ Str.split Str.slash b)%list
       ∧ String.eqb (path_join a b) "" = false
       ∧ start w (path_join a b) = start w a
       ∧ ∀ D, resolve w a = Some D → is_dir w D = true →
              foldl (walk_step w) (Some (start w a)) l = Some D.
Proof.
  intros Ha Hb. unfold path_join. rewrite Hb.
  replace (String.eqb a "") with false by (by destruct a). cbn [orb].
  destruct (Str.endswith Str.slash a) eqn:He.
  - apply endswith_inv in He as [a0 ->]. exists (Str.split Str.slash a0).
    change (String Str.slash "") with "/".
    rewrite append_assoc_slash, split_app.
    split; [done|]. split; [by destruct a0|]. split.
    { rewrite <- append_assoc_slash. by apply start_app. }
    intros D. unfold resolve.
    replace (String.eqb (a0 +:+ "/") "") with false by (by destruct a0).
    change (a0 +:+ "/") with (a0 +:+ String Str.slash "").
    rewrite split_app, foldl_app. cbn [Str.split foldl].
    destruct (foldl _ _ (Str.split Str.slash a0)) as [D0|]; [|done]. simpl.
    destruct (is_dir w D0); [|done]. by intros [= <-].
  - exists (Str.split Str.slash a).
    change ("/" +:+ b) with (String Str.slash b). rewrite split_app.
    split; [done|]. split; [by destruct a|]. split; [by apply start_app|].
    intros D. unfold resolve. by replace (String.eqb a "") with false by (by destruct a).
Qed.

Lemma os_makedirs_below w a rel D :
  resolve w a = Some D → a ≠ "" → is_dir w D = true →
  Str.startswith "/" rel = false →
  Forall (λ n, is_name n = true) (Str.split Str.slash rel) →
  (∀ p s, p ≠ [] → p `prefix_of` Str.split Str.slash rel →
          stat w (D ++ p) ≠ Some (Some s)) →
  ∃ w', os_makedirs (path_join a rel) w = (w', Some ())
        ∧ made D (Str.split Str.slash rel) w w'.
Proof.
  intros Hr Ha Hd Hrel Hnames Hfree.
  destruct (join_split w a rel Ha Hrel) as (l & Hsp & Hne & Hst & Hl).
  destruct (makedirs_names _ w D Hd Hnames Hfree) as (w' & Hw' & Hmade).
  exists w'. split; [|done].
  unfold os_makedirs, makedirs. rewrite Hne, Hsp, Hst, foldl_app.
  rewrite (makedirs_existing _ _ _ D (Hl D Hr Hd) Hd), Hw'. done.
Qed.

Lemma path_join_nonempty a b : a ≠ "" → path_join a b ≠ "".
Proof.
  intros Ha. unfold path_join. destruct (Str.startswith "/" b) eqn:E.
  - by destruct b.
  - destruct (_ || _); by destruct a.
Qed.

Lemma resolve_child w a f D :
  resolve w a = Some D → a ≠ "" → is_dir w D = true → is_name f = true →
  resolve w (path_join a f) = Some (D ++ [f])%list.
Proof.
  intros Hr Ha Hd Hf. rewrite resolve_join by auto using name_relative.
  rewrite Hr, (name_split _ Hf). simpl. by rewrite Hd, (name_move _ _ Hf).
Qed.

Lemma write_text_child w a f D text :
  resolve w a = Some D → a ≠ "" → is_dir w D = true → is_name f = true →
  stat w (D ++ [f]) ≠ Some None →
  ∃ w', write_text (path_join a f) text w = (w', Some ())
        ∧ cwd w' = cwd w
        ∧ (∀ c, is_dir w' c = is_dir w c)
        ∧ ∀ c, c ≠ (D ++ [f])%list → stat w' c = stat w c.
Proof.
  intros Hr Ha Hd Hf Hs. pose proof (resolve_child _ _ _ _ Hr Ha Hd Hf) as Hc.
  destruct (write_text (path_join a f) text w) as [w' r] eqn:Hw.
  destruct (write_text_spec _ _ _ _ _ Hw) as [[-> Hwr]|[-> ->]].
  - exists w'. split; [done|]. pose proof (wrote_same_dirs _ _ _ _ Hwr) as [? ?].
    destruct Hwr as (c & Hrc & _ & _ & _ & Hfr).
    assert (c = (D ++ [f])%list) as -> by congruence. done.
  - exfalso. unfold write_text, open_w in Hw. rewrite Hc in Hw. simpl in Hw.
    unfold stat in Hs. by destruct (lookup w (D ++ [f])) as [[?|?]|].
Qed.

Lemma stat_below_none w c l : stat w c = None → l ≠ [] → stat w (c ++ l) = None.
Proof.
  unfold stat, lookup. rewrite node_at_app.
  destruct (node_at c _) as [[?|?]|]; try done. intros _ Hl.
  by rewrite node_at_none.
Qed.

Lemma made_frame D names w w' l :
  made D names w w' → bool_decide (l ≠ [] ∧ l `prefix_of` names) = false →
  stat w' (D ++ l) = stat w (D ++ l).
Proof.
  intros (_ & _ & Hf) Hl%bool_decide_eq_false. apply Hf.
  intros p Hp Hpre Heq. apply app_inv_head in Heq as ->. by apply Hl.
Qed.

Lemma made_dir D names w w' l :
  made D names w w' → bool_decide (l ≠ [] ∧ l `prefix_of` names) = true →
  is_dir w' (D ++ l) = true.
Proof. intros (_ & Hd & _) [Hl Hpre]%bool_decide_eq_true. by apply Hd. Qed.

Lemma project_path_name pid :
  is_name pid = true → get_project_path pid = "projects" +:+ String Str.slash pid.
Proof.
  intros Hn. unfold get_project_path, path_join. by rewrite (name_relative _ Hn).
Qed.

Lemma project_dir_made w pid :
  is_name pid = true → fresh w pid →
  ∃ w1, os_makedirs (get_project_path pid) w = (w1, Some ())
        ∧ project_dir w1 pid (cwd w ++ ["projects"; pid]).
Proof.
  intros Hn (Hcwd & Hroot & Hnew).
  destruct (makedirs_names ["projects"; pid] w (cwd w) Hcwd)
    as (w1 & Hw1 & Hmade).
  { by repeat constructor. }
  { intros p s Hp Hpre. destruct p as [|x p]; [done|].
    pose proof (prefix_cons_inv_1 _ _ _ _ Hpre) as ->.
    apply prefix_cons_inv_2 in Hpre. destruct p as [|y p]; [apply Hroot|].
    pose proof (prefix_cons_inv_1 _ _ _ _ Hpre) as ->.
    apply prefix_cons_inv_2, prefix_nil_inv in Hpre as ->. by rewrite Hnew. }
  assert (Str.split Str.slash (get_project_path pid) = ["projects"; pid]) as Hsp.
  { rewrite (project_path_name _ Hn), split_app, (name_split _ Hn). done. }
  assert (∀ w0, start w0 (get_project_path pid) = cwd w0) as Hst.
  { intros w0. by rewrite (project_path_name _ Hn). }
  assert (String.eqb (get_project_path pid) "" = false) as Hne.
  { by rewrite (project_path_name _ Hn). }
  exists w1. split.
  { unfold os_makedirs, makedirs. by rewrite Hne, Hsp, Hst, Hw1. }
  destruct (Hmade) as (Hc1 & Hd1 & Hf1).
  assert (is_dir w1 (cwd w) = true) as Hcwd1.
  { rewrite is_dir_stat, Hf1, <- is_dir_stat; [done|].
    intros p Hp _ Heq. by apply (app_ne_self (cwd w) p). }
  split; [|split].
  - unfold resolve. rewrite Hne, Hsp, Hst, Hc1. cbn [foldl walk_step].
    rewrite Hcwd1.
    change (move (cwd w) "projects") with (cwd w ++ ["projects"]).
    cbn [walk_step].
    rewrite (Hd1 ["projects"]); [|done|apply prefix_cons, prefix_nil].
    by rewrite (name_move _ _ Hn), <- app_assoc.
  - by apply (Hd1 ["projects"; pid]).
  - intros l Hl. rewrite <- app_assoc. rewrite Hf1.
    + rewrite app_assoc. by apply stat_below_none.
    + intros p Hp Hpre Heq. apply app_inv_head in Heq as <-.
      apply prefix_length in Hpre. rewrite length_app in Hpre. simpl in Hpre.
      destruct l; [done|]. simpl in Hpre. lia.
Qed.

Lemma prefixes_spec {A} (l p : list A) :
  p ≠ [] → p `prefix_of` l → p ∈ prefixes l.
Proof.
  revert p. induction l as [|x l IH]; intros p Hp Hpre.
  - by apply prefix_nil_inv in Hpre.
  - destruct p as [|y p]; [done|].
    pose proof (prefix_cons_inv_1 _ _ _ _ Hpre) as ->.
    apply prefix_cons_inv_2 in Hpre. simpl.
    destruct (decide (p = [])) as [->|Hp']; [apply list_elem_of_here|].
    apply list_elem_of_further, list_elem_of_fmap. exists p. split; [done|]. by apply IH.
Qed.

(** *** Removing directories *)

(** A change at [c] is invisible at every location that is not [c] or
    below it, as far as the kind of node goes. *)
Lemma kind_alter_off f c c' o :
  ¬ c `prefix_of` c' → kind (node_at c' (alter_at f c o)) = kind (node_at c' o).
Proof.
  revert c' o. induction c as [|n c IH]; intros c' o Hoff.
  { destruct Hoff. apply prefix_nil. }
  destruct o as [[s|es]|]; try done.
  destruct c' as [|n' c']; [done|]. simpl.
  destruct (decide (n = n')) as [<-|Hne].
  - rewrite lookup_partial_alter_eq. apply IH.
    intros Hpre. apply Hoff. by apply prefix_cons.
  - by rewrite lookup_partial_alter_ne.
Qed.

Lemma stat_update_off f c w c' :
  ¬ c `prefix_of` c' → stat (update f c w) c' = stat w c'.
Proof.
  intros Hoff. destruct c as [|n c]; [done|].
  rewrite !stat_kind, lookup_update by done. by apply kind_alter_off.
Qed.

Lemma cwd_clear c w : cwd (clear c w) = cwd w.
Proof. by destruct c. Qed.

Lemma stat_clear_off c w c' :
  ¬ c `prefix_of` c' → stat (clear c w) c' = stat w c'.
Proof.
  intros Hoff. destruct c as [|n c]; [destruct Hoff; apply prefix_nil|].
  by apply stat_update_off.
Qed.

Lemma is_dir_clear_off c w c' :
  ¬ c `prefix_of` c' → is_dir (clear c w) c' = is_dir w c'.
Proof. intros Hoff. by rewrite !is_dir_stat, stat_clear_off. Qed.

Lemma lookup_clear c w : is_dir w c = true → lookup (clear c w) c = Some (Dir ∅).
Proof.
  intros Hd. destruct c as [|n c]; [done|]. unfold clear.
  rewrite lookup_update_same; [done..|]. right. by apply is_dir_parent.
Qed.

Lemma stat_clear_below c w l :
  is_dir w c = true → l ≠ [] → stat (clear c w) (c ++ l) = None.
Proof.
  intros Hd Hl. unfold stat, lookup. rewrite node_at_app.
  fold (lookup (clear c w) c). rewrite lookup_clear by done.
  by rewrite node_at_leafy.
Qed.

Lemma clear_extends c w : is_dir w c = true → extends (clear c w) w.
Proof.
  intros Hd. split; [by rewrite cwd_clear|]. split.
  - intros c' Hc'. destruct (decide (c `prefix_of` c')) as [[l ->]|Hoff].
    + destruct l as [|x l]; [by rewrite app_nil_r|].
      rewrite is_dir_stat, stat_clear_below in Hc' by done. done.
    + rewrite is_dir_stat, stat_clear_off in Hc' by done. by rewrite is_dir_stat.
  - intros c' s Hc'. destruct (decide (c `prefix_of` c')) as [[l ->]|Hoff].
    + destruct l as [|x l].
      * rewrite app_nil_r in Hc'. unfold stat in Hc'.
        by rewrite lookup_clear in Hc'.
      * by rewrite stat_clear_below in Hc'.
    + by rewrite stat_clear_off in Hc'.
Qed.

(** A walk that ends in a name ends at an entry of that name. *)
Lemma last_component_empty comps :
  last_component comps = "" → Forall (λ x, x = "") comps.
Proof.
  induction comps as [|x l IH]; [done|]. simpl.
  destruct (last_component l) eqn:Hl; [|done]. intros ->. by constructor; [|apply IH].
Qed.

Lemma walk_stays w cur comps c :
  Forall (λ x, x = "") comps → foldl (walk_step w) cur comps = Some c → cur = Some c.
Proof.
  revert cur. induction comps as [|x l IH]; intros cur Hall Hw; [done|].
  inversion Hall as [|?? -> Hl]; subst. simpl in Hw. apply IH in Hw; [|done].
  destruct cur as [d|]; [|done]. simpl in Hw. by destruct (is_dir w d).
Qed.

Lemma walk_last_component w cur comps c :
  foldl (walk_step w) cur comps = Some c →
  is_name (last_component comps) = true →
  ∃ d, c = d ++ [last_component comps].
Proof.
  revert cur. induction comps as [|x l IH]; intros cur Hw Hn; [done|].
  simpl in Hw, Hn |- *. destruct (last_component l) as [|a s] eqn:Hl.
  - apply last_component_empty in Hl. apply walk_stays in Hw; [|done].
    destruct cur as [d|]; [|done]. simpl in Hw.
    destruct (is_dir w d); [|done]. injection Hw as <-.
    exists d. by apply name_move.
  - by apply (IH _ Hw).
Qed.

Lemma is_name_spec s :
  is_name s = true →
  (String.eqb s "" || String.eqb s "." || String.eqb s "..") = false.
Proof.
  unfold is_name. intros Hn.
  apply andb_prop in Hn as [Hn H3]. apply andb_prop in Hn as [Hn H2].
  apply andb_prop in Hn as [_ H1].
  apply negb_true_iff in H1, H2, H3. by rewrite H1, H2, H3.
Qed.

Lemma split_no_slash s : Forall (λ x, Str.has_char Str.slash x = false) (Str.split Str.slash s).
Proof.
  induction s as [|a s IH]; simpl; [by constructor|].
  destruct (Ascii.eqb a Str.slash) eqn:Ha; [by constructor|].
  destruct (Str.split Str.slash s) as [|h t]; [by repeat constructor; simpl; rewrite Ha|].
  inversion IH; subst. constructor; [|done]. simpl. by rewrite Ha.
Qed.

Lemma last_component_no_slash comps :
  Forall (λ x, Str.has_char Str.slash x = false) comps →
  Str.has_char Str.slash (last_component comps) = false.
Proof.
  induction 1 as [|x l Hx Hl IH]; [done|]. simpl.
  by destruct (last_component l).
Qed.

(** What a successful [rmdir] did. *)
Lemma rmdir_spec w p w' :
  rmdir w p = Some w' →
  ∃ c, resolve w p = Some c ∧ c ≠ [] ∧ lookup w c = Some (Dir ∅)
       ∧ w' = update (λ _, None) c w.
Proof.
  unfold rmdir. destruct (resolve w p) as [c|] eqn:Hc; [|done]. simpl.
  destruct (_ || _) eqn:Hn; [done|].
  destruct (lookup w c) as [[s|es]|] eqn:Hl; try done.
  destruct (map_to_list es) eqn:Hes; [|done]. intros [= <-].
  apply map_to_list_empty_iff in Hes as ->.
  exists c. repeat split; try done.
  unfold resolve in Hc. destruct (String.eqb p ""); [done|].
  apply walk_last_component in Hc as [d ->]; [by destruct d|].
  unfold is_name. rewrite last_component_no_slash by apply split_no_slash.
  apply orb_false_elim in Hn as [Hn H3]. apply orb_false_elim in Hn as [H1 H2].
  by rewrite H1, H2, H3.
Qed.

Lemma rmtree_spec p w w' :
  rmtree p w = (w', Some ()) → tree_removed p w w'.
Proof.
  unfold rmtree. destruct (resolve w p) as [c|] eqn:Hc; [|done].
  destruct (lookup w c) as [[s|es]|] eqn:Hl; try done.
  assert (Hd : is_dir w c = true) by (unfold is_dir; by rewrite Hl).
  destruct (rmdir (clear c w) p) as [w2|] eqn:Hr; [|done]. intros [= <-].
  apply rmdir_spec in Hr as (c1 & Hc1 & Hne & Hl1 & ->).
  pose proof (resolve_extends _ _ _ _ (clear_extends c w Hd) Hc1) as Hc1'.
  assert (c1 = c) as -> by congruence.
  exists c. repeat split; try done.
  - by rewrite cwd_update, cwd_clear.
  - assert (Hgone : stat (update (λ _, None) c (clear c w)) c = None).
    { unfold stat. rewrite lookup_update_same; [done..|]. by left. }
    intros l. destruct l as [|x l]; [by rewrite app_nil_r|].
    by apply stat_below_none.
  - intros c' Hoff. rewrite stat_update_off, stat_clear_off; done.
Qed.

Lemma tree_removed_extends p w w' : tree_removed p w w' → extends w' w.
Proof.
  intros (c & _ & _ & _ & Hcwd & Hgone & Hoff). split; [done|]. split.
  - intros c' Hc'. rewrite is_dir_stat in Hc' |- *.
    destruct (decide (c `prefix_of` c')) as [[l ->]|Hno].
    + by rewrite Hgone in Hc'.
    + by rewrite Hoff in Hc'.
  - intros c' s Hc'. destruct (decide (c `prefix_of` c')) as [[l ->]|Hno].
    + by rewrite Hgone in Hc'.
    + by rewrite Hoff in Hc'.
Qed.

Lemma tree_removed_gone p w w' : tree_removed p w w' → path_exists w' p = false.
Proof.
  intros Hr. pose proof (tree_removed_extends _ _ _ Hr) as Hext.
  destruct Hr as (c & Hc & _ & _ & _ & Hgone & _).
  rewrite path_exists_obs. apply bool_decide_eq_false. intros Hobs. apply Hobs.
  unfold obs. destruct (resolve w' p) as [c'|] eqn:Hc'; [|done]. simpl.
  rewrite (resolve_extends _ _ _ _ Hext Hc') in Hc. injection Hc as ->.
  specialize (Hgone []). by rewrite app_nil_r in Hgone.
Qed.

(** Whatever [rmtree] did, it did at the directory that the path leads
    to or below it. *)
Lemma rmtree_frame p w w' r :
  rmtree p w = (w', r) →
  w' = w ∨ ∃ c, resolve w p = Some c ∧ cwd w' = cwd w
               ∧ ∀ c', ¬ c `prefix_of` c' → stat w' c' = stat w c'.
Proof.
  unfold rmtree. destruct (resolve w p) as [c|] eqn:Hc; [|intros [= <- _]; by left].
  destruct (lookup w c) as [[s|es]|] eqn:Hl; try (intros [= <- _]; by left).
  assert (Hd : is_dir w c = true) by (unfold is_dir; by rewrite Hl).
  destruct (rmdir (clear c w) p) as [w2|] eqn:Hr; intros [= <- _]; right; exists c.
  - apply rmdir_spec in Hr as (c1 & Hc1 & Hne & Hl1 & ->).
    pose proof (resolve_extends _ _ _ _ (clear_extends c w Hd) Hc1) as Hc1'.
    assert (c1 = c) as -> by congruence.
    split; [done|]. split; [by rewrite cwd_update, cwd_clear|].
    intros c' Hoff. by rewrite stat_update_off, stat_clear_off.
  - split; [done|]. split; [apply cwd_clear|]. intros c' Hoff. by apply stat_clear_off.
Qed.

(** *** Directories once made *)

Lemma makedirs_foldl_none l w : foldl makedirs_step (w, None) l = (w, None).
Proof. by induction l. Qed.

Lemma makedirs_step_dir w d0 x wa d :
  makedirs_step (w, Some d0) x = (wa, Some d) →
  is_dir w d0 = true ∧ d = move d0 x ∧ is_dir wa d = true.
Proof.
  unfold makedirs_step. destruct (is_dir w d0) eqn:Hd0; [|done].
  destruct (lookup w (move d0 x)) as [[s|es]|] eqn:Hl; [done| |].
  - intros [= <- <-]. unfold is_dir. by rewrite Hl.
  - intros [= <- <-]. split; [done|]. split; [done|].
    assert (lookup w [] ≠ None) as Hroot by done.
    destruct (move_cases d0 x) as [Hm|[Hm|Hm]]; rewrite Hm in Hl |- *.
    + unfold is_dir in Hd0. by rewrite Hl in Hd0.
    + apply is_dir_parent in Hd0. unfold is_dir in Hd0. by rewrite Hl in Hd0.
    + unfold is_dir. rewrite lookup_update_same; [done|by destruct d0|].
      right. by rewrite removelast_last.
Qed.

(** The walk that made the directories finds them afterwards. *)
Lemma makedirs_walk l w cur w1 d :
  l ≠ [] → foldl makedirs_step (w, cur) l = (w1, Some d) →
  foldl (walk_step w1) cur l = Some d ∧ is_dir w1 d = true.
Proof.
  revert w cur. induction l as [|x l IH]; intros w cur Hl Hf; [done|].
  cbn [foldl] in Hf |- *.
  destruct (makedirs_step (w, cur) x) as [wa cura] eqn:Hs.
  pose proof (makedirs_foldl_extends l wa cura) as Hext.
  rewrite Hf in Hext. cbn [fst] in Hext.
  destruct cura as [d'|]; [|by rewrite makedirs_foldl_none in Hf].
  destruct cur as [d0|]; [|done].
  pose proof (makedirs_step_extends w (Some d0) x) as Hext0.
  rewrite Hs in Hext0. cbn [fst] in Hext0.
  apply makedirs_step_dir in Hs as (Hd0 & -> & Hd').
  assert (walk_step w1 (Some d0) x = Some (move d0 x)) as ->.
  { simpl. destruct Hext0 as (_ & Hup0 & _). destruct Hext as (_ & Hup & _).
    by rewrite (Hup _ (Hup0 _ Hd0)). }
  destruct l as [|y l].
  - simpl in Hf. injection Hf as <- <-. done.
  - by apply (IH wa).
Qed.

Lemma os_makedirs_walk p w w1 :
  os_makedirs p w = (w1, Some ()) →
  ∃ d, resolve w1 p = Some d ∧ is_dir w1 d = true.
Proof.
  intros Hm. pose proof (os_makedirs_extends _ _ _ _ Hm) as (Hcwd & _).
  unfold os_makedirs, makedirs in Hm. unfold resolve.
  destruct (String.eqb p "") eqn:Hp; [done|]. simpl in Hm.
  destruct (foldl makedirs_step _ _) as [w2 [d|]] eqn:Hf; [|done].
  injection Hm as <-. exists d.
  apply makedirs_walk in Hf; [|apply split_nonempty].
  unfold start in *. by rewrite Hcwd.
Qed.

Lemma path_isdir_resolve w p :
  path_isdir w p = match resolve w p with Some c => is_dir w c | None => false end.
Proof. unfold path_isdir, is_dir. by destruct (resolve w p). Qed.

Lemma os_makedirs_isdir p w w1 :
  os_makedirs p w = (w1, Some ()) → path_isdir w1 p = true.
Proof.
  intros (d & Hd & Hdir)%os_makedirs_walk. by rewrite path_isdir_resolve, Hd.
Qed.

Lemma os_makedirs_present p w :
  path_isdir w p = true → os_makedirs p w = (w, Some ()).
Proof.
  rewrite path_isdir_resolve. destruct (resolve w p) as [d|] eqn:Hd; [|done].
  intros Hdir. unfold os_makedirs, makedirs. unfold resolve in Hd.
  destruct (String.eqb p ""); [done|].
  by rewrite (makedirs_existing _ _ _ _ Hd Hdir).
Qed.

Lemma path_isdir_same_dirs w w' p :
  same_dirs w w' → path_isdir w' p = path_isdir w p.
Proof.
  intros Hs. rewrite !path_isdir_resolve, (resolve_same_dirs _ _ _ Hs).
  destruct Hs as [_ Hd]. by destruct (resolve w p).
Qed.

Lemma path_isdir_extends w w' p :
  extends w w' → path_isdir w p = true → path_isdir w' p = true.
Proof.
  intros Hext. rewrite !path_isdir_resolve.
  destruct (resolve w p) as [c|] eqn:Hc; [|done].
  rewrite (resolve_extends _ _ _ _ Hext Hc). by apply Hext.
Qed.

(** *** Paths made of names *)

Lemma is_dir_lookup w c : is_dir w c = true → ∃ es, lookup w c = Some (Dir es).
Proof. unfold is_dir. destruct (lookup w c) as [[s|es]|]; try done. by exists es. Qed.

Lemma lookup_entry w c n es :
  lookup w c = Some (Dir es) → lookup w (c ++ [n]) = es !! n.
Proof. unfold lookup. rewrite node_at_app. by intros ->. Qed.

Lemma obs_file w p text :
  obs w p = Some (Some text) →
  ∃ c, resolve w p = Some c ∧ lookup w c = Some (File text).
Proof.
  unfold obs, stat. destruct (resolve w p) as [c|]; [|done]. simpl.
  destruct (lookup w c) as [[s|es]|] eqn:Hl; try done. intros [= ->]. by exists c.
Qed.

Lemma obs_dir w p :
  obs w p = Some None → ∃ c, resolve w p = Some c ∧ is_dir w c = true.
Proof.
  unfold obs. destruct (resolve w p) as [c|]; [|done]. simpl.
  intros Hs. exists c. split; [done|]. rewrite is_dir_stat. by apply bool_decide_eq_true.
Qed.

Lemma obs_of_read w p text : file_text w p = Some text → obs w p = Some (Some text).
Proof. rewrite file_text_obs. by destruct (obs w p) as [[s|]|]; intros [= <-]. Qed.

Lemma open_w_ok w p old :
  obs w p = Some (Some old) → ∃ w1 c, open_w w p = Some (w1, c).
Proof.
  intros (c & Hc & Hl)%obs_file. unfold open_w. rewrite Hc. simpl. rewrite Hl.
  by eexists _, _.
Qed.

Lemma walk_names w d names c :
  Forall (λ n, is_name n = true) names →
  foldl (walk_step w) (Some d) names = Some c → c = d ++ names.
Proof.
  intros Hall. revert d. induction Hall as [|n names Hn _ IH]; intros d.
  { simpl. intros [= <-]. by rewrite app_nil_r. }
  simpl. destruct (is_dir w d); [|by rewrite walk_none].
  rewrite (name_move _ _ Hn). intros ->%IH. by rewrite <- app_assoc.
Qed.

Lemma walk_names_agree w w' d names :
  Forall (λ n, is_name n = true) names →
  (∀ p, p `prefix_of` names → is_dir w' (d ++ p) = is_dir w (d ++ p)) →
  foldl (walk_step w') (Some d) names = foldl (walk_step w) (Some d) names.
Proof.
  intros Hall. revert d. induction Hall as [|n names Hn _ IH]; intros d Hd; [done|].
  simpl. pose proof (Hd [] (prefix_nil _)) as Hd0. rewrite app_nil_r in Hd0.
  rewrite Hd0. destruct (is_dir w d); [|by rewrite !walk_none].
  rewrite (name_move _ _ Hn). apply IH. intros p Hp.
  rewrite <- !app_assoc. apply Hd. by apply prefix_cons.
Qed.

Lemma names_relative fp :
  Forall (λ n, is_name n = true) (Str.split Str.slash fp) →
  Str.startswith "/" fp = false.
Proof.
  destruct fp as [|a s]; [done|]. unfold Str.startswith.
  rewrite string_prefix_cons, string_prefix_nil.
  destruct (ascii_dec "/" a) as [<-|]; [|done].
  simpl. by inversion 1.
Qed.

(** Two paths made of names below the same directory lead to
    different places when their names differ. *)
Lemma resolve_names_ne w a b1 b2 c :
  a ≠ "" →
  Forall (λ n, is_name n = true) (Str.split Str.slash b1) →
  Forall (λ n, is_name n = true) (Str.split Str.slash b2) →
  Str.split Str.slash b1 ≠ Str.split Str.slash b2 →
  resolve w (path_join a b1) = Some c →
  resolve w (path_join a b2) ≠ Some c.
Proof.
  intros Ha H1 H2 Hne.
  rewrite !resolve_join by (done || by apply names_relative).
  destruct (resolve w a) as [D|]; [|by rewrite walk_none].
  intros ->%walk_names; [|done]. intros Heq. apply walk_names in Heq; [|done].
  by apply app_inv_head in Heq.
Qed.

Lemma resolve_nested w a :
  a ≠ "" →
  resolve w (path_join a "src/Main.java")
  = resolve w (path_join (path_join a "src") "Main.java").
Proof.
  intros Ha. rewrite !resolve_join by (done || by apply path_join_nonempty).
  done.
Qed.

Lemma path_isdir_src w a :
  a ≠ "" → path_isdir w (path_join a "src/main/java") = true →
  path_isdir w (path_join a "src") = true.
Proof.
  intros Ha. rewrite !path_isdir_resolve, !resolve_join by done.
  destruct (resolve w a) as [D|]; [|done].
  change (Str.split Str.slash "src/main/java") with ["src"; "main"; "java"].
  change (Str.split Str.slash "src") with ["src"].
  cbn [foldl walk_step]. destruct (is_dir w D); [|done].
  change (move D "src") with (D ++ ["src"]). cbn [walk_step].
  by destruct (is_dir w (D ++ ["src"])).
Qed.

Lemma resolve_root w :
  resolve w PROJECTS_DIR
  = if is_dir w (cwd w) then Some (cwd w ++ ["projects"]) else None.
Proof. unfold resolve. cbn. by destruct (is_dir w (cwd w)). Qed.

Lemma resolve_project w pid :
  is_name pid = true →
  resolve w (get_project_path pid)
  = if is_dir w (cwd w) && is_dir w (cwd w ++ ["projects"])
    then Some (cwd w ++ ["projects"; pid]) else None.
Proof.
  intros Hn. unfold resolve. rewrite (project_path_name _ Hn).
  rewrite split_app, (name_split _ Hn).
  change (String.eqb _ "") with false. change (start w _) with (cwd w).
  change (Str.split Str.slash "projects") with ["projects"].
  cbn [app foldl walk_step].
  destruct (is_dir w (cwd w)); [|done].
  change (move (cwd w) "projects") with (cwd w ++ ["projects"]). cbn [walk_step andb].
  destruct (is_dir w (cwd w ++ ["projects"])); [|done].
  by rewrite (name_move _ _ Hn), <- app_assoc.
Qed.

Lemma project_components pid :
  is_name pid = true →
  Str.split Str.slash (get_project_path pid) = ["projects"; pid].
Proof.
  intros Hn. by rewrite (project_path_name _ Hn), split_app, (name_split _ Hn).
Qed.

Lemma project_dir_resolves w pid :
  is_name pid = true → path_isdir w (get_project_path pid) = true →
  resolve w (get_project_path pid) = Some (cwd w ++ ["projects"; pid])
  ∧ is_dir w (cwd w ++ ["projects"; pid]) = true
  ∧ is_dir w (cwd w ++ ["projects"]) = true.
Proof.
  intros Hn. rewrite path_isdir_resolve, (resolve_project _ _ Hn).
  destruct (is_dir w (cwd w)); [|done].
  by destruct (is_dir w (cwd w ++ ["projects"])).
Qed.

Lemma prefix_project (d : list string) a b l :
  d ++ [a; b] `prefix_of` d ++ l → ∃ k, l = a :: b :: k.
Proof. intros [k Hk]. rewrite <- app_assoc in Hk. apply app_inv_head in Hk. by exists k. Qed.

Lemma off_parent (d : list string) a b : ¬ d ++ [a; b] `prefix_of` d ++ [a].
Proof. by intros [k [=]]%prefix_project. Qed.

Lemma off_grandparent (d : list string) a b : ¬ d ++ [a; b] `prefix_of` d.
Proof. rewrite <- (app_nil_r d) at 2. by intros [k [=]]%prefix_project. Qed.

Lemma descriptor_name : Forall (λ n, is_name n = true) (Str.split Str.slash "project.json").
Proof. by repeat constructor. Qed.

(** A project directory is an entry of the root. *)
Lemma listdir_entry w pid :
  is_name pid = true → path_isdir w (get_project_path pid) = true →
  ∃ names, listdir w PROJECTS_DIR = Some names ∧ pid ∈ names.
Proof.
  intros Hn Hdir. pose proof Hdir as Hcwd.
  rewrite path_isdir_resolve, (resolve_project _ _ Hn) in Hcwd.
  destruct (is_dir w (cwd w)) eqn:Hc; [|done]. clear Hcwd.
  destruct (project_dir_resolves _ _ Hn Hdir) as (_ & Hp & Hr).
  destruct (is_dir_lookup _ _ Hr) as [es Hes].
  destruct (is_dir_lookup _ _ Hp) as [es' Hes'].
  change (cwd w ++ ["projects"; pid]) with (cwd w ++ ["projects"] ++ [pid]) in Hes'.
  rewrite app_assoc, (lookup_entry _ _ _ _ Hes) in Hes'.
  unfold listdir. rewrite resolve_root, Hc. simpl. rewrite Hes.
  eexists. split; [done|]. apply list_elem_of_fmap.
  exists (pid, Dir es'). split; [done|]. by apply elem_of_map_to_list.
Qed.

(** *** Parent directories *)

Lemma split_single c s x : Str.split c s = [x] → s = x.
Proof.
  destruct (split_last c s) as [Hno Hyes].
  destruct (Str.has_char c s).
  - destruct Hyes as (h & t & pre & -> & Ht & _); [done|]. intros [= _ ->]. done.
  - rewrite Hno by done. by intros [= <-].
Qed.

(** The text before the last separator splits into the components
    before the last. *)
Lemma split_snoc_inv c s l x :
  Str.split c s = l ++ [x] → l ≠ [] →
  ∃ pre, s = pre +:+ String c x ∧ Str.split c pre = l.
Proof.
  revert l. induction s as [|a s IH]; intros l Hs Hl.
  { destruct l as [|h [|? ?]]; done. }
  cbn [Str.split] in Hs. destruct (Ascii.eqb a c) eqn:Ha.
  - apply Ascii.eqb_eq in Ha as ->. destruct l as [|h l1]; [done|].
    injection Hs as <- Hs. destruct l1 as [|h1 l1].
    + apply split_single in Hs as ->. by exists "".
    + destruct (IH (h1 :: l1) Hs) as (pre & -> & Hpre); [done|].
      exists (String c pre). split; [done|]. simpl. by rewrite Ascii.eqb_refl, Hpre.
  - pose proof (split_nonempty c s) as Hne.
    destruct (Str.split c s) as [|h t] eqn:Hsp; [done|].
    destruct l as [|h0 l1]; [done|]. injection Hs as <- Hs.
    destruct t as [|y t]; [by destruct l1|].
    destruct (IH (h :: l1)) as (pre & -> & Hpre); [by rewrite Hs|done|].
    exists (String a pre). split; [done|]. simpl. by rewrite Ha, Hpre.
Qed.

Lemma endswith_app c a b : b ≠ "" → Str.endswith c (a +:+ b) = Str.endswith c b.
Proof.
  intros Hb. induction a as [|x a IH]; [done|].
  rewrite string_app_cons. cbn [Str.endswith].
  destruct (a +:+ b) eqn:Hab; [|done]. by destruct a, b.
Qed.

Lemma endswith_no_char c s : Str.has_char c s = false → Str.endswith c s = false.
Proof.
  induction s as [|x s IH]; [done|]. cbn [Str.has_char Str.endswith].
  intros [Hx Hs]%orb_false_elim. destruct s; [done|]. by apply IH.
Qed.

Lemma has_char_app c a b :
  Str.has_char c (a +:+ b) = Str.has_char c a || Str.has_char c b.
Proof.
  induction a as [|x a IH]; [done|]. rewrite string_app_cons. cbn [Str.has_char].
  by rewrite IH, orb_assoc.
Qed.

Lemma upto_last_slash_none s :
  Str.has_char Str.slash s = false → Str.upto_last_slash s = "".
Proof. destruct s; [done|]. cbn [Str.upto_last_slash]. by intros ->. Qed.

Lemma upto_last_slash_app a f :
  Str.has_char Str.slash f = false →
  Str.upto_last_slash (a +:+ String Str.slash f) = a +:+ "/".
Proof.
  intros Hf. induction a as [|x a IH].
  - change ("" +:+ String Str.slash f) with (String Str.slash f).
    cbn [Str.upto_last_slash Str.has_char]. rewrite Ascii.eqb_refl. cbn [orb].
    by rewrite upto_last_slash_none.
  - rewrite !string_app_cons. cbn [Str.upto_last_slash].
    rewrite <- string_app_cons, has_char_app. cbn [Str.has_char].
    rewrite Ascii.eqb_refl, orb_true_r. by rewrite IH.
Qed.

Lemma rstrip_slash_app a : Str.rstrip_slash (a +:+ "/") = Str.rstrip_slash a.
Proof.
  induction a as [|x a IH]; [done|]. rewrite string_app_cons.
  cbn [Str.rstrip_slash]. by rewrite IH.
Qed.

Lemma rstrip_slash_id a : Str.endswith Str.slash a = false → Str.rstrip_slash a = a.
Proof.
  induction a as [|x a IH]; [done|]. cbn [Str.endswith Str.rstrip_slash].
  destruct a as [|y a].
  - intros ->. done.
  - intros Ha. by rewrite IH.
Qed.

(** [os.path.dirname] of a path that ends in a name. *)
Lemma dirname_child a f :
  a ≠ "" → Str.endswith Str.slash a = false → Str.has_char Str.slash f = false →
  dirname (a +:+ String Str.slash f) = a.
Proof.
  intros Ha He Hf. unfold dirname.
  rewrite upto_last_slash_app, rstrip_slash_app, rstrip_slash_id by done.
  by destruct a.
Qed.

Lemma split_head_empty s : Str.startswith "/" s = true → ∃ t, Str.split Str.slash s = "" :: t.
Proof.
  destruct s as [|x s]; [done|]. unfold Str.startswith.
  rewrite string_prefix_cons. destruct (ascii_dec "/" x) as [<-|]; [|done].
  intros _. by eexists.
Qed.

(** The parent of a path whose components are not empty: it ends in
    no slash and splits into the components before the last. *)
Lemma dirname_split s l x :
  Str.split Str.slash s = l ++ [x] → l ≠ [] → Forall (λ n, n ≠ "") l →
  Str.split Str.slash (dirname s) = l ∧ dirname s ≠ ""
  ∧ Str.startswith "/" (dirname s) = false.
Proof.
  intros Hs Hl Hall.
  destruct (split_snoc_inv _ _ _ _ Hs Hl) as (pre & -> & Hpre).
  assert (Str.has_char Str.slash x = false) as Hx.
  { pose proof (split_no_slash (pre +:+ String Str.slash x)) as Hno.
    rewrite Hs in Hno. apply Forall_app in Hno as [_ Hno]. by inversion Hno. }
  assert (pre ≠ "") as Hne.
  { intros ->. destruct l as [|h [|? ?]]; try done.
    injection Hpre as <-. by inversion Hall. }
  assert (Str.endswith Str.slash pre = false) as Hend.
  { destruct (Str.endswith Str.slash pre) eqn:He; [|done].
    apply endswith_inv in He as [a0 ->].
    rewrite (split_app _ a0 "") in Hpre. cbn [Str.split] in Hpre. subst l.
    apply Forall_app in Hall as [_ Hall]. by inversion Hall. }
  rewrite dirname_child by done. split; [done|]. split; [done|].
  destruct (Str.startswith "/" pre) eqn:Hst; [|done].
  apply split_head_empty in Hst as [t Ht]. rewrite Ht in Hpre. subst l.
  by inversion Hall.
Qed.

Lemma name_nonempty n : is_name n = true → n ≠ "".
Proof. by intros Hn ->. Qed.

(** Along names, the walk goes on as long as it meets directories. *)
Lemma walk_names_dirs w d names :
  Forall (λ n, is_name n = true) names →
  (∀ p, p `prefix_of` names → p ≠ names → is_dir w (d ++ p) = true) →
  foldl (walk_step w) (Some d) names = Some (d ++ names).
Proof.
  intros Hall. revert d. induction Hall as [|n names Hn _ IH]; intros d Hd.
  { by rewrite app_nil_r. }
  cbn [foldl walk_step]. pose proof (Hd [] (prefix_nil _)) as Hd0.
  rewrite app_nil_r in Hd0. rewrite Hd0 by done. rewrite (name_move _ _ Hn).
  rewrite IH; [by rewrite <- app_assoc|]. intros p Hp Hne.
  rewrite <- app_assoc. apply Hd; [by apply prefix_cons|]. by intros [= ->].
Qed.

Lemma project_path_ends pid :
  is_name pid = true → Str.endswith Str.slash (get_project_path pid) = false.
Proof.
  intros Hn. rewrite (project_path_name _ Hn).
  rewrite endswith_app by done. cbn [Str.endswith].
  pose proof (name_nonempty _ Hn). destruct pid; [done|].
  apply endswith_no_char. unfold is_name in Hn.
  by destruct (Str.has_char Str.slash _).
Qed.

(** The components of a path below a project. *)
Lemma project_file_components pid fp :
  is_name pid = true → Str.startswith "/" fp = false →
  path_join (get_project_path pid) fp
  = get_project_path pid +:+ String Str.slash fp
  ∧ Str.split Str.slash (path_join (get_project_path pid) fp)
    = ["projects"; pid] ++ Str.split Str.slash fp.
Proof.
  intros Hn Hfp.
  assert (path_join (get_project_path pid) fp
          = get_project_path pid +:+ String Str.slash fp) as ->.
  { unfold path_join at 1. rewrite Hfp, (project_path_ends _ Hn).
    pose proof (get_project_path_nonempty pid).
    by destruct (get_project_path pid). }
  split; [done|]. by rewrite split_app, (project_components _ Hn).
Qed.

(** *** Changes within a directory *)

Lemma within_refl P w : within P w w.
Proof. done. Qed.

Lemma within_trans P w1 w2 w3 : within P w1 w2 → within P w2 w3 → within P w1 w3.
Proof.
  intros [Hc1 H1] [Hc2 H2]. split; [congruence|].
  intros c Hc. by rewrite H2, H1.
Qed.

Lemma within_weaken P Q w w' : P `prefix_of` Q → within Q w w' → within P w w'.
Proof.
  intros Hpre [Hc Hq]. split; [done|]. intros c Hc'. apply Hq.
  intros Hq'. apply Hc'. by etrans.
Qed.

Lemma wrote_within P p text w w' c :
  wrote p text w w' → resolve w p = Some c → P `prefix_of` c → within P w w'.
Proof.
  intros (c0 & Hc0 & _ & _ & Hcwd & Hf) Hc Hpre. split; [done|].
  intros c' Hc'. apply Hf. intros ->. congruence.
Qed.

Lemma removed_within P p w w' c :
  removed p w w' → resolve w p = Some c → P `prefix_of` c → within P w w'.
Proof.
  intros (c0 & s & Hc0 & _ & _ & Hcwd & Hf) Hc Hpre. split; [done|].
  intros c' Hc'. apply Hf. intros ->. congruence.
Qed.

Lemma makedirs_step_within w d n :
  is_name n = true → within (d ++ [n]) w (makedirs_step (w, Some d) n).1.
Proof.
  intros Hn. unfold makedirs_step. destruct (is_dir w d); [|done].
  rewrite (name_move _ _ Hn).
  destruct (lookup w (d ++ [n])) as [[?|?]|]; simpl; try done.
  split; [apply cwd_update|]. intros c Hc. by apply stat_update_off.
Qed.

Lemma makedirs_step_at w d n w1 d1 :
  is_name n = true → makedirs_step (w, Some d) n = (w1, Some d1) → d1 = d ++ [n].
Proof.
  intros Hn. unfold makedirs_step. destruct (is_dir w d); [|done].
  rewrite (name_move _ _ Hn).
  by destruct (lookup w (d ++ [n])) as [[?|?]|]; intros [= _ <-].
Qed.

(** Making directories along names changes nothing outside the first
    of them. *)
Lemma makedirs_within names w d :
  Forall (λ n, is_name n = true) names →
  within (d ++ take 1 names) w (foldl makedirs_step (w, Some d) names).1.
Proof.
  intros Hall. revert w d. induction Hall as [|n names Hn Hall IH]; intros w d; [done|].
  cbn [foldl take]. pose proof (makedirs_step_within w d n Hn) as H1.
  destruct (makedirs_step (w, Some d) n) as [w1 [d1|]] eqn:Hs; cbn [fst] in H1.
  - apply (makedirs_step_at _ _ _ _ _ Hn) in Hs as ->.
    eapply within_trans; [exact H1|].
    eapply within_weaken; [|apply IH]. by apply prefix_app_r.
  - by rewrite makedirs_foldl_none.
Qed.

Lemma resolve_in_project w pid fp c :
  is_name pid = true →
  Forall (λ n, is_name n = true) (Str.split Str.slash fp) →
  resolve w (path_join (get_project_path pid) fp) = Some c →
  cwd w ++ ["projects"; pid] `prefix_of` c.
Proof.
  intros Hn Hfp. rewrite resolve_join
    by (apply get_project_path_nonempty || by apply names_relative).
  rewrite (resolve_project _ _ Hn). destruct (_ && _); [|by rewrite walk_none].
  intros ->%walk_names; [|done]. by apply prefix_app_r.
Qed.

(** [os.makedirs] on a path that goes through an existing project
    directory and on along names. *)
Lemma os_makedirs_within w pid p l w' r :
  is_name pid = true → path_isdir w (get_project_path pid) = true →
  Str.split Str.slash p = ["projects"; pid] ++ l →
  Forall (λ n, is_name n = true) l → Str.startswith "/" p = false →
  os_makedirs p w = (w', r) → within (cwd w ++ ["projects"; pid]) w w'.
Proof.
  intros Hn Hdir Hsplit Hl Hrel. unfold os_makedirs, makedirs.
  destruct (String.eqb p ""); [by intros [= <- _]|]. cbn [fst snd].
  intros [= <- _]. unfold start. rewrite Hrel, Hsplit, foldl_app.
  destruct (project_dir_resolves _ _ Hn Hdir) as (Hres & HP & Hroot).
  rewrite (makedirs_existing w (Some (cwd w)) ["projects"; pid]
             (cwd w ++ ["projects"; pid])); [| |done].
  - eapply within_weaken; [|by apply makedirs_within]. by apply prefix_app_r.
  - rewrite (resolve_project _ _ Hn) in Hres.
    destruct (is_dir w (cwd w)) eqn:Hcwd; [|done].
    cbn [foldl walk_step]. rewrite Hcwd.
    change (move (cwd w) "projects") with (cwd w ++ ["projects"]).
    cbn [walk_step]. rewrite Hroot. by rewrite (name_move _ _ Hn), <- app_assoc.
Qed.

(** [os.makedirs] on the path of a project below an existing root. *)
Lemma os_makedirs_project_within w pid w' r :
  is_name pid = true → path_isdir w PROJECTS_DIR = true →
  os_makedirs (get_project_path pid) w = (w', r) →
  within (cwd w ++ ["projects"; pid]) w w'.
Proof.
  intros Hn Hroot. unfold os_makedirs, makedirs.
  replace (String.eqb (get_project_path pid) "") with false
    by (pose proof (get_project_path_nonempty pid);
        by destruct (String.eqb_spec (get_project_path pid) "")).
  cbn [fst snd]. intros [= <- _].
  rewrite (project_components _ Hn).
  replace (start w (get_project_path pid)) with (cwd w)
    by (by rewrite (project_path_name _ Hn)).
  rewrite path_isdir_resolve, resolve_root in Hroot.
  destruct (is_dir w (cwd w)) eqn:Hcwd; [|done].
  change ["projects"; pid] with (["projects"] ++ [pid]). rewrite foldl_app.
  rewrite (makedirs_existing w (Some (cwd w)) ["projects"] (cwd w ++ ["projects"]));
    [| |done].
  - change (cwd w ++ ["projects"; pid]) with (cwd w ++ ["projects"] ++ [pid]).
    rewrite app_assoc. apply (makedirs_within [pid]). by repeat constructor.
  - cbn [foldl walk_step]. by rewrite Hcwd.
Qed.

(* ================================================================== *)
(** ** Facts about JSON values *)
(* ================================================================== *)

Lemma assoc_set_same k v d : assoc k (assoc_set k v d) = Some v.
Proof.
  induction d as [|[k' v'] d IH]; simpl.
  - by rewrite String.eqb_refl.
  - destruct (String.eqb k' k) eqn:E; simpl; by rewrite E.
Qed.

Lemma assoc_set_other k k' v d :
  k' ≠ k → assoc k' (assoc_set k v d) = assoc k' d.
Proof.
  intros Hne. induction d as [|[k0 v0] d IH]; simpl.
  - destruct (String.eqb k k') eqn:E; [|done]. apply String.eqb_eq in E. congruence.
  - destruct (String.eqb k0 k) eqn:E; simpl; [|by rewrite IH].
    apply String.eqb_eq in E as ->.
    destruct (String.eqb k k') eqn:E'; [|done]. apply String.eqb_eq in E'. congruence.
Qed.

Lemma getitem_setitem_other m k k' x :
  k' ≠ k → getitem (setitem m k x) k' = getitem m k'.
Proof. destruct m; simpl; try done. apply assoc_set_other. Qed.

Lemma getitem_setitem_same m k x y :
  getitem m k = Some y → getitem (setitem m k x) k = Some x.
Proof. destruct m; simpl; try done. intros _. apply assoc_set_same. Qed.

Lemma getitem_truthy m k y : getitem m k = Some y → truthy m = true.
Proof. destruct m as [| | | | |[|]]; simpl; done. Qed.

Lemma setitem_truthy m k x y : getitem m k = Some y → truthy (setitem m k x) = true.
Proof.
  intros Hg. eapply getitem_truthy. by eapply getitem_setitem_same.
Qed.

Lemma drop_path_spec fp items kept :
  drop_path fp items = Some kept →
  ∀ entry, entry ∈ kept → ∃ p, getitem entry "path" = Some p ∧ eq_str p fp = false.
Proof.
  revert kept. induction items as [|f items IH]; intros kept; simpl.
  - intros [= <-] entry Hin. by apply elem_of_nil in Hin.
  - destruct (getitem f "path") as [p|] eqn:Hp; simpl; [|done].
    destruct (drop_path fp items) as [rest|]; simpl; [|done].
    intros [= <-] entry Hin. destruct (eq_str p fp) eqn:He; [by eapply IH|].
    apply elem_of_cons in Hin as [->|Hin]; [eauto|by eapply IH].
Qed.

Lemma drop_entries_spec fp m m' :
  drop_entries fp m = Some m' →
  (∃ kept, getitem m' "files" = Some (JList kept)
     ∧ ∀ entry, entry ∈ kept →
         ∃ p, getitem entry "path" = Some p ∧ eq_str p fp = false)
  ∧ truthy m' = true
  ∧ ∀ k, k ≠ "files" → getitem m' k = getitem m k.
Proof.
  unfold drop_entries. destruct (getitem m "files") as [files|] eqn:Hf; simpl; [|done].
  destruct (iter files) as [items|]; simpl; [|done].
  destruct (drop_path fp items) as [kept|] eqn:Hk; simpl; [|done].
  intros [= <-]. split; [|split].
  - exists kept. split; [by eapply getitem_setitem_same|by eapply drop_path_spec].
  - by eapply setitem_truthy.
  - intros k Hk'. by apply getitem_setitem_other.
Qed.

Lemma update_entries_frame fp c m m' :
  update_entries fp c m = Some m' →
  ∀ k, k ≠ "files" → getitem m' k = getitem m k.
Proof.
  unfold update_entries. destruct (getitem m "files") as [files|] eqn:Hf; simpl; [|done].
  destruct (iter files) as [items|]; simpl; [|done].
  destruct (update_first fp c items) as [items'|]; simpl; [|done].
  destruct files; intros [= <-] k Hk; try done. by apply getitem_setitem_other.
Qed.

Lemma add_folder_frame name m m' :
  add_folder name m = Some (Some m') →
  ∀ k, k ≠ "folders" → getitem m' k = getitem m k.
Proof.
  unfold add_folder. destruct (getitem m "folders") as [folders|]; simpl; [|done].
  destruct (contains_str name folders) as [[|]|]; simpl; try done.
  destruct (append folders (JStr name)); simpl; [|done].
  intros [= <-] k Hk. by apply getitem_setitem_other.
Qed.

(* ================================================================== *)
(** ** Facts about the handlers *)
(* ================================================================== *)

Section Handlers.

Context `{PyRuntime}.

(** *** Running a handler *)

Lemma load_spec pid w :
  load_project_metadata pid w = (w, load_result (descriptor w pid)).
Proof.
  unfold load_project_metadata, descriptor, bind, ask, lift, ret.
  rewrite path_exists_obs.
  destruct (obs w (metadata_path pid)) as [[text|]|] eqn:Ho; simpl;
    rewrite ?file_text_obs, ?Ho; simpl; try done.
  by destruct (json_loads text).
Qed.

Lemma handle_reply m w w' body st :
  handle m w = (w', Reply body st) → m w = (w', Some (Reply body st)).
Proof. unfold handle. destruct (m w) as [w1 [r|]]; by intros [= <- <-]. Qed.

Lemma bind_some {A B} (m : M A) (k : A → M B) w w' b :
  bind m k w = (w', Some b) → ∃ w1 a, m w = (w1, Some a) ∧ k a w1 = (w', Some b).
Proof. unfold bind. destruct (m w) as [w1 [a|]]; [eauto|done]. Qed.

Lemma bind_inv {A B} (m : M A) (k : A → M B) w w' r :
  bind m k w = (w', r) →
  (∃ w1 a, m w = (w1, Some a) ∧ k a w1 = (w', r)) ∨ (m w = (w', None) ∧ r = None).
Proof. unfold bind. destruct (m w) as [w1 [a|]]; [eauto|]. intros [= <- <-]. eauto. Qed.

Lemma lift_some {A} (o : option A) w w' a : lift o w = (w', Some a) → w' = w ∧ o = Some a.
Proof. by intros [= <- <-]. Qed.

Lemma bind_load {B} pid (k : option json → M B) w :
  bind (load_project_metadata pid) k w
  = match load_result (descriptor w pid) with
    | Some o => k o w
    | None => (w, None)
    end.
Proof. unfold bind. rewrite load_spec. by destruct (load_result _). Qed.

Lemma save_spec pid m w w' r :
  save_project_metadata pid m w = (w', r) →
  (r = Some tt ∧ wrote (metadata_path pid) (json_dumps m) w w') ∨ (r = None ∧ w' = w).
Proof. apply write_text_spec. Qed.

Lemma descriptor_saved pid m w w' :
  runtime_lawful → wrote (metadata_path pid) (json_dumps m) w w' →
  descriptor w' pid = Loaded m.
Proof.
  intros Hl Hw. unfold descriptor. rewrite (wrote_obs_same _ _ _ _ Hw).
  by rewrite Hl.
Qed.

(** *** Creating and fetching a project *)

Lemma makedirs_in_project w pid P rel :
  resolve w (get_project_path pid) = Some P → is_dir w P = true →
  Str.startswith "/" rel = false →
  Forall (λ n, is_name n = true) (Str.split Str.slash rel) →
  Forall (λ p, ∀ s, stat w (P ++ p) ≠ Some (Some s))
         (prefixes (Str.split Str.slash rel)) →
  ∃ w', os_makedirs (path_join (get_project_path pid) rel) w = (w', Some ())
        ∧ made P (Str.split Str.slash rel) w w'
        ∧ resolve w' (get_project_path pid) = Some P ∧ is_dir w' P = true.
Proof.
  intros Hr Hd Hrel Hnames Hfree.
  destruct (os_makedirs_below w (get_project_path pid) rel P Hr
              (get_project_path_nonempty pid) Hd Hrel Hnames)
    as (w' & Hmk & Hmade).
  { intros p s Hp Hpre. rewrite Forall_forall in Hfree.
    by apply Hfree, prefixes_spec. }
  exists w'. pose proof (os_makedirs_extends _ _ _ _ Hmk) as He.
  split; [done|]. split; [done|]. split; [by eapply resolve_extends|by apply He].
Qed.

Lemma scaffold_ok w pid P template :
  project_dir w pid P →
  ∃ w' ff, scaffold (get_project_path pid) template w = (w', Some ff)
           ∧ resolve w' (get_project_path pid) = Some P ∧ is_dir w' P = true
           ∧ stat w' (P ++ ["project.json"]) = None.
Proof.
  intros (Hr & Hd & Hv). unfold scaffold.
  assert (∀ l, l ≠ [] → ∀ s, stat w (P ++ l) ≠ Some (Some s)) as Hv'.
  { intros l Hl s. by rewrite Hv. }
  destruct (eq_str template "basic"); [|destruct (eq_str template "maven")].
  - destruct (makedirs_in_project w pid P "src" Hr Hd eq_refl)
      as (w1 & Hmk & Hmade & Hr1 & Hd1).
    { by repeat constructor. } { repeat constructor. by apply Hv'. }
    unfold bind at 1. rewrite Hmk.
    assert (is_dir w1 (P ++ ["src"]) = true) as Hds
      by (by apply (made_dir _ _ _ _ ["src"] Hmade)).
    assert (stat w1 ((P ++ ["src"]) ++ ["Main.java"]) ≠ Some None) as Hsm.
    { rewrite <- app_assoc. cbn [app].
      rewrite (made_frame _ _ _ _ ["src"; "Main.java"] Hmade) by done.
      by rewrite Hv. }
    destruct (write_text_child w1 (path_join (get_project_path pid) "src") "Main.java"
                (P ++ ["src"]) ""
                (resolve_child w1 (get_project_path pid) "src" P Hr1
                   (get_project_path_nonempty pid) Hd1 eq_refl)
                (path_join_nonempty _ _ (get_project_path_nonempty pid))
                Hds eq_refl Hsm)
      as (w2 & Hw & Hc2 & Hd2 & Hf2).
    unfold bind at 1. rewrite Hw. eexists _, _. split; [done|].
    split; [|split].
    + rewrite <- Hr1. by apply resolve_same_dirs.
    + by rewrite Hd2.
    + rewrite Hf2.
      * rewrite (made_frame _ _ _ _ ["project.json"] Hmade) by done. by apply Hv.
      * rewrite <- app_assoc. intros Heq. by apply app_inv_head in Heq.
  - destruct (makedirs_in_project w pid P "src/main/java" Hr Hd eq_refl)
      as (w1 & Hmk1 & Hmade1 & Hr1 & Hd1).
    { by repeat constructor. } { repeat constructor; by apply Hv'. }
    unfold bind at 1. rewrite Hmk1.
    destruct (makedirs_in_project w1 pid P "src/test/java" Hr1 Hd1 eq_refl)
      as (w2 & Hmk2 & Hmade2 & Hr2 & Hd2).
    { by repeat constructor. }
    { repeat constructor; intros s.
      - pose proof (made_dir _ _ _ _ ["src"] Hmade1 eq_refl) as Hsrc.
        rewrite is_dir_stat in Hsrc. apply bool_decide_eq_true in Hsrc.
        by rewrite Hsrc.
      - rewrite (made_frame _ _ _ _ ["src"; "test"] Hmade1) by done. by apply Hv'.
      - rewrite (made_frame _ _ _ _ ["src"; "test"; "java"] Hmade1) by done.
        by apply Hv'. }
    unfold bind at 1. rewrite Hmk2.
    destruct (write_text_child w2 (get_project_path pid) "pom.xml" P "" Hr2
                (get_project_path_nonempty pid) Hd2 eq_refl)
      as (w3 & Hw & Hc3 & Hd3 & Hf3).
    { rewrite (made_frame _ _ _ _ ["pom.xml"] Hmade2),
        (made_frame _ _ _ _ ["pom.xml"] Hmade1) by done. by rewrite Hv. }
    unfold bind at 1. rewrite Hw. eexists _, _. split; [done|].
    split; [|split].
    + rewrite <- Hr2. by apply resolve_same_dirs.
    + by rewrite Hd3.
    + rewrite Hf3.
      * rewrite (made_frame _ _ _ _ ["project.json"] Hmade2),
          (made_frame _ _ _ _ ["project.json"] Hmade1) by done.
        by apply Hv.
      * intros Heq. by apply app_inv_head in Heq.
  - destruct (makedirs_in_project w pid P "src" Hr Hd eq_refl)
      as (w1 & Hmk & Hmade & Hr1 & Hd1).
    { by repeat constructor. } { repeat constructor. by apply Hv'. }
    unfold bind at 1. rewrite Hmk. eexists _, _. split; [done|].
    split; [done|]. split; [done|].
    rewrite (made_frame _ _ _ _ ["project.json"] Hmade) by done. by apply Hv.
Qed.

(** In a fresh root, [create_project] answers 201 for every request
    that names the project, whatever the template. *)
Lemma create_project_succeeds now fields name w :
  assoc "name" fields = Some name → truthy name = true →
  fresh w (Str.of_Z (millis now)) →
  ∃ w' project,
    create_project now (JDict fields) w = (w', success "project" project 201).
Proof.
  intros Hname Ht Hfresh.
  destruct (project_dir_made w _ (of_Z_name (millis now)) Hfresh)
    as (w1 & Hmk & Hpd).
  destruct (scaffold_ok w1 _ _
              (default (JStr "empty") (assoc "template" fields)) Hpd)
    as (w2 & ff & Hsc & Hr2 & Hd2 & Hs2).
  destruct (write_text_child w2 (get_project_path (Str.of_Z (millis now)))
              "project.json" _
              (json_dumps
                 (JDict [("id", JStr (Str.of_Z (millis now))); ("name", name);
                         ("template", default (JStr "empty") (assoc "template" fields));
                         ("files", JList ff.1); ("folders", JList ff.2);
                         ("createdAt", JStr (isoformat now))]))
              Hr2 (get_project_path_nonempty _) Hd2 eq_refl)
    as (w3 & Hw & _); [by rewrite Hs2|].
  exists w3. eexists.
  unfold create_project, handle, bind at 1 2, lift, get. rewrite Hname, Ht.
  cbn [negb]. unfold bind at 1. rewrite Hmk.
  unfold bind at 1.
  replace (match assoc "template" fields with Some v => v | None => JStr "empty" end)
    with (default (JStr "empty") (assoc "template" fields))
    by (by destruct (assoc "template" fields)).
  rewrite Hsc. unfold bind at 1, save_project_metadata, metadata_path.
  rewrite Hw. done.
Qed.

(** C1.  For a non-empty name and any template, [create_project]
    answers with a project in a fresh root, and a project that it
    returned, in any state, is what [get_project] returns for the
    identifier stored in it: the descriptor that
    [save_project_metadata] wrote is read back unchanged by
    [load_project_metadata], under a runtime whose [json.load] inverts
    [json.dump]. *)
Theorem create_then_get now fields name w :
  runtime_lawful →
  assoc "name" fields = Some name → truthy name = true →
  (fresh w (Str.of_Z (millis now)) →
   ∃ w' project,
     create_project now (JDict fields) w = (w', success "project" project 201))
  ∧ ∀ w' project,
      create_project now (JDict fields) w = (w', success "project" project 201) →
      ∃ project_id,
        getitem project "id" = Some (JStr project_id)
        ∧ get_project project_id w' = (w', success "project" project 200).
Proof.
  intros Hlaw Hn Ht. split; [by eapply create_project_succeeds|].
  intros w' project Hc. apply handle_reply in Hc.
  apply bind_some in Hc as (w1 & name' & [-> Hname]%lift_some & Hc).
  apply bind_some in Hc as (w1 & template & [-> Htemplate]%lift_some & Hc).
  destruct (negb (truthy name')); [done|].
  apply bind_some in Hc as (w1 & [] & _ & Hc).
  apply bind_some in Hc as (w2 & ff & _ & Hc).
  apply bind_some in Hc as (w3 & [] & Hs & Hc).
  injection Hc as <- <-.
  exists (Str.of_Z (millis now)). split; [done|].
  apply save_spec in Hs as [[_ Hs]|[? _]]; [|done].
  unfold get_project, handle. rewrite bind_load.
  by rewrite (descriptor_saved _ _ _ _ Hlaw Hs).
Qed.


(** C4.  For a non-empty name and the template ['basic'],
    [create_project] answers with a project in a fresh root, and the
    project it returns, in any state, lists exactly one file, whose
    path is ['src/Main.java'] and whose content is empty, and has
    ['src'] in its folder list. *)
Theorem basic_template now fields name w :
  assoc "name" fields = Some name → truthy name = true →
  assoc "template" fields = Some (JStr "basic") →
  (fresh w (Str.of_Z (millis now)) →
   ∃ w' project,
     create_project now (JDict fields) w = (w', success "project" project 201))
  ∧ ∀ w' project,
      create_project now (JDict fields) w = (w', success "project" project 201) →
      (∃ entry,
          getitem project "files" = Some (JList [entry])
          ∧ getitem entry "path" = Some (JStr "src/Main.java")
          ∧ getitem entry "content" = Some (JStr ""))
      ∧ ∃ folders,
          getitem project "folders" = Some (JList folders) ∧ JStr "src" ∈ folders.
Proof.
  intros Hn Ht Hb. split; [by eapply create_project_succeeds|].
  intros w' project Hc. apply handle_reply in Hc.
  apply bind_some in Hc as (w1 & name' & [-> Hname]%lift_some & Hc).
  apply bind_some in Hc as (w1 & template & [-> Htemplate]%lift_some & Hc).
  assert (template = JStr "basic") as ->.
  { unfold get in Htemplate. rewrite Hb in Htemplate. congruence. }
  destruct (negb (truthy name')); [done|].
  apply bind_some in Hc as (w1 & [] & _ & Hc).
  apply bind_some in Hc as (w2 & ff & Hsc & Hc).
  apply bind_some in Hc as (w3 & [] & Hs & Hc).
  injection Hc as <- <-.
  unfold scaffold in Hsc. cbn [eq_str String.eqb Ascii.eqb Bool.eqb] in Hsc.
  apply bind_some in Hsc as (w4 & [] & _ & Hsc).
  apply bind_some in Hsc as (w5 & [] & _ & Hsc).
  injection Hsc as <- <-. split.
  - by exists main_java.
  - exists [JStr "src"]. split; [done|]. apply list_elem_of_here.
Qed.

(** *** Creating a file *)

(** C5.  A [create_file] request whose body is a JSON object and whose
    name or path is absent or empty (falsy) is answered with status
    400 and leaves the file system, hence the disk and the
    descriptor, exactly as it was. *)
Theorem create_file_requires_name_and_path pid fields w :
  from_option truthy false (assoc "name" fields) = false
  ∨ from_option truthy false (assoc "path" fields) = false →
  create_file pid (JDict fields) w
  = (w, failure "File name and path are required" 400).
Proof.
  intros Hv. unfold create_file, handle, bind, lift, get. cbv beta iota.
  set (name := match assoc "name" fields with Some v => v | None => JNull end).
  set (path := match assoc "path" fields with Some v => v | None => JNull end).
  assert (negb (truthy name) || negb (truthy path) = true) as ->; [|done].
  subst name path.
  destruct (assoc "name" fields), (assoc "path" fields); simpl in *;
    destruct Hv as [Hv|Hv]; rewrite ?Hv; simpl; auto using orb_true_r.
Qed.

Lemma file_type_spec name ty :
  file_type name = Some ty → ∃ type, ty = JStr type ∧ extension_of name type.
Proof.
  unfold file_type. destruct (contains_str "." name) as [[|]|] eqn:Hc; simpl; [| |done].
  - destruct name as [| | |s| |]; simpl in *; try done. intros [= <-].
    injection Hc as Hc. change "." with (String Str.dot "") in Hc.
    rewrite contains_char in Hc.
    destruct (split_last Str.dot s) as [_ (h & t & pre & Hsp & Ht & Hs & Hl)]; [done|].
    eexists. split; [done|]. left. exists s, pre. split; [done|].
    unfold Str.last_item. rewrite Hsp, last_cons_cons by done.
    split; [|done]. exact Hs.
  - intros [= <-]. exists "txt". split; [done|]. by right.
Qed.

(** C8.  The type of a file that [create_file] made depends on the
    name alone: it is the text after the last ['.'] of a name that
    has one (the empty text when the name ends in ['.']), and ['txt']
    when the name holds no ['.']; the path plays no part. *)
Theorem file_type_from_name pid data w w' body :
  create_file pid data w = (w', Reply body 201) →
  ∃ name path content type,
    get data "name" JNull = Some name
    ∧ body = JDict [("success", JBool true);
                    ("file", JDict [("name", name); ("path", path);
                                    ("content", content); ("type", JStr type)])]
    ∧ extension_of name type.
Proof.
  intros Hc. apply handle_reply in Hc.
  apply bind_some in Hc as (w1 & name & [-> Hname]%lift_some & Hc).
  apply bind_some in Hc as (w1 & path & [-> Hpath]%lift_some & Hc).
  apply bind_some in Hc as (w1 & content & [-> Hcontent]%lift_some & Hc).
  destruct (_ || _); [done|].
  apply bind_some in Hc as (w1 & metadata & _ & Hc).
  destruct (present metadata) as [m|]; [|done].
  apply bind_some in Hc as (w2 & full & _ & Hc).
  apply bind_some in Hc as (w3 & [] & _ & Hc).
  apply bind_some in Hc as (w4 & [] & _ & Hc).
  apply bind_some in Hc as (w5 & ty & [-> Hty]%lift_some & Hc).
  apply bind_some in Hc as (w5 & files & _ & Hc).
  apply bind_some in Hc as (w6 & files' & _ & Hc).
  apply bind_some in Hc as (w7 & [] & _ & Hc).
  injection Hc as <- <-.
  apply file_type_spec in Hty as (type & -> & Hty).
  by exists name, path, content, type.
Qed.

(** *** Running a project *)

(** C9.  [run_project] answers 404 when the project has no descriptor,
    and an answer with status 200 is the canned text for the name of
    a descriptor that exists. *)
Theorem run_project_needs_descriptor pid w :
  (descriptor w pid = Absent →
   run_project pid w = (w, failure "Project not found" 404))
  ∧ (∀ w' body, run_project pid w = (w', Reply body 200) →
       ∃ m name, descriptor w pid = Loaded m ∧ truthy m = true
         ∧ getitem m "name" = Some name ∧ w' = w
         ∧ body = JDict [("success", JBool true); ("output", canned_output name)]).
Proof.
  unfold run_project, handle. rewrite bind_load. split.
  - by intros ->.
  - intros w' body. destruct (descriptor w pid) as [| |m]; simpl; try done.
    destruct (truthy m) eqn:Hm; [|done]. unfold bind, lift, ret.
    destruct (getitem m "name") as [name|] eqn:Hn; [|done].
    intros [= <- <-]. by exists m, name.
Qed.


(** *** A project that does not exist *)

Lemma missing_descriptor pid w :
  path_exists w (get_project_path pid) = false → descriptor w pid = Absent.
Proof.
  rewrite path_exists_obs. intros Hp%bool_decide_eq_false. unfold descriptor, metadata_path.
  rewrite obs_join_none; [done|apply get_project_path_nonempty|done|].
  destruct (obs w (get_project_path pid)); [by destruct Hp|done].
Qed.

Lemma missing_file pid fp w :
  path_exists w (get_project_path pid) = false → Str.startswith "/" fp = false →
  path_exists w (path_join (get_project_path pid) fp) = false.
Proof.
  rewrite !path_exists_obs. intros Hp%bool_decide_eq_false Hfp.
  rewrite obs_join_none; [done|apply get_project_path_nonempty|done|].
  destruct (obs w (get_project_path pid)); [by destruct Hp|done].
Qed.

(** C2, for requests that pass validation.  For a project that does not exist, every file and
    folder endpoint answers 404 and changes nothing, once the request
    passes the checks that come first: [create_file] needs a
    non-empty name and path and [create_folder] a non-empty name
    (otherwise they answer 400), and the body is a JSON object.  The
    file path of the URL never starts with ['/']. *)
Theorem missing_project_not_found pid w :
  path_exists w (get_project_path pid) = false →
  (∀ fields name path,
      assoc "name" fields = Some name → truthy name = true →
      assoc "path" fields = Some path → truthy path = true →
      create_file pid (JDict fields) w
      = (w, failure "Project not found" 404))
  ∧ (∀ file_path, Str.startswith "/" file_path = false →
      get_file pid file_path w = (w, failure "File not found" 404))
  ∧ (∀ file_path fields, Str.startswith "/" file_path = false →
      update_file pid file_path (JDict fields) w
      = (w, failure "File not found" 404))
  ∧ (∀ file_path, Str.startswith "/" file_path = false →
      delete_file pid file_path w = (w, failure "File not found" 404))
  ∧ (∀ fields name,
      assoc "name" fields = Some name → truthy name = true →
      create_folder pid (JDict fields) w
      = (w, failure "Project not found" 404)).
Proof.
  intros Hp. pose proof (missing_descriptor _ _ Hp) as Hd.
  split; [|split; [|split; [|split]]].
  - intros fields name path Hn Hnt Hpa Hpt.
    unfold create_file, handle, bind at 1 2 3, lift, get. rewrite Hn, Hpa, Hnt, Hpt.
    cbn [negb orb]. rewrite bind_load, Hd. done.
  - intros fp Hfp. unfold get_file, handle, bind, ask.
    by rewrite (missing_file _ _ _ Hp Hfp).
  - intros fp fields Hfp. unfold update_file, handle, bind at 1 2, lift, ask, get.
    by rewrite (missing_file _ _ _ Hp Hfp).
  - intros fp Hfp. unfold delete_file, handle, bind at 1, ask.
    by rewrite (missing_file _ _ _ Hp Hfp).
  - intros fields name Hn Hnt.
    unfold create_folder, handle, bind at 1, lift, get. rewrite Hn, Hnt.
    cbn [negb]. rewrite bind_load, Hd. done.
Qed.

(** *** Listing the projects *)

Lemma collect_projects_step n names acc w :
  collect_projects (n :: names) acc w
  = match listed w n with
    | None => (w, None)
    | Some None => collect_projects names acc w
    | Some (Some m) => collect_projects names (acc ++ [m])%list w
    end.
Proof.
  cbn [collect_projects]. unfold bind at 1, ask, listed.
  destruct (path_isdir w (get_project_path n)); [|done].
  rewrite bind_load. destruct (descriptor w n) as [| |v]; simpl; try done.
  by destruct (truthy v).
Qed.

Lemma collect_projects_ok names acc w :
  (∀ n, n ∈ names → listed w n ≠ None) →
  collect_projects names acc w
  = (w, Some (acc ++ omap (λ n, mjoin (listed w n)) names)%list).
Proof.
  revert acc. induction names as [|n names IH]; intros acc Hok.
  - simpl. unfold ret. by rewrite app_nil_r.
  - rewrite collect_projects_step. cbn [omap list_omap].
    pose proof (Hok n (list_elem_of_here _ _)) as Hn.
    assert (∀ n0, n0 ∈ names → listed w n0 ≠ None) as Hok'.
    { intros n0 Hn0. by apply Hok, list_elem_of_further. }
    destruct (listed w n) as [[m|]|]; [| |done]; rewrite IH by done; simpl; [|done].
    by rewrite <- app_assoc.
Qed.

Lemma collect_projects_raises names acc w n :
  n ∈ names → listed w n = None → collect_projects names acc w = (w, None).
Proof.
  intros Hn Hl. revert acc. induction Hn as [n names|n n' names Hn IH]; intros acc.
  - by rewrite collect_projects_step, Hl.
  - rewrite collect_projects_step. destruct (listed w n') as [[m|]|]; auto.
Qed.

Lemma get_projects_listing w names :
  listdir w PROJECTS_DIR = Some names →
  get_projects w
  = match collect_projects names [] w with
    | (w', Some projects) => (w', success "projects" (JList projects) 200)
    | (w', None) => (w', InternalError)
    end.
Proof.
  intros Hl.
  assert (path_exists w PROJECTS_DIR = true) as He.
  { unfold listdir in Hl. unfold path_exists.
    by destruct (resolve w PROJECTS_DIR ≫= lookup w). }
  unfold get_projects, handle, bind at 1, ask. rewrite He.
  unfold bind at 1 2. rewrite Hl.
  by destruct (collect_projects names [] w) as [w' [l|]].
Qed.

(** C3, with unreadable descriptors set apart.  [get_projects] walks the entries of the root:
    an entry that is no directory, has no descriptor or has an empty
    one is skipped, and the others are listed in order, provided every
    descriptor met can be read and parsed; one descriptor that cannot
    (not JSON, or not a regular file) makes the whole listing fail
    with status 500. *)
Theorem get_projects_skips_or_fails w names :
  listdir w PROJECTS_DIR = Some names →
  ((∀ n, n ∈ names → path_isdir w (get_project_path n) = true →
         descriptor w n ≠ Unreadable) →
   get_projects w
   = (w, success "projects"
           (JList (omap (λ n, mjoin (listed w n)) names)) 200))
  ∧ ((∃ n, n ∈ names ∧ path_isdir w (get_project_path n) = true
           ∧ descriptor w n = Unreadable) →
     get_projects w = (w, InternalError)).
Proof.
  intros Hl. rewrite (get_projects_listing _ _ Hl). split.
  - intros Hok. rewrite collect_projects_ok; [done|].
    intros n Hn. specialize (Hok n Hn). unfold listed.
    destruct (path_isdir w (get_project_path n)); [|done].
    specialize (Hok eq_refl). by destruct (descriptor w n).
  - intros (n & Hn & Hd & Hu). rewrite (collect_projects_raises _ _ _ n); [done..|].
    unfold listed. by rewrite Hd, Hu.
Qed.

(** *** Deleting a file *)

Lemma descriptor_obs w w' pid :
  obs w' (metadata_path pid) = obs w (metadata_path pid) →
  descriptor w' pid = descriptor w pid.
Proof. unfold descriptor. by intros ->. Qed.

Lemma descriptor_loaded w pid m :
  descriptor w pid = Loaded m →
  ∃ text, obs w (metadata_path pid) = Some (Some text) ∧ json_loads text = Some m.
Proof.
  unfold descriptor. destruct (obs w (metadata_path pid)) as [[text|]|]; try done.
  destruct (json_loads text) eqn:E; [|done]. intros [= ->]. eauto.
Qed.

Lemma obs_extends w w' p text :
  extends w w' → obs w p = Some (Some text) → obs w' p = Some (Some text).
Proof.
  intros He. unfold obs. destruct (resolve w p) as [c|] eqn:Hr; simpl; [|done].
  rewrite (resolve_extends _ _ _ _ He Hr). simpl. by apply He.
Qed.

Lemma descriptor_extends w w' pid m :
  extends w w' → descriptor w pid = Loaded m → descriptor w' pid = Loaded m.
Proof.
  intros He (text & Ho & Hl)%descriptor_loaded. unfold descriptor.
  by rewrite (obs_extends _ _ _ _ He Ho), Hl.
Qed.

Lemma descriptor_wrote_other p text w w' pid :
  wrote p text w w' → resolve w p ≠ resolve w (metadata_path pid) →
  descriptor w' pid = descriptor w pid.
Proof. intros Hw Hne. eapply descriptor_obs, wrote_obs_other; [done|congruence]. Qed.

Lemma descriptor_removed_other p w w' pid :
  removed p w w' → resolve w p ≠ resolve w (metadata_path pid) →
  descriptor w' pid = descriptor w pid.
Proof. intros Hw Hne. eapply descriptor_obs, removed_obs_other; [done|congruence]. Qed.

Lemma get_file_missing pid fp w :
  obs w (path_join (get_project_path pid) fp) = None →
  get_file pid fp w = (w, failure "File not found" 404).
Proof.
  intros Ho. unfold get_file, handle, bind, ask. rewrite path_exists_obs, Ho. done.
Qed.

Lemma get_project_spec pid w :
  get_project pid w
  = (w, match descriptor w pid with
        | Absent => failure "Project not found" 404
        | Unreadable => InternalError
        | Loaded m => if truthy m then success "project" m 200
                      else failure "Project not found" 404
        end).
Proof.
  unfold get_project, handle. rewrite bind_load.
  destruct (descriptor w pid) as [| |m]; simpl; try done. by destruct (truthy m).
Qed.

(** C7.  After [delete_file] answered 200 for a path, [get_file] on
    that path answers 404, and a project that [get_project] then
    returns has a file list without any entry of that path, however
    many there were. *)
Theorem delete_file_then_gone pid fp w w' body :
  runtime_lawful →
  delete_file pid fp w = (w', Reply body 200) →
  get_file pid fp w' = (w', failure "File not found" 404)
  ∧ ∀ project, get_project pid w' = (w', success "project" project 200) →
      ∃ kept, getitem project "files" = Some (JList kept)
        ∧ ∀ entry, entry ∈ kept →
            ∃ p, getitem entry "path" = Some p ∧ eq_str p fp = false.
Proof.
  intros Hlaw Hd. apply handle_reply in Hd.
  apply bind_some in Hd as (w0 & found & [= <- <-] & Hd).
  destruct (path_exists w _); [|done]. cbn [negb] in Hd.
  apply bind_some in Hd as (w1 & [] & Hrm & Hd).
  assert (removed (path_join (get_project_path pid) fp) w w1) as Hrem.
  { unfold act in Hrm. destruct (remove w _) eqn:E; [|done].
    injection Hrm as <-. by apply remove_spec. }
  clear Hrm. pose proof (removed_obs_same _ _ _ Hrem) as Hgone.
  rewrite bind_load in Hd.
  destruct (descriptor w1 pid) as [| |m] eqn:Hdesc; simpl in Hd; [|done|].
  - injection Hd as <- _. split; [by apply get_file_missing|].
    intros project. by rewrite get_project_spec, Hdesc.
  - destruct (truthy m) eqn:Ht; simpl in Hd.
    + apply bind_some in Hd as (w2 & [] & Hsave & Hd). injection Hd as <- _.
      apply bind_some in Hsave as (w3 & m' & [-> Hdrop]%lift_some & Hsave).
      apply save_spec in Hsave as [[_ Hw]|[? _]]; [|done].
      apply drop_entries_spec in Hdrop as ((kept & Hk & Hkept) & Htm & _).
      split.
      * apply get_file_missing. rewrite <- Hgone. eapply wrote_obs_other; [done|].
        apply descriptor_loaded in Hdesc as (text & Ho & _).
        intros Heq. unfold obs in Ho, Hgone. rewrite Heq in Hgone. congruence.
      * intros project. rewrite get_project_spec, (descriptor_saved _ _ _ _ Hlaw Hw), Htm.
        intros [= <-]. eauto.
    + injection Hd as <- _. split; [by apply get_file_missing|].
      intros project. rewrite get_project_spec, Hdesc, Ht. done.
Qed.


(** *** What the file and folder operations keep of a descriptor *)

Lemma keeps_refl key w pid m :
  descriptor w pid = Loaded m →
  ∃ m', descriptor w pid = Loaded m' ∧ same_but key m m'.
Proof. intros. exists m. by split. Qed.

Lemma save_keeps key pid m m' w w' r :
  runtime_lawful → descriptor w pid = Loaded m → same_but key m m' →
  save_project_metadata pid m' w = (w', r) →
  ∃ m'', descriptor w' pid = Loaded m'' ∧ same_but key m m''.
Proof.
  intros Hlaw Hd Hs [[_ Hw]|[_ ->]]%save_spec; [|by apply keeps_refl].
  exists m'. split; [|done]. by eapply descriptor_saved.
Qed.

Lemma create_folder_keeps pid data w w' r m :
  runtime_lawful → descriptor w pid = Loaded m →
  create_folder pid data w = (w', r) →
  ∃ m', descriptor w' pid = Loaded m' ∧ same_but "folders" m m'.
Proof.
  intros Hlaw Hd. unfold create_folder, handle. intros Hc.
  destruct (bind _ _ w) as [w0 r0] eqn:Hb.
  assert (w0 = w') as -> by (by destruct r0; injection Hc). clear Hc.
  apply bind_inv in Hb as [(w1 & name & [-> _]%lift_some & Hb)|[[= <-] _]];
    [|by apply keeps_refl].
  destruct (negb (truthy name)); [injection Hb as <- _; by apply keeps_refl|].
  rewrite bind_load, Hd in Hb. simpl in Hb.
  destruct (truthy m); [|injection Hb as <- _; by apply keeps_refl].
  apply bind_inv in Hb as [(w1 & folder_path & [-> _]%lift_some & Hb)|[[= <-] _]];
    [|by apply keeps_refl].
  apply bind_inv in Hb as [(w1 & [] & Hmk & Hb)|[Hmk _]];
    apply os_makedirs_extends in Hmk;
    pose proof (descriptor_extends _ _ _ _ Hmk Hd) as Hd1;
    [|by apply keeps_refl].
  apply bind_inv in Hb as [(w2 & changed & [-> Hadd]%lift_some & Hb)|[[= <-] _]];
    [|by apply keeps_refl].
  apply bind_inv in Hb as [(w2 & [] & Hsave & Hb)|[Hsave _]].
  - injection Hb as <- _. destruct changed as [m'|].
    + eapply save_keeps; [done..| |done]. intros ??; by eapply add_folder_frame.
    + injection Hsave as <-. by apply keeps_refl.
  - destruct changed as [m'|]; [|done].
    eapply save_keeps; [done..| |done]. intros ??; by eapply add_folder_frame.
Qed.


Lemma handle_inv m w w' r :
  handle m w = (w', r) → ∃ r0, m w = (w', r0) ∧ r = from_option id InternalError r0.
Proof.
  unfold handle. destruct (m w) as [w0 [r0|]]; intros [= <- <-]; eauto.
Qed.

(** The tail that [update_file] and [delete_file] share: rewrite the
    descriptor when there is one. *)
Lemma rewrite_keeps (change : json → option json) pid m w w' r :
  runtime_lawful → descriptor w pid = Loaded m →
  (∀ m', change m = Some m' → same_but "files" m m') →
  match present (Some m) with
  | Some metadata =>
      bind (lift (change metadata)) (λ metadata, save_project_metadata pid metadata)
  | None => ret ()
  end w = (w', r) →
  ∃ m', descriptor w' pid = Loaded m' ∧ same_but "files" m m'.
Proof.
  intros Hlaw Hd Hch. simpl. destruct (truthy m).
  - intros [(w1 & m' & [-> Hm']%lift_some & Hs)|[[= <-] _]]%bind_inv;
      [|by apply keeps_refl].
    eapply save_keeps; eauto.
  - intros [= <- _]. by apply keeps_refl.
Qed.

Lemma update_file_keeps pid fp data w w' r m :
  runtime_lawful → descriptor w pid = Loaded m →
  ¬ targets_descriptor w pid fp →
  update_file pid fp data w = (w', r) →
  ∃ m', descriptor w' pid = Loaded m' ∧ same_but "files" m m'.
Proof.
  intros Hlaw Hd Hne (r0 & Hb & _)%handle_inv.
  apply bind_inv in Hb as [(w1 & content & [-> _]%lift_some & Hb)|[[= <-] _]];
    [|by apply keeps_refl].
  apply bind_inv in Hb as [(w1 & found & [= <- <-] & Hb)|[[=] _]].
  destruct (negb _); [injection Hb as <- _; by apply keeps_refl|].
  assert (∀ text w1, wrote (path_join (get_project_path pid) fp) text w w1 →
            descriptor w1 pid = Loaded m) as Hkeep.
  { intros text w1 Hw. by rewrite (descriptor_wrote_other _ _ _ _ _ Hw Hne). }
  apply bind_inv in Hb as [(w1 & [] & Hw & Hb)|[Hw _]];
    apply write_value_spec in Hw as [[? Hw]|[? Hw]]; try done.
  - destruct Hw as (text & -> & Hw). specialize (Hkeep _ _ Hw).
    rewrite bind_load, Hkeep in Hb. cbn [load_result] in Hb.
    apply bind_inv in Hb as [(w2 & [] & Hs & [= <- _])|[Hs _]];
      (eapply rewrite_keeps; [done|exact Hkeep| |exact Hs]);
      intros m' Hm'; intros ??; by eapply update_entries_frame.
  - destruct Hw as [->|Hw]; [by apply keeps_refl|]. exists m. split; [eauto|done].
Qed.

Lemma delete_file_keeps pid fp w w' r m :
  runtime_lawful → descriptor w pid = Loaded m →
  ¬ targets_descriptor w pid fp →
  delete_file pid fp w = (w', r) →
  ∃ m', descriptor w' pid = Loaded m' ∧ same_but "files" m m'.
Proof.
  intros Hlaw Hd Hne (r0 & Hb & _)%handle_inv.
  apply bind_inv in Hb as [(w1 & found & [= <- <-] & Hb)|[[=] _]].
  destruct (negb _); [injection Hb as <- _; by apply keeps_refl|].
  apply bind_inv in Hb as [(w1 & [] & Hrm & Hb)|[Hrm _]]; unfold act in Hrm;
    destruct (remove w _) as [w1'|] eqn:E; try done.
  - injection Hrm as ->. apply remove_spec in E.
    assert (descriptor w1 pid = Loaded m) as Hkeep.
    { by rewrite (descriptor_removed_other _ _ _ _ E Hne). }
    rewrite bind_load, Hkeep in Hb. cbn [load_result] in Hb.
    apply bind_inv in Hb as [(w2 & [] & Hs & [= <- _])|[Hs _]];
      (eapply rewrite_keeps; [done|exact Hkeep| |exact Hs]);
      intros m' Hm'; by apply drop_entries_spec in Hm' as (_ & _ & ?).
  - injection Hrm as <-. by apply keeps_refl.
Qed.

Lemma create_file_keeps pid data w w' r m :
  runtime_lawful → descriptor w pid = Loaded m →
  create_file pid data w = (w', r) →
  status_of r = 201
  ∨ (∀ p, get data "path" JNull = Some (JStr p) → ¬ targets_descriptor w' pid p) →
  ∃ m', descriptor w' pid = Loaded m' ∧ same_but "files" m m'.
Proof.
  intros Hlaw Hd (r0 & Hb & ->)%handle_inv Hor.
  apply bind_inv in Hb as [(w1 & name & [-> _]%lift_some & Hb)|[[= <-] _]];
    [|by apply keeps_refl].
  apply bind_inv in Hb as [(w1 & path & [-> Hpath]%lift_some & Hb)|[[= <-] _]];
    [|by apply keeps_refl].
  apply bind_inv in Hb as [(w1 & content & [-> _]%lift_some & Hb)|[[= <-] _]];
    [|by apply keeps_refl].
  destruct (_ || _); [injection Hb as <- _; by apply keeps_refl|].
  rewrite bind_load, Hd in Hb. simpl in Hb.
  destruct (truthy m); [|injection Hb as <- _; by apply keeps_refl].
  apply bind_inv in Hb as [(w1 & full & [-> Hfull]%lift_some & Hb)|[[= <-] _]];
    [|by apply keeps_refl].
  destruct path as [| | |p| |]; try done. injection Hfull as <-.
  apply bind_inv in Hb as [(w1 & [] & Hmk & Hb)|[Hmk _]];
    apply os_makedirs_extends in Hmk;
    pose proof (descriptor_extends _ _ _ _ Hmk Hd) as Hd1;
    [|by apply keeps_refl].
  (* Once the file is written, a failure leaves the descriptor alone
     unless it was the file. *)
  assert (∀ text w2, wrote (path_join (get_project_path pid) p) text w1 w2 →
            ¬ targets_descriptor w2 pid p →
            ∃ m', descriptor w2 pid = Loaded m' ∧ same_but "files" m m') as Hkeep.
  { intros text w2 Hw Hne. exists m. split; [|done].
    rewrite (descriptor_wrote_other _ _ _ _ pid Hw); [done|].
    unfold targets_descriptor in Hne. by rewrite !(wrote_resolve _ _ _ _ _ Hw) in Hne. }
  apply bind_inv in Hb as [(w2 & [] & Hw & Hb)|[Hw ->]];
    apply write_value_spec in Hw as [[? Hw]|[? Hw]]; try done.
  2:{ destruct Hor as [?|Hne]; [done|]. destruct Hw as [->|Hw]; [by apply keeps_refl|].
      eapply Hkeep; eauto. }
  destruct Hw as (text & -> & Hw).
  assert (r0 = None → w' = w2 →
            ∃ m', descriptor w' pid = Loaded m' ∧ same_but "files" m m') as Hfail.
  { intros -> ->. destruct Hor as [?|Hne]; [done|]. eapply Hkeep; eauto. }
  apply bind_inv in Hb as [(w3 & ty & [-> _]%lift_some & Hb)|[[= <-] ?]]; [|by auto].
  apply bind_inv in Hb as [(w3 & files & [-> Hf]%lift_some & Hb)|[[= <-] ?]]; [|by auto].
  apply bind_inv in Hb as [(w3 & files' & [-> _]%lift_some & Hb)|[[= <-] ?]]; [|by auto].
  apply bind_inv in Hb as [(w3 & [] & Hs & [= <- _])|[Hs ?]];
    apply save_spec in Hs as [[? Hs]|[? Hs]]; try done; [|subst; by auto].
  eexists. split; [by eapply descriptor_saved|].
  intros k Hk. by apply getitem_setitem_other.
Qed.

(** C10, for paths other than the descriptor's own.  Whatever they answer, [update_file] and
    [delete_file] on a path that does not resolve to the descriptor
    itself, [create_file] when it answers 201 or its path does not
    resolve to the descriptor, and [create_folder] always, leave a
    descriptor that differs from the one before at most under
    ['files'] (['folders'] for [create_folder]): ['id'], ['name'],
    ['template'] and ['createdAt'] are as they were. *)
Theorem descriptor_fields_kept pid w m :
  runtime_lawful → descriptor w pid = Loaded m →
  (∀ data w' r,
      create_file pid data w = (w', r) →
      status_of r = 201
      ∨ (∀ p, get data "path" JNull = Some (JStr p) →
              ¬ targets_descriptor w' pid p) →
      ∃ m', descriptor w' pid = Loaded m' ∧ same_but "files" m m')
  ∧ (∀ file_path data w' r,
      update_file pid file_path data w = (w', r) →
      ¬ targets_descriptor w pid file_path →
      ∃ m', descriptor w' pid = Loaded m' ∧ same_but "files" m m')
  ∧ (∀ file_path w' r,
      delete_file pid file_path w = (w', r) →
      ¬ targets_descriptor w pid file_path →
      ∃ m', descriptor w' pid = Loaded m' ∧ same_but "files" m m')
  ∧ (∀ data w' r,
      create_folder pid data w = (w', r) →
      ∃ m', descriptor w' pid = Loaded m' ∧ same_but "folders" m m').
Proof.
  intros Hlaw Hd. split; [|split; [|split]].
  - intros. by eapply create_file_keeps.
  - intros. by eapply update_file_keeps.
  - intros. by eapply delete_file_keeps.
  - intros. by eapply create_folder_keeps.
Qed.


(** *** Updating a file *)

Lemma assoc_set_id k v d : assoc k d = Some v → assoc_set k v d = d.
Proof.
  induction d as [|[k' v'] d IH]; simpl; [done|].
  destruct (String.eqb k' k); [by intros [= ->]|]. intros ?. by rewrite IH.
Qed.

Lemma setitem_id m k v : getitem m k = Some v → setitem m k v = m.
Proof. destruct m; simpl; try done. intros ?. by rewrite assoc_set_id. Qed.

Lemma update_first_no_match fp c files :
  no_match fp files → update_first fp c files = Some files.
Proof.
  induction files as [|f files IH]; intros Hno; simpl; [done|].
  destruct (Hno f) as (p & -> & Hp); [apply list_elem_of_here|]. simpl. rewrite Hp.
  rewrite IH; [done|]. intros e He. by apply Hno, list_elem_of_further.
Qed.

Lemma update_first_match fp c pre e post p :
  no_match fp pre → getitem e "path" = Some p → eq_str p fp = true →
  update_first fp c (pre ++ e :: post)%list
  = Some (pre ++ setitem e "content" c :: post)%list.
Proof.
  intros Hno Hp He. induction pre as [|f pre IH]; simpl.
  - rewrite Hp. simpl. by rewrite He.
  - destruct (Hno f) as (q & -> & Hq); [apply list_elem_of_here|]. simpl. rewrite Hq.
    rewrite IH; [done|]. intros x Hx. by apply Hno, list_elem_of_further.
Qed.

Lemma write_value_str p text w : write_value p (JStr text) w = write_text p text w.
Proof. unfold write_value, write_text. by destruct (open_w w p) as [[??]|]. Qed.

Lemma write_text_ok p old text w :
  obs w p = Some (Some old) → ∃ w', write_text p text w = (w', Some ()).
Proof.
  unfold obs, write_text, open_w, stat.
  destruct (resolve w p) as [c|]; simpl; [|done].
  destruct (lookup w c) as [[?|?]|]; try done. eauto.
Qed.

Lemma update_file_run pid fp fields text w w1 :
  get (JDict fields) "content" (JStr "") = Some (JStr text) →
  path_exists w (path_join (get_project_path pid) fp) = true →
  write_text (path_join (get_project_path pid) fp) text w = (w1, Some ()) →
  update_file pid fp (JDict fields) w
  = match descriptor w1 pid with
    | Absent => (w1, updated)
    | Unreadable => (w1, InternalError)
    | Loaded m =>
        if truthy m then
          match update_entries fp (JStr text) m with
          | Some m' =>
              match save_project_metadata pid m' w1 with
              | (w2, Some _) => (w2, updated)
              | (w2, None) => (w2, InternalError)
              end
          | None => (w1, InternalError)
          end
        else (w1, updated)
    end.
Proof.
  intros Hc He Hw. unfold update_file, handle, bind at 1 2, lift at 1, ask.
  rewrite Hc, He. cbn [negb]. unfold bind at 1. rewrite write_value_str, Hw.
  rewrite bind_load. destruct (descriptor w1 pid) as [| |m]; simpl; try done.
  destruct (truthy m); [|done]. unfold bind, lift.
  destruct (update_entries fp (JStr text) m) as [m'|]; [|done].
  by destruct (save_project_metadata pid m' w1) as [w2 [[]|]].
Qed.

(** C6.  For an existing regular file, [update_file] with a content
    that is a string writes the text to disk; then, with no
    descriptor, it answers 200 and that is all; with a descriptor
    whose ['files'] is a list of entries that all bear a ['path'],
    none of them the path of the request, it answers 200 and the
    descriptor holds what it held; and with a ['files'] list whose
    entries bear a ['path'] up to a first one that has the path of
    the request, it answers 200 and only that entry's ['content'] has
    changed, later entries of the same path left as they were.  In
    both cases the file still holds the text, unless it is the
    descriptor itself. *)
Theorem update_file_first_match pid fp fields text old w :
  runtime_lawful →
  get (JDict fields) "content" (JStr "") = Some (JStr text) →
  file_text w (path_join (get_project_path pid) fp) = Some old →
  let full := path_join (get_project_path pid) fp in
  let w1 := (write_text full text w).1 in
  let w' := (update_file pid fp (JDict fields) w).1 in
  write_text full text w = (w1, Some ())
  ∧ file_text w1 full = Some text
  ∧ (descriptor w1 pid = Absent →
     update_file pid fp (JDict fields) w = (w1, updated))
  ∧ (∀ m files,
       descriptor w1 pid = Loaded m →
       getitem m "files" = Some (JList files) → no_match fp files →
       update_file pid fp (JDict fields) w = (w', updated)
       ∧ descriptor w' pid = Loaded m
       ∧ (¬ targets_descriptor w pid fp → file_text w' full = Some text))
  ∧ (∀ m pre e post p,
       descriptor w1 pid = Loaded m →
       getitem m "files" = Some (JList (pre ++ e :: post)) →
       no_match fp pre → getitem e "path" = Some p → eq_str p fp = true →
       update_file pid fp (JDict fields) w = (w', updated)
       ∧ descriptor w' pid
         = Loaded (setitem m "files"
                     (JList (pre ++ setitem e "content" (JStr text) :: post)))
       ∧ (¬ targets_descriptor w pid fp → file_text w' full = Some text)).
Proof.
  intros Hlaw Hc Hr full. subst full.
  set (full := path_join (get_project_path pid) fp) in *.
  assert (obs w full = Some (Some old)) as Ho.
  { rewrite file_text_obs in Hr. by destruct (obs w full) as [[?|]|]; simplify_eq/=. }
  assert (path_exists w full = true) as He by (by rewrite path_exists_obs, Ho).
  destruct (write_text_ok full old text w Ho) as [w1 Hw]. rewrite Hw. cbn [fst].
  pose proof (update_file_run pid fp fields text w w1 Hc He Hw) as Hrun.
  destruct (write_text_spec _ _ _ _ _ Hw) as [[_ Hw']|[? _]]; [|done].
  split; [done|]. split; [by rewrite file_text_obs, (wrote_obs_same _ _ _ _ Hw')|].
  assert (∀ m m', descriptor w1 pid = Loaded m →
            update_entries fp (JStr text) m = Some m' → truthy m = true →
            update_file pid fp (JDict fields) w
            = ((update_file pid fp (JDict fields) w).1, updated)
            ∧ descriptor (update_file pid fp (JDict fields) w).1 pid = Loaded m'
            ∧ (¬ targets_descriptor w pid fp →
               file_text (update_file pid fp (JDict fields) w).1 full = Some text))
    as Hsave.
  { intros m m' Hd Hu Ht. rewrite Hrun, Hd, Ht, Hu.
    apply descriptor_loaded in Hd as (t & Hd & _).
    destruct (write_text_ok _ _ (json_dumps m') _ Hd) as [w2 Hs].
    unfold save_project_metadata. rewrite Hs. split; [done|]. cbn [fst].
    apply write_text_spec in Hs as [[_ Hs]|[? _]]; [|done].
    split; [by eapply descriptor_saved|].
    intros Hne. rewrite file_text_obs, (wrote_obs_other _ _ _ _ full Hs).
    - by rewrite (wrote_obs_same _ _ _ _ Hw').
    - by rewrite !(wrote_resolve _ _ _ _ _ Hw'). }
  split; [|split].
  - intros Hd. by rewrite Hrun, Hd.
  - intros m files Hd Hf Hno.
    apply (Hsave m m Hd); [|by eapply getitem_truthy].
    unfold update_entries. rewrite Hf. simpl.
    rewrite update_first_no_match by done. simpl. by rewrite setitem_id.
  - intros m pre e post p Hd Hf Hno Hp He'.
    apply (Hsave m _ Hd); [|by eapply getitem_truthy].
    unfold update_entries. rewrite Hf. simpl.
    by rewrite (update_first_match _ _ _ _ _ p).
Qed.

(** *** Deleting a project *)

(** The three ways in which [delete_project] ends. *)
Lemma delete_project_inv pid w w' r :
  delete_project pid w = (w', r) →
  (w' = w ∧ r = failure "Project not found" 404
   ∧ path_exists w (get_project_path pid) = false)
  ∨ (r = InternalError ∧ path_exists w (get_project_path pid) = true)
  ∨ (r = deleted ∧ tree_removed (get_project_path pid) w w').
Proof.
  unfold delete_project, handle, bind at 1, ask.
  destruct (path_exists w (get_project_path pid)) eqn:Hp; simpl.
  - unfold bind. destruct (rmtree (get_project_path pid) w) as [w1 [[]|]] eqn:Hr.
    + intros [= <- <-]. right. right. split; [reflexivity|]. by apply rmtree_spec.
    + intros [= <- <-]. right. by left.
  - intros [= <- <-]. by left.
Qed.

Lemma get_file_spec pid fp w :
  get_file pid fp w
  = (w, match obs w (path_join (get_project_path pid) fp) with
        | None => failure "File not found" 404
        | Some None => InternalError
        | Some (Some text) =>
            success "content" (JStr (Str.universal_newlines text)) 200
        end).
Proof.
  unfold get_file, handle, bind, ask, read_text. rewrite path_exists_obs.
  destruct (obs w _) as [[text|]|] eqn:Ho; simpl; [| |done].
  - by rewrite file_text_obs, Ho.
  - by rewrite file_text_obs, Ho.
Qed.

(** X1.  [delete_project] answers 404 and changes nothing when the
    project path does not exist; it answers 500 and changes nothing
    when the path leads to a regular file, which [shutil.rmtree]
    refuses; it answers 200 when the identifier is an entry name and
    the path leads to a directory, whether or not that directory
    holds a descriptor. *)
Theorem delete_project_outcome pid w :
  (path_exists w (get_project_path pid) = false →
   delete_project pid w = (w, failure "Project not found" 404))
  ∧ (∀ text, obs w (get_project_path pid) = Some (Some text) →
       delete_project pid w = (w, InternalError))
  ∧ (is_name pid = true → path_isdir w (get_project_path pid) = true →
     ∃ w', delete_project pid w = (w', deleted)).
Proof.
  split; [|split].
  - intros Hp. unfold delete_project, handle, bind, ask. by rewrite Hp.
  - intros text Ho. unfold delete_project, handle, bind at 1, ask.
    rewrite path_exists_obs, Ho. simpl.
    apply obs_file in Ho as (c & Hc & Hl). unfold bind, rmtree. by rewrite Hc, Hl.
  - intros Hn Hd. rewrite path_isdir_obs in Hd. apply bool_decide_eq_true in Hd.
    unfold delete_project, handle, bind at 1, ask. rewrite path_exists_obs, Hd. simpl.
    apply obs_dir in Hd as (c & Hc & Hdir).
    pose proof Hc as Hc0. rewrite (resolve_project _ _ Hn) in Hc0.
    destruct (is_dir w (cwd w)) eqn:Hcwd; [|done].
    destruct (is_dir w (cwd w ++ ["projects"])) eqn:Hroot; [|done].
    injection Hc0 as <-.
    destruct (is_dir_lookup _ _ Hdir) as [es Hes].
    set (P := cwd w ++ ["projects"; pid]) in *.
    assert (resolve (clear P w) (get_project_path pid) = Some P) as Hc1.
    { rewrite (resolve_project _ _ Hn), cwd_clear.
      rewrite !is_dir_clear_off by (apply off_parent || apply off_grandparent).
      by rewrite Hcwd, Hroot. }
    assert (rmdir (clear P w) (get_project_path pid)
            = Some (update (λ _, None) P (clear P w))) as Hrm.
    { assert (last_component ["projects"; pid] = pid) as Hlast.
      { simpl. by destruct pid. }
      unfold rmdir. rewrite Hc1, (project_components _ Hn), Hlast.
      cbn [mbind option_bind].
      rewrite (is_name_spec _ Hn), lookup_clear by done.
      by rewrite map_to_list_empty. }
    unfold bind, rmtree. rewrite Hc, Hes, Hrm. by eexists.
Qed.

(** X2.  Once [delete_project] has answered 200 the project path leads
    nowhere: the project is not found by [get_project], by a second
    [delete_project], or by [get_file] on any of its paths. *)
Theorem delete_project_then_gone pid w w' body :
  delete_project pid w = (w', Reply body 200) →
  path_exists w' (get_project_path pid) = false
  ∧ get_project pid w' = (w', failure "Project not found" 404)
  ∧ delete_project pid w' = (w', failure "Project not found" 404)
  ∧ ∀ fp, Str.startswith "/" fp = false →
      get_file pid fp w' = (w', failure "File not found" 404).
Proof.
  intros Hdel. apply delete_project_inv in Hdel as [(_ & [=] & _)|[[[=] _]|[_ Hr]]].
  pose proof (tree_removed_gone _ _ _ Hr) as Hgone.
  split; [done|]. split; [|split].
  - by rewrite get_project_spec, (missing_descriptor _ _ Hgone).
  - unfold delete_project, handle, bind, ask. by rewrite Hgone.
  - intros fp Hfp. apply get_file_missing.
    pose proof (missing_file _ _ _ Hgone Hfp) as Hm.
    rewrite path_exists_obs in Hm. apply bool_decide_eq_false in Hm.
    by destruct (obs w' _); [destruct Hm|].
Qed.

Lemma delete_project_frame pid w w' r :
  delete_project pid w = (w', r) →
  w' = w ∨ ∃ c, resolve w (get_project_path pid) = Some c ∧ cwd w' = cwd w
               ∧ ∀ c', ¬ c `prefix_of` c' → stat w' c' = stat w c'.
Proof.
  unfold delete_project, handle, bind at 1, ask.
  destruct (path_exists w (get_project_path pid)); simpl; [|intros [= <- _]; by left].
  unfold bind. destruct (rmtree (get_project_path pid) w) as [w1 o] eqn:Hr.
  apply rmtree_frame in Hr. by destruct o; intros [= <- _].
Qed.

(** Two states that differ only at [P = cwd/projects/pid] and below
    show the same thing at every path of another project that is made
    of names. *)
Lemma obs_other_project w w' pid other fp :
  is_name pid = true → is_name other = true → other ≠ pid →
  cwd w' = cwd w →
  (∀ c', ¬ cwd w ++ ["projects"; pid] `prefix_of` c' → stat w' c' = stat w c') →
  Forall (λ n, is_name n = true) (Str.split Str.slash fp) →
  obs w' (path_join (get_project_path other) fp)
  = obs w (path_join (get_project_path other) fp).
Proof.
  intros Hn Ho Hne Hcwd Hoff Hfp.
  assert (Hdir : ∀ c', ¬ cwd w ++ ["projects"; pid] `prefix_of` c' →
                 is_dir w' c' = is_dir w c').
  { intros c' Hc'. by rewrite !is_dir_stat, Hoff. }
  assert (Hfar : ∀ l, ¬ cwd w ++ ["projects"; pid]
                        `prefix_of` (cwd w ++ ["projects"; other]) ++ l).
  { intros l. rewrite <- app_assoc. intros [k [=]]%prefix_project. congruence. }
  unfold obs.
  rewrite !resolve_join
    by (apply get_project_path_nonempty || by apply names_relative).
  rewrite !(resolve_project _ _ Ho), Hcwd.
  rewrite !Hdir by (apply off_parent || apply off_grandparent).
  destruct (is_dir w (cwd w) && is_dir w (cwd w ++ ["projects"]));
    [|by rewrite !walk_none].
  rewrite (walk_names_agree w w') by (done || intros p _; apply Hdir, Hfar).
  destruct (foldl (walk_step w) _ _) as [c|] eqn:Hc; [|done]. simpl.
  apply walk_names in Hc as ->; [|done]. apply Hoff, Hfar.
Qed.

(** X3.  [delete_project] leaves every other project as it was: what
    [get_project] answers for it, and what [get_file] answers for any
    of its paths that is made of entry names. *)
Theorem delete_project_keeps_others pid other w w' r :
  is_name pid = true → is_name other = true → other ≠ pid →
  delete_project pid w = (w', r) →
  (get_project other w').2 = (get_project other w).2
  ∧ ∀ fp, Forall (λ n, is_name n = true) (Str.split Str.slash fp) →
      (get_file other fp w').2 = (get_file other fp w).2.
Proof.
  intros Hn Ho Hne Hdel.
  assert (∀ fp, Forall (λ n, is_name n = true) (Str.split Str.slash fp) →
            obs w' (path_join (get_project_path other) fp)
            = obs w (path_join (get_project_path other) fp)) as Hobs.
  { intros fp Hfp.
    apply delete_project_frame in Hdel as [->|(c & Hc & Hcwd & Hoff)]; [done|].
    rewrite (resolve_project _ _ Hn) in Hc.
    destruct (_ && _); [|done]. injection Hc as <-.
    by apply (obs_other_project w w' pid). }
  split.
  - rewrite !get_project_spec. cbn [snd].
    by rewrite (descriptor_obs w w' other (Hobs _ descriptor_name)).
  - intros fp Hfp. rewrite !get_file_spec. cbn [snd]. by rewrite Hobs.
Qed.

(** X4.  Project identifiers are not confined to the root:
    [delete_project] on [..] takes the working directory for the
    project, removes all that it holds, every project included, and
    then answers 500, since the path [projects/..] leads nowhere any
    more. *)
Theorem delete_project_dotdot w :
  path_isdir w PROJECTS_DIR = true →
  delete_project ".." w = (clear (cwd w) w, InternalError)
  ∧ ∀ l, l ≠ [] → stat (clear (cwd w) w) (cwd w ++ l) = None.
Proof.
  intros Hdir. rewrite path_isdir_resolve, resolve_root in Hdir.
  destruct (is_dir w (cwd w)) eqn:Hcwd; [|done].
  split; [|intros l Hl; by apply stat_clear_below].
  destruct (is_dir_lookup _ _ Hcwd) as [es Hes].
  assert (∀ w0, cwd w0 = cwd w →
            resolve w0 (get_project_path "..")
            = if is_dir w0 (cwd w) && is_dir w0 (cwd w ++ ["projects"])
              then Some (cwd w) else None) as Hres.
  { intros w0 Hw0. unfold resolve.
    change (String.eqb (get_project_path "..") "") with false.
    change (Str.split Str.slash (get_project_path "..")) with ["projects"; ".."].
    change (start w0 (get_project_path "..")) with (cwd w0). rewrite Hw0.
    cbn [foldl walk_step]. destruct (is_dir w0 (cwd w)); [|done].
    change (move (cwd w) "projects") with (cwd w ++ ["projects"]). cbn [walk_step andb].
    destruct (is_dir w0 (cwd w ++ ["projects"])); [|done].
    change (move (cwd w ++ ["projects"]) "..") with (removelast (cwd w ++ ["projects"])).
    by rewrite removelast_last. }
  assert (resolve w (get_project_path "..") = Some (cwd w)) as Hr.
  { by rewrite Hres, Hcwd, Hdir. }
  assert (rmdir (clear (cwd w) w) (get_project_path "..") = None) as Hrm.
  { unfold rmdir. rewrite Hres by apply cwd_clear.
    assert (is_dir (clear (cwd w) w) (cwd w ++ ["projects"]) = false) as ->.
    { by rewrite is_dir_stat, stat_clear_below. }
    by rewrite andb_false_r. }
  unfold delete_project, handle, bind at 1, ask.
  unfold path_exists. rewrite Hr. simpl. rewrite Hes. simpl.
  unfold bind, rmtree. by rewrite Hr, Hes, Hrm.
Qed.

(** *** What the handlers leave alone *)

Lemma collect_projects_state names acc w : (collect_projects names acc w).1 = w.
Proof.
  revert acc. induction names as [|n names IH]; intros acc; [done|].
  rewrite collect_projects_step. by destruct (listed w n) as [[m|]|].
Qed.

(** X5.  The handlers that only read, [get_projects], [get_project],
    [get_file] and [run_project], leave the file system as it is,
    whatever they answer. *)
Theorem reading_changes_nothing w :
  (get_projects w).1 = w
  ∧ (∀ pid, (get_project pid w).1 = w)
  ∧ (∀ pid fp, (get_file pid fp w).1 = w)
  ∧ (∀ pid, (run_project pid w).1 = w).
Proof.
  split; [|split; [|split]].
  - unfold get_projects, handle, bind at 1, ask.
    destruct (path_exists w PROJECTS_DIR); [|done].
    unfold bind at 1 2. destruct (listdir w PROJECTS_DIR) as [names|]; [|done].
    pose proof (collect_projects_state names [] w) as Hst.
    by destruct (collect_projects names [] w) as [w1 [ps|]].
  - intros pid. by rewrite get_project_spec.
  - intros pid fp. by rewrite get_file_spec.
  - intros pid. unfold run_project, handle. rewrite bind_load.
    destruct (descriptor w pid) as [| |m]; simpl; try done.
    destruct (truthy m); [|done]. unfold bind, lift, ret.
    by destruct (getitem m "name").
Qed.

(** X6.  An answer with status 400 or 404 comes with no change to the
    file system: every handler that writes makes its checks first. *)
Theorem client_errors_change_nothing w w' body st :
  st = 400 ∨ st = 404 →
  (∀ now data, create_project now data w = (w', Reply body st) → w' = w)
  ∧ (∀ pid, delete_project pid w = (w', Reply body st) → w' = w)
  ∧ (∀ pid data, create_file pid data w = (w', Reply body st) → w' = w)
  ∧ (∀ pid fp data, update_file pid fp data w = (w', Reply body st) → w' = w)
  ∧ (∀ pid fp, delete_file pid fp w = (w', Reply body st) → w' = w)
  ∧ (∀ pid data, create_folder pid data w = (w', Reply body st) → w' = w).
Proof.
  intros Hst.
  split; [|split; [|split; [|split; [|split]]]].
  - intros now data Hc%handle_reply.
    apply bind_some in Hc as (w1 & name & [-> _]%lift_some & Hc).
    apply bind_some in Hc as (w1 & template & [-> _]%lift_some & Hc).
    destruct (negb _); [by injection Hc|].
    apply bind_some in Hc as (w1 & [] & _ & Hc).
    apply bind_some in Hc as (w2 & ff & _ & Hc).
    apply bind_some in Hc as (w3 & [] & _ & Hc).
    injection Hc as _ _ <-. by destruct Hst.
  - intros pid Hc. apply delete_project_inv in Hc as [(-> & _)|[[[=] _]|[[= _ ->] _]]]; [done|].
    by destruct Hst.
  - intros pid data Hc%handle_reply.
    apply bind_some in Hc as (w1 & name & [-> _]%lift_some & Hc).
    apply bind_some in Hc as (w1 & path & [-> _]%lift_some & Hc).
    apply bind_some in Hc as (w1 & content & [-> _]%lift_some & Hc).
    destruct (_ || _); [by injection Hc|].
    rewrite bind_load in Hc. destruct (load_result _) as [metadata|]; [|done].
    destruct (present metadata) as [m|]; [|by injection Hc].
    apply bind_some in Hc as (w2 & full & _ & Hc).
    apply bind_some in Hc as (w3 & [] & _ & Hc).
    apply bind_some in Hc as (w4 & [] & _ & Hc).
    apply bind_some in Hc as (w5 & ty & _ & Hc).
    apply bind_some in Hc as (w6 & files & _ & Hc).
    apply bind_some in Hc as (w7 & files' & _ & Hc).
    apply bind_some in Hc as (w8 & [] & _ & Hc).
    injection Hc as _ _ <-. by destruct Hst.
  - intros pid fp data Hc%handle_reply.
    apply bind_some in Hc as (w1 & content & [-> _]%lift_some & Hc).
    apply bind_some in Hc as (w1 & found & [= <- <-] & Hc).
    destruct (negb _); [by injection Hc|].
    apply bind_some in Hc as (w2 & [] & _ & Hc).
    apply bind_some in Hc as (w3 & metadata & _ & Hc).
    apply bind_some in Hc as (w4 & [] & _ & Hc).
    injection Hc as _ _ <-. by destruct Hst.
  - intros pid fp Hc%handle_reply.
    apply bind_some in Hc as (w1 & found & [= <- <-] & Hc).
    destruct (negb _); [by injection Hc|].
    apply bind_some in Hc as (w2 & [] & _ & Hc).
    apply bind_some in Hc as (w3 & metadata & _ & Hc).
    apply bind_some in Hc as (w4 & [] & _ & Hc).
    injection Hc as _ _ <-. by destruct Hst.
  - intros pid data Hc%handle_reply.
    apply bind_some in Hc as (w1 & name & [-> _]%lift_some & Hc).
    destruct (negb _); [by injection Hc|].
    rewrite bind_load in Hc. destruct (load_result _) as [metadata|]; [|done].
    destruct (present metadata) as [m|]; [|by injection Hc].
    apply bind_some in Hc as (w2 & folder & _ & Hc).
    apply bind_some in Hc as (w3 & [] & _ & Hc).
    apply bind_some in Hc as (w4 & changed & _ & Hc).
    apply bind_some in Hc as (w5 & [] & _ & Hc).
    injection Hc as _ _ <-. by destruct Hst.
Qed.

(** *** Requests that are turned down *)

(** X7.  A request body that is not a JSON object ([null], a list, a
    string, a number) makes every handler that reads its body answer
    500 and change nothing: [data.get] is its first step, before any
    other check, so [update_file] answers 500 even for a file that
    does not exist. *)
Theorem body_must_be_object data w :
  (∀ fields, data ≠ JDict fields) →
  (∀ now, create_project now data w = (w, InternalError))
  ∧ (∀ pid, create_file pid data w = (w, InternalError))
  ∧ (∀ pid fp, update_file pid fp data w = (w, InternalError))
  ∧ (∀ pid, create_folder pid data w = (w, InternalError)).
Proof.
  intros Hd. destruct data as [| | | | |fields]; try done.
  by destruct (Hd fields).
Qed.

(** X8.  [create_project] and [create_folder] answer 400 and change
    nothing when the body has no ['name'] or a falsy one (the empty
    string, [null], [0], [false], an empty list or object). *)
Theorem name_is_required fields w :
  from_option truthy false (assoc "name" fields) = false →
  (∀ now, create_project now (JDict fields) w
          = (w, failure "Project name is required" 400))
  ∧ (∀ pid, create_folder pid (JDict fields) w
            = (w, failure "Folder name is required" 400)).
Proof.
  intros Hn. split.
  - intros now. unfold create_project, handle, bind at 1 2, lift, get.
    destruct (assoc "name" fields) as [name|]; simpl in Hn; [|done].
    by rewrite Hn.
  - intros pid. unfold create_folder, handle, bind at 1, lift, get.
    destruct (assoc "name" fields) as [name|]; simpl in Hn; [|done].
    by rewrite Hn.
Qed.


(** X10.  A directory passes the existence check of the file handlers
    but is no file: on a path that leads to a directory, [get_file],
    [update_file] and [delete_file] answer 500 and change nothing. *)
Theorem directories_are_not_files pid fp w :
  path_isdir w (path_join (get_project_path pid) fp) = true →
  get_file pid fp w = (w, InternalError)
  ∧ (∀ fields, update_file pid fp (JDict fields) w = (w, InternalError))
  ∧ delete_file pid fp w = (w, InternalError).
Proof.
  intros Hdir. rewrite path_isdir_obs in Hdir. apply bool_decide_eq_true in Hdir.
  pose proof (obs_dir _ _ Hdir) as (c & Hc & Hd).
  destruct (is_dir_lookup _ _ Hd) as [es Hes].
  split; [|split].
  - by rewrite get_file_spec, Hdir.
  - intros fields. unfold update_file, handle, bind at 1 2, lift, ask, get.
    rewrite path_exists_obs, Hdir. simpl.
    unfold bind, write_value, open_w. rewrite Hc. simpl. by rewrite Hes.
  - unfold delete_file, handle, bind at 1, ask. rewrite path_exists_obs, Hdir. simpl.
    unfold bind, act, remove. rewrite Hc. simpl. by rewrite Hes.
Qed.

(** *** Files that were created or updated *)

Lemma descriptor_text w pid m :
  descriptor w pid = Loaded m → ∃ text, obs w (metadata_path pid) = Some (Some text).
Proof. intros (text & Ho & _)%descriptor_loaded. by exists text. Qed.

Lemma file_type_str n : ∃ ty, file_type (JStr n) = Some (JStr ty).
Proof.
  unfold file_type. simpl. destruct (Str.contains "." n); by eexists.
Qed.

(** A file written below the project directory under a name other
    than the descriptor's is still there once the descriptor is
    saved. *)
Lemma saved_beside pid b text dump w1 w' :
  Forall (λ n, is_name n = true) (Str.split Str.slash b) →
  Str.split Str.slash b ≠ ["project.json"] →
  obs w1 (path_join (get_project_path pid) b) = Some (Some text) →
  wrote (metadata_path pid) dump w1 w' →
  get_file pid b w'
  = (w', success "content" (JStr (Str.universal_newlines text)) 200).
Proof.
  intros Hb Hne Ho Hs. rewrite get_file_spec.
  rewrite (wrote_obs_other _ _ _ _ _ Hs); [by rewrite Ho|].
  unfold obs in Ho.
  destruct (resolve w1 (path_join (get_project_path pid) b)) as [c|] eqn:Hc; [|done].
  intros Heq. symmetry in Heq. revert Heq.
  by apply (resolve_names_ne w1 _ b "project.json" c
              (get_project_path_nonempty pid) Hb descriptor_name).
Qed.

Lemma loaded_project_dir w pid m :
  is_name pid = true → descriptor w pid = Loaded m →
  path_isdir w (get_project_path pid) = true.
Proof.
  intros Hn (text & Ho)%descriptor_text. rewrite path_isdir_resolve.
  unfold obs, metadata_path in Ho.
  rewrite resolve_join in Ho by (apply get_project_path_nonempty || done).
  destruct (resolve w (get_project_path pid)) as [P|]; [|done].
  simpl in Ho. by destruct (is_dir w P).
Qed.

(** X11.  [create_file] makes the parent directories that are missing:
    in a project whose descriptor holds a ['files'] list, for a name
    that is a non-empty string, a content that is a string and a path
    made of entry names that the operating system takes (no NUL byte,
    at most 255 bytes each, the whole path under 4096 bytes), other
    than the descriptor's, with no regular file on the way to it and
    no directory at its end, it answers 201; the file then holds the
    content, [get_file] returns it with its line endings read as LF,
    and the descriptor has the new entry at the end of its ['files']
    list. *)
Theorem create_file_succeeds pid fields n fp text m files w :
  runtime_lawful →
  assoc "name" fields = Some (JStr n) → n ≠ "" →
  assoc "path" fields = Some (JStr fp) →
  assoc "content" fields = Some (JStr text) →
  is_name pid = true →
  Forall (λ c, is_name c = true) (Str.split Str.slash fp) →
  Forall (λ c, os_name c = true) (Str.split Str.slash fp) →
  os_path (path_join (get_project_path pid) fp) = true →
  Str.split Str.slash fp ≠ ["project.json"] →
  descriptor w pid = Loaded m → getitem m "files" = Some (JList files) →
  (∀ p s, p ≠ [] → p `prefix_of` Str.split Str.slash fp →
          p ≠ Str.split Str.slash fp →
          stat w (cwd w ++ ["projects"; pid] ++ p) ≠ Some (Some s)) →
  stat w (cwd w ++ ["projects"; pid] ++ Str.split Str.slash fp) ≠ Some None →
  ∃ w' info,
    create_file pid (JDict fields) w = (w', success "file" info 201)
    ∧ getitem info "path" = Some (JStr fp)
    ∧ file_text w' (path_join (get_project_path pid) fp) = Some text
    ∧ get_file pid fp w'
      = (w', success "content" (JStr (Str.universal_newlines text)) 200)
    ∧ descriptor w' pid = Loaded (setitem m "files" (JList (files ++ [info]))).
Proof.
  intros Hlaw Hn Hn0 Hfp Htext Hpid Hnames _ _ Hnd Hd Hf Hway Hend.
  set (names := Str.split Str.slash fp) in *.
  set (full := path_join (get_project_path pid) fp).
  pose proof (names_relative _ Hnames) as Hrel.
  destruct (project_file_components pid fp Hpid Hrel) as [_ Hsplit].
  fold full names in Hsplit.
  pose proof (loaded_project_dir _ _ _ Hpid Hd) as Hpdir.
  destruct (project_dir_resolves _ _ Hpid Hpdir) as (Hres & HP & Hroot).
  assert (is_dir w (cwd w) = true) as Hcwd.
  { rewrite path_isdir_resolve, (resolve_project _ _ Hpid) in Hpdir.
    by destruct (is_dir w (cwd w)). }
  set (P := cwd w ++ ["projects"; pid]) in *.
  (* The parent of the file. *)
  assert (names ≠ []) as Hnames0 by apply split_nonempty.
  destruct (exists_last Hnames0) as (l' & x & Hlx).
  assert (Forall (λ c, is_name c = true) l') as Hl'.
  { rewrite Hlx in Hnames. by apply Forall_app in Hnames as [? _]. }
  destruct (dirname_split full (["projects"; pid] ++ l') x) as (Hdsplit & Hdne & Hdrel).
  { by rewrite Hsplit, Hlx, app_assoc. }
  { done. }
  { repeat constructor; [done|by apply name_nonempty|].
    eapply Forall_impl; [exact Hl'|]. intros c. apply name_nonempty. }
  (* Making the parent. *)
  destruct (makedirs_names l' w P HP Hl') as (w1 & Hmk & Hmade).
  { intros p s Hp Hpre. unfold P. rewrite <- app_assoc. apply Hway; [done| |].
    - rewrite Hlx. by apply prefix_app_r.
    - rewrite Hlx. intros ->. apply prefix_length in Hpre.
      rewrite length_app in Hpre. simpl in Hpre. lia. }
  assert (os_makedirs (dirname full) w = (w1, Some ())) as Hparent.
  { unfold os_makedirs, makedirs.
    replace (String.eqb (dirname full) "") with false
      by (by destruct (String.eqb_spec (dirname full) "")).
    unfold start. rewrite Hdrel, Hdsplit, foldl_app.
    rewrite (makedirs_existing w (Some (cwd w)) ["projects"; pid] P).
    - by rewrite Hmk.
    - cbn [foldl walk_step]. rewrite Hcwd.
      change (move (cwd w) "projects") with (cwd w ++ ["projects"]).
      cbn [walk_step]. rewrite Hroot. by rewrite (name_move _ _ Hpid), <- app_assoc.
    - done. }
  pose proof (os_makedirs_extends _ _ _ _ Hparent) as Hext.
  destruct Hmade as (Hc1 & Hd1 & Hf1).
  (* Writing the file. *)
  assert (resolve w1 full = Some (P ++ names)) as Hfull.
  { unfold full. rewrite resolve_join by (apply get_project_path_nonempty || done).
    rewrite (resolve_extends _ _ _ _ Hext Hres). fold names.
    apply walk_names_dirs; [done|]. intros p Hp Hne.
    destruct (decide (p = [])) as [->|Hp0].
    - rewrite app_nil_r. by apply Hext.
    - apply Hd1; [done|]. rewrite Hlx in Hp, Hne.
      destruct Hp as [k Hk]. destruct (exists_last (l:=k)) as (k' & y & ->).
      { intros ->. by rewrite app_nil_r in Hk. }
      rewrite app_assoc in Hk. apply app_inj_tail in Hk as [-> _].
      by apply prefix_app_r. }
  assert (stat w1 (P ++ names) ≠ Some None) as Hend1.
  { rewrite Hf1; [unfold P; by rewrite <- app_assoc|].
    intros p Hp Hpre Heq. apply app_inv_head in Heq. subst p.
    rewrite Hlx in Hpre. apply prefix_length in Hpre.
    rewrite length_app in Hpre. simpl in Hpre. lia. }
  assert (∃ w2, write_text full text w1 = (w2, Some ())) as [w2 Hw2].
  { unfold write_text, open_w. rewrite Hfull. simpl.
    unfold stat in Hend1.
    destruct (lookup w1 (P ++ names)) as [[?|?]|]; [by eexists|done|by eexists]. }
  pose proof Hw2 as Hw. apply write_text_spec in Hw as [[_ Hw]|[[=] _]].
  (* Saving the descriptor. *)
  assert (resolve w1 full ≠ resolve w1 (metadata_path pid)) as Hother.
  { rewrite Hfull. intros Heq. symmetry in Heq. revert Heq.
    apply (resolve_names_ne w1 _ fp "project.json");
      [apply get_project_path_nonempty|done|apply descriptor_name|done|done]. }
  assert (descriptor w2 pid = Loaded m) as Hd2.
  { rewrite (descriptor_wrote_other _ _ _ _ pid Hw Hother).
    by apply (descriptor_extends _ _ _ _ Hext). }
  destruct (descriptor_text _ _ _ Hd2) as [dump Hdump].
  destruct (file_type_str n) as [ty Hty].
  set (info := JDict [("name", JStr n); ("path", JStr fp);
                      ("content", JStr text); ("type", JStr ty)]).
  set (m' := setitem m "files" (JList (files ++ [info]))).
  destruct (write_text_ok _ _ (json_dumps m') _ Hdump) as [w3 Hw3].
  pose proof Hw3 as Hs. apply write_text_spec in Hs as [[_ Hs]|[[=] _]].
  assert (get_file pid fp w3
          = (w3, success "content" (JStr (Str.universal_newlines text)) 200)) as Hget.
  { eapply (saved_beside pid fp text _ w2 w3); [done|done| |exact Hs].
    by apply (wrote_obs_same _ _ _ _ Hw). }
  exists w3, info. split; [|split; [done|split; [|split]]].
  - unfold create_file, handle, bind at 1 2 3, lift, get. rewrite Hn, Hfp, Htext.
    assert (truthy (JStr n) = true) as ->.
    { simpl. by destruct (String.eqb_spec n ""). }
    assert (truthy (JStr fp) = true) as ->.
    { simpl. destruct (String.eqb_spec fp "") as [->|]; [|done].
      by inversion Hnames. }
    cbn [negb orb]. rewrite bind_load, Hd. simpl. rewrite (getitem_truthy _ _ _ Hf).
    unfold bind at 1. unfold bind at 1. fold full. rewrite Hparent.
    unfold bind at 1. rewrite write_value_str, Hw2.
    unfold bind at 1. rewrite Hty. unfold bind at 1. rewrite Hf.
    unfold bind at 1. cbn [append]. unfold bind.
    unfold save_project_metadata. fold info. fold m'. by rewrite Hw3.
  - rewrite file_text_obs. fold full. rewrite (wrote_obs_other _ _ _ _ full Hs).
    + by rewrite (wrote_obs_same _ _ _ _ Hw).
    + by rewrite !(wrote_resolve _ _ _ _ _ Hw).
  - exact Hget.
  - by apply (descriptor_saved _ _ _ _ Hlaw Hs).
Qed.

(** What stands behind a 201 of [create_file]. *)
Lemma create_file_created pid data w w' body :
  create_file pid data w = (w', Reply body 201) →
  ∃ name fp text type m files w1 w2,
    let full := path_join (get_project_path pid) fp in
    let info := JDict [("name", name); ("path", JStr fp);
                       ("content", JStr text); ("type", type)] in
    get data "name" JNull = Some name
    ∧ get data "path" JNull = Some (JStr fp)
    ∧ get data "content" (JStr "") = Some (JStr text)
    ∧ descriptor w pid = Loaded m
    ∧ getitem m "files" = Some (JList files)
    ∧ os_makedirs (dirname full) w = (w1, Some ())
    ∧ wrote full text w1 w2
    ∧ wrote (metadata_path pid)
            (json_dumps (setitem m "files" (JList (files ++ [info])))) w2 w'
    ∧ body = JDict [("success", JBool true); ("file", info)].
Proof.
  intros Hc%handle_reply.
  apply bind_some in Hc as (w0 & name & [-> Hname]%lift_some & Hc).
  apply bind_some in Hc as (w0 & path & [-> Hpath]%lift_some & Hc).
  apply bind_some in Hc as (w0 & content & [-> Hcontent]%lift_some & Hc).
  destruct (_ || _); [done|].
  rewrite bind_load in Hc.
  destruct (descriptor w pid) as [| |m] eqn:Hd; simpl in Hc; try done.
  destruct (truthy m); [|done].
  apply bind_some in Hc as (w0 & full & [-> Hfull]%lift_some & Hc).
  destruct path as [| | |fp| |]; try done. injection Hfull as <-.
  apply bind_some in Hc as (w1 & [] & Hmk & Hc).
  apply bind_some in Hc as (w2 & [] & Hw & Hc).
  apply write_value_spec in Hw as [[_ (text & -> & Hw)]|[[=] _]].
  apply bind_some in Hc as (w3 & type & [-> Hty]%lift_some & Hc).
  apply bind_some in Hc as (w3 & files & [-> Hf]%lift_some & Hc).
  apply bind_some in Hc as (w3 & files' & [-> Hf']%lift_some & Hc).
  destruct files as [| | | |files|]; try done. injection Hf' as <-.
  apply bind_some in Hc as (w3 & [] & Hs & Hc).
  apply save_spec in Hs as [[_ Hs]|[[=] _]].
  injection Hc as <- <-.
  by exists name, fp, text, type, m, files, w1, w2.
Qed.

(** X12.  A file that [create_file] made holds the content of the
    request, and its parent directories exist; [get_file] reads it
    back with every line ending (CR LF, CR) as LF, hence as it is
    when it holds no CR.  The one exception is a path that leads to
    the descriptor, which the handler overwrites right after. *)
Theorem create_file_then_get pid data w w' body :
  create_file pid data w = (w', Reply body 201) →
  ∃ fp text,
    get data "path" JNull = Some (JStr fp)
    ∧ get data "content" (JStr "") = Some (JStr text)
    ∧ path_isdir w' (dirname (path_join (get_project_path pid) fp)) = true
    ∧ (¬ targets_descriptor w' pid fp →
       file_text w' (path_join (get_project_path pid) fp) = Some text
       ∧ get_file pid fp w'
         = (w', success "content" (JStr (Str.universal_newlines text)) 200)
       ∧ (Str.has_char Str.cr text = false →
          get_file pid fp w' = (w', success "content" (JStr text) 200))).
Proof.
  intros (name & fp & text & type & m & files & w1 & w2 & Hc)%create_file_created.
  destruct Hc as (_ & Hfp & Htext & _ & _ & Hmk & Hw & Hs & _).
  exists fp, text. split; [done|]. split; [done|]. split.
  - rewrite (path_isdir_same_dirs w2 w') by (eapply wrote_same_dirs, Hs).
    rewrite (path_isdir_same_dirs w1 w2) by (eapply wrote_same_dirs, Hw).
    by eapply os_makedirs_isdir.
  - intros Hne. rewrite get_file_spec, file_text_obs.
    unfold targets_descriptor in Hne. rewrite !(wrote_resolve _ _ _ _ _ Hs) in Hne.
    rewrite (wrote_obs_other _ _ _ _ _ Hs) by done.
    rewrite (wrote_obs_same _ _ _ _ Hw). split; [done|]. split; [done|].
    by intros ->%universal_newlines_id.
Qed.

(** X13.  [create_file] appends: after a 201 the descriptor is the one
    before with the new entry at the end of its ['files'] list; the
    entries that were there stay, in their order, also one that bears
    the same path.  [get_project] returns that descriptor. *)
Theorem create_file_appends pid data w w' body m :
  runtime_lawful → descriptor w pid = Loaded m →
  create_file pid data w = (w', Reply body 201) →
  ∃ files info,
    getitem m "files" = Some (JList files)
    ∧ body = JDict [("success", JBool true); ("file", info)]
    ∧ descriptor w' pid = Loaded (setitem m "files" (JList (files ++ [info])))
    ∧ get_project pid w'
      = (w', success "project" (setitem m "files" (JList (files ++ [info]))) 200).
Proof.
  intros Hlaw Hd (name & fp & text & type & m0 & files & w1 & w2 & Hc)%create_file_created.
  destruct Hc as (_ & _ & _ & Hd0 & Hf & _ & _ & Hs & ->).
  rewrite Hd in Hd0. injection Hd0 as <-.
  eexists files, _. split; [done|]. split; [done|].
  pose proof (descriptor_saved _ _ _ _ Hlaw Hs) as Hd'. split; [done|].
  by rewrite get_project_spec, Hd', (setitem_truthy _ _ _ _ Hf).
Qed.

(** What stands behind a 200 of [update_file]. *)
Lemma update_file_updated pid fp data w w' body :
  update_file pid fp data w = (w', Reply body 200) →
  ∃ text w1,
    get data "content" (JStr "") = Some (JStr text)
    ∧ wrote (path_join (get_project_path pid) fp) text w w1
    ∧ (w' = w1 ∨ ∃ dump, wrote (metadata_path pid) dump w1 w').
Proof.
  intros Hc%handle_reply.
  apply bind_some in Hc as (w0 & content & [-> Hcontent]%lift_some & Hc).
  apply bind_some in Hc as (w0 & found & [= <- <-] & Hc).
  destruct (negb _); [done|].
  apply bind_some in Hc as (w1 & [] & Hw & Hc).
  apply write_value_spec in Hw as [[_ (text & -> & Hw)]|[[=] _]].
  rewrite bind_load in Hc. destruct (load_result _) as [metadata|]; [|done].
  apply bind_some in Hc as (w2 & [] & Hm & [= <- _]).
  exists text, w1. split; [done|]. split; [done|].
  destruct (present metadata) as [m|]; [|injection Hm as <-; by left].
  apply bind_some in Hm as (w3 & m' & [-> _]%lift_some & Hs).
  apply save_spec in Hs as [[_ Hs]|[[=] _]]. right. by eexists.
Qed.

(** X14.  After a 200 of [update_file] the file holds the content of
    the request (the empty text when the request names none), and
    [get_file] returns it with every line ending (CR LF, CR) read as
    LF, hence as it is when it holds no CR; unless the path leads to
    the descriptor. *)
Theorem update_file_then_get pid fp data w w' body :
  update_file pid fp data w = (w', Reply body 200) →
  ∃ text,
    get data "content" (JStr "") = Some (JStr text)
    ∧ (¬ targets_descriptor w pid fp →
       file_text w' (path_join (get_project_path pid) fp) = Some text
       ∧ get_file pid fp w'
         = (w', success "content" (JStr (Str.universal_newlines text)) 200)
       ∧ (Str.has_char Str.cr text = false →
          get_file pid fp w' = (w', success "content" (JStr text) 200))).
Proof.
  intros (text & w1 & Hcontent & Hw & Hs)%update_file_updated.
  exists text. split; [done|]. intros Hne. rewrite get_file_spec, file_text_obs.
  assert (obs w' (path_join (get_project_path pid) fp) = Some (Some text)) as ->.
  { destruct Hs as [->|[dump Hs]].
    - by rewrite (wrote_obs_same _ _ _ _ Hw).
    - unfold targets_descriptor in Hne.
      rewrite <- !(wrote_resolve _ _ _ _ _ Hw) in Hne.
      rewrite (wrote_obs_other _ _ _ _ _ Hs) by done.
      by rewrite (wrote_obs_same _ _ _ _ Hw). }
  split; [done|]. split; [done|]. by intros ->%universal_newlines_id.
Qed.

(** X15.  [update_file] with a content that is not a string answers
    500, but only after it has opened the file for writing: the file
    is left empty, and nothing else has changed. *)
Theorem update_file_needs_text pid fp fields v old w :
  assoc "content" fields = Some v → (∀ text, v ≠ JStr text) →
  file_text w (path_join (get_project_path pid) fp) = Some old →
  ∃ w', update_file pid fp (JDict fields) w = (w', InternalError)
        ∧ file_text w' (path_join (get_project_path pid) fp) = Some ""
        ∧ ∀ q, resolve w q ≠ resolve w (path_join (get_project_path pid) fp) →
               obs w' q = obs w q.
Proof.
  intros Hv Hnot Hold. rewrite file_text_obs in Hold.
  destruct (obs w _) as [[old'|]|] eqn:Ho; try done.
  destruct (open_w_ok _ _ _ Ho) as (w1 & c & Hopen).
  pose proof (open_w_spec _ _ _ _ Hopen) as [Hw _].
  exists w1. split; [|split].
  - unfold update_file, handle, bind at 1 2, lift, ask, get. rewrite Hv.
    rewrite path_exists_obs, Ho. simpl.
    unfold bind, write_value. rewrite Hopen.
    destruct v; try done. by destruct (Hnot s).
  - by rewrite file_text_obs, (wrote_obs_same _ _ _ _ Hw).
  - intros q Hq. by apply (wrote_obs_other _ _ _ _ _ Hw).
Qed.

(** *** Files that were deleted *)

Lemma drop_path_total fp files :
  Forall (λ e, is_Some (getitem e "path")) files →
  drop_path fp files = Some (filter (λ e, path_is fp e = false) files).
Proof.
  induction 1 as [|f rest [p Hp] _ IH]; [done|]. simpl. rewrite Hp, IH. simpl.
  destruct (eq_str p fp) eqn:He.
  - rewrite filter_cons_False; [done|]. unfold path_is. by rewrite Hp, He.
  - rewrite filter_cons_True; [done|]. unfold path_is. by rewrite Hp, He.
Qed.

(** X16.  [delete_file] removes one file and the entries of its path:
    for an existing regular file other than the descriptor, in a
    project whose entries all bear a path, it answers 200; the
    ['files'] list of the descriptor is then the list before without
    the entries of that path, the others in their order, and every
    other file is as it was. *)
Theorem delete_file_drops_only_that_path pid fp old m files w :
  runtime_lawful →
  descriptor w pid = Loaded m → getitem m "files" = Some (JList files) →
  Forall (λ e, is_Some (getitem e "path")) files →
  file_text w (path_join (get_project_path pid) fp) = Some old →
  ¬ targets_descriptor w pid fp →
  ∃ w', delete_file pid fp w
        = (w', success "message" (JStr "File deleted successfully") 200)
    ∧ descriptor w' pid
      = Loaded (setitem m "files"
                  (JList (filter (λ e, path_is fp e = false) files)))
    ∧ ∀ q, resolve w q ≠ resolve w (path_join (get_project_path pid) fp) →
           resolve w q ≠ resolve w (metadata_path pid) → obs w' q = obs w q.
Proof.
  intros Hlaw Hd Hf Hall Hold%obs_of_read Hne.
  destruct (obs_file _ _ _ Hold) as (c & Hc & Hl).
  assert (∃ w1, remove w (path_join (get_project_path pid) fp) = Some w1) as [w1 Hrm].
  { unfold remove. rewrite Hc. simpl. rewrite Hl. by eexists. }
  pose proof (remove_spec _ _ _ Hrm) as Hr.
  pose proof (descriptor_removed_other _ _ _ pid Hr Hne) as Hd1. rewrite Hd in Hd1.
  pose proof (λ q, resolve_same_dirs _ _ q (removed_same_dirs _ _ _ Hr)) as Hres.
  destruct (descriptor_text _ _ _ Hd1) as [dump Hdump].
  set (m' := setitem m "files" (JList (filter (λ e, path_is fp e = false) files))).
  destruct (write_text_ok _ _ (json_dumps m') _ Hdump) as [w2 Hw].
  pose proof Hw as Hs. apply write_text_spec in Hs as [[_ Hs]|[[=] _]].
  exists w2. split; [|split].
  - unfold delete_file, handle, bind at 1, ask. rewrite path_exists_obs, Hold. simpl.
    unfold bind at 1, act. rewrite Hrm. rewrite bind_load, Hd1. simpl.
    rewrite (getitem_truthy _ _ _ Hf).
    unfold bind at 1 2, lift, drop_entries. rewrite Hf. simpl.
    rewrite (drop_path_total _ _ Hall). simpl.
    unfold save_project_metadata. fold m'. by rewrite Hw.
  - by apply (descriptor_saved _ _ _ _ Hlaw Hs).
  - intros q Hq1 Hq2.
    rewrite (wrote_obs_other _ _ _ _ _ Hs) by (by rewrite !Hres).
    by apply (removed_obs_other _ _ _ _ Hr).
Qed.

(** X17.  No check keeps [delete_file] from the descriptor: on a path
    that leads to it the handler answers 200, and from then on the
    project is not found, while its directory and its other files
    stay on disk. *)
Theorem delete_file_on_descriptor pid fp text w :
  obs w (metadata_path pid) = Some (Some text) → targets_descriptor w pid fp →
  ∃ w', delete_file pid fp w
        = (w', success "message" (JStr "File deleted successfully") 200)
    ∧ get_project pid w' = (w', failure "Project not found" 404)
    ∧ path_isdir w' (get_project_path pid) = true
    ∧ ∀ q, resolve w q ≠ resolve w (metadata_path pid) → obs w' q = obs w q.
Proof.
  intros Ho Ht. unfold targets_descriptor in Ht.
  assert (obs w (path_join (get_project_path pid) fp) = Some (Some text)) as Hfull.
  { unfold obs in *. by rewrite Ht. }
  destruct (obs_file _ _ _ Hfull) as (c & Hc & Hl).
  assert (∃ w1, remove w (path_join (get_project_path pid) fp) = Some w1) as [w1 Hrm].
  { unfold remove. rewrite Hc. simpl. rewrite Hl. by eexists. }
  pose proof (remove_spec _ _ _ Hrm) as Hr.
  assert (obs w1 (metadata_path pid) = None) as Hgone.
  { pose proof (removed_obs_same _ _ _ Hr) as Hg.
    pose proof (λ q, resolve_same_dirs _ _ q (removed_same_dirs _ _ _ Hr)) as Hres.
    unfold obs in *. by rewrite Hres, <- Ht, <- Hres. }
  assert (descriptor w1 pid = Absent) as Hd1 by (unfold descriptor; by rewrite Hgone).
  exists w1. split; [|split; [|split]].
  - unfold delete_file, handle, bind at 1, ask. rewrite path_exists_obs, Hfull. simpl.
    unfold bind at 1, act. rewrite Hrm. by rewrite bind_load, Hd1.
  - by rewrite get_project_spec, Hd1.
  - rewrite (path_isdir_same_dirs w w1) by (eapply removed_same_dirs, Hr).
    rewrite path_isdir_resolve.
    unfold obs, metadata_path in Ho.
    rewrite resolve_join in Ho by (apply get_project_path_nonempty || done).
    destruct (resolve w (get_project_path pid)) as [P|]; [|done].
    simpl in Ho. by destruct (is_dir w P).
  - intros q Hq. apply (removed_obs_other _ _ _ _ Hr). by rewrite Ht.
Qed.

(** *** Folders *)

(** What stands behind a 201 of [create_folder]. *)
Lemma create_folder_created pid data w w' body :
  create_folder pid data w = (w', Reply body 201) →
  ∃ name m w1,
    get data "name" JNull = Some (JStr name) ∧ truthy (JStr name) = true
    ∧ descriptor w pid = Loaded m ∧ truthy m = true
    ∧ os_makedirs (path_join (get_project_path pid) name) w = (w1, Some ())
    ∧ ((add_folder name m = Some None ∧ w' = w1)
       ∨ ∃ m', add_folder name m = Some (Some m')
               ∧ wrote (metadata_path pid) (json_dumps m') w1 w')
    ∧ body = JDict [("success", JBool true); ("folder", JStr name)].
Proof.
  intros Hc%handle_reply.
  apply bind_some in Hc as (w0 & folder & [-> Hname]%lift_some & Hc).
  destruct (truthy folder) eqn:Hnt; [|done]. cbn [negb] in Hc.
  rewrite bind_load in Hc.
  destruct (descriptor w pid) as [| |m] eqn:Hd; simpl in Hc; try done.
  destruct (truthy m) eqn:Hm; [|done].
  apply bind_some in Hc as (w0 & path & [-> Hpath]%lift_some & Hc).
  destruct folder as [| | |name| |]; try done. injection Hpath as <-.
  apply bind_some in Hc as (w1 & [] & Hmk & Hc).
  apply bind_some in Hc as (w2 & changed & [-> Hadd]%lift_some & Hc).
  apply bind_some in Hc as (w2 & [] & Hs & [= <- <-]).
  exists name, m, w1. repeat (split; [done|]). split; [|done].
  destruct changed as [m'|].
  - apply save_spec in Hs as [[_ Hs]|[[=] _]]. right. by exists m'.
  - injection Hs as <-. by left.
Qed.

Lemma existsb_snoc {A} (f : A → bool) l x : f x = true → existsb f (l ++ [x]) = true.
Proof. intros Hx. rewrite existsb_app. simpl. rewrite Hx. by destruct (existsb f l). Qed.

Lemma create_folder_run pid fields name m w w1 :
  assoc "name" fields = Some (JStr name) → truthy (JStr name) = true →
  descriptor w pid = Loaded m → truthy m = true →
  os_makedirs (path_join (get_project_path pid) name) w = (w1, Some ()) →
  create_folder pid (JDict fields) w
  = match add_folder name m with
    | Some (Some m') =>
        match save_project_metadata pid m' w1 with
        | (w2, Some _) => (w2, success "folder" (JStr name) 201)
        | (w2, None) => (w2, InternalError)
        end
    | Some None => (w1, success "folder" (JStr name) 201)
    | None => (w1, InternalError)
    end.
Proof.
  intros Hn Hnt Hd Hm Hmk.
  unfold create_folder, handle, bind at 1, lift, get. rewrite Hn, Hnt. cbn [negb].
  rewrite bind_load, Hd. simpl. rewrite Hm.
  unfold bind at 1. unfold bind at 1. rewrite Hmk. unfold bind at 1.
  destruct (add_folder name m) as [[m'|]|]; [|done..].
  unfold bind. by destruct (save_project_metadata pid m' w1) as [w2 [[]|]].
Qed.

(** X18.  [create_folder] makes the folder with the directories above
    it: in a project whose descriptor holds a ['folders'] list, for a
    name made of entry names that the operating system takes (no NUL
    byte, at most 255 bytes each, the whole path under 4096 bytes)
    with no regular file on its way, it answers 201; the folder is
    then a directory, and the ['folders'] list is the one before,
    with the name at its end unless it was in it. *)
Theorem create_folder_succeeds pid fields name m folders P w :
  runtime_lawful →
  assoc "name" fields = Some (JStr name) →
  Forall (λ c, is_name c = true) (Str.split Str.slash name) →
  Forall (λ c, os_name c = true) (Str.split Str.slash name) →
  os_path (path_join (get_project_path pid) name) = true →
  descriptor w pid = Loaded m → getitem m "folders" = Some (JList folders) →
  resolve w (get_project_path pid) = Some P →
  (∀ p s, p ≠ [] → p `prefix_of` Str.split Str.slash name →
          stat w (P ++ p) ≠ Some (Some s)) →
  ∃ w' m',
    create_folder pid (JDict fields) w = (w', success "folder" (JStr name) 201)
    ∧ path_isdir w' (path_join (get_project_path pid) name) = true
    ∧ descriptor w' pid = Loaded m'
    ∧ getitem m' "folders"
      = Some (JList (if existsb (λ x, eq_str x name) folders then folders
                     else folders ++ [JStr name])).
Proof.
  intros Hlaw Hn Hnames _ _ Hd Hf HP Hway.
  pose proof (names_relative _ Hnames) as Hrel.
  assert (is_dir w P = true) as HdP.
  { destruct (descriptor_text _ _ _ Hd) as [text Ho]. unfold obs, metadata_path in Ho.
    rewrite resolve_join, HP in Ho by (apply get_project_path_nonempty || done).
    simpl in Ho. by destruct (is_dir w P). }
  destruct (makedirs_in_project w pid P name HP HdP Hrel Hnames)
    as (w1 & Hmk & _ & _ & _).
  { apply Forall_forall. intros p Hp s.
    assert (p ≠ [] ∧ p `prefix_of` Str.split Str.slash name) as [Hp0 Hpre].
    { clear -Hp. revert p Hp. induction (Str.split Str.slash name) as [|a l IH];
        intros p Hp; [by apply elem_of_nil in Hp|].
      cbn [prefixes] in Hp. apply elem_of_cons in Hp as [->|Hp].
      - split; [done|]. apply prefix_cons, prefix_nil.
      - apply list_elem_of_fmap in Hp as (q & -> & Hq). destruct (IH q Hq) as [_ Hpre].
        split; [done|]. by apply prefix_cons. }
    by apply Hway. }
  pose proof (os_makedirs_extends _ _ _ _ Hmk) as Hext.
  pose proof (descriptor_extends _ _ _ _ Hext Hd) as Hd1.
  pose proof (os_makedirs_isdir _ _ _ Hmk) as Hdir.
  assert (truthy (JStr name) = true) as Hnt.
  { simpl. destruct (String.eqb_spec name "") as [->|]; [|done]. by inversion Hnames. }
  rewrite (create_folder_run _ _ _ _ _ _ Hn Hnt Hd (getitem_truthy _ _ _ Hf) Hmk).
  unfold add_folder. rewrite Hf. simpl.
  destruct (existsb (λ x, eq_str x name) folders) eqn:Hknown; simpl.
  - by exists w1, m.
  - destruct (descriptor_text _ _ _ Hd1) as [dump Hdump].
    set (m' := setitem m "folders" (JList (folders ++ [JStr name]))).
    destruct (write_text_ok _ _ (json_dumps m') _ Hdump) as [w2 Hw2].
    pose proof Hw2 as Hs. apply write_text_spec in Hs as [[_ Hs]|[[=] _]].
    exists w2, m'. unfold save_project_metadata. rewrite Hw2.
    split; [done|]. split; [|split].
    + by rewrite (path_isdir_same_dirs w1 w2) by (eapply wrote_same_dirs, Hs).
    + by apply (descriptor_saved _ _ _ _ Hlaw Hs).
    + by apply (getitem_setitem_same _ _ _ _ Hf).
Qed.

(** After [add_folder] the name is in the list, once. *)
Lemma add_folder_known name m m' :
  add_folder name m = Some (Some m') → add_folder name m' = Some None.
Proof.
  unfold add_folder. destruct (getitem m "folders") as [folders|] eqn:Hf; [|done]. simpl.
  destruct (contains_str name folders) as [[]|]; try done. simpl.
  destruct folders as [| | | |l|]; try done. simpl. intros [= <-].
  rewrite (getitem_setitem_same _ _ _ _ Hf). simpl.
  by rewrite existsb_snoc by (simpl; apply String.eqb_refl).
Qed.

(** X19.  [create_folder] makes the folder and lists it once: after a
    201 the folder is a directory on disk and its name is in the
    ['folders'] list of the descriptor, and the same request again
    answers the same and changes nothing. *)
Theorem create_folder_twice pid data w w' body :
  runtime_lawful →
  create_folder pid data w = (w', Reply body 201) →
  (∃ name m' folders,
      get data "name" JNull = Some (JStr name)
      ∧ path_isdir w' (path_join (get_project_path pid) name) = true
      ∧ descriptor w' pid = Loaded m'
      ∧ getitem m' "folders" = Some folders
      ∧ contains_str name folders = Some true)
  ∧ create_folder pid data w' = (w', Reply body 201).
Proof.
  intros Hlaw (name & m & w1 & Hname & Hnt & Hd & Hm & Hmk & Hs & ->)%create_folder_created.
  pose proof (os_makedirs_isdir _ _ _ Hmk) as Hdir.
  pose proof (descriptor_extends _ _ _ _ (os_makedirs_extends _ _ _ _ Hmk) Hd) as Hd1.
  assert (∀ m1, descriptor w' pid = Loaded m1 → truthy m1 = true →
            path_isdir w' (path_join (get_project_path pid) name) = true →
            add_folder name m1 = Some None →
            create_folder pid data w'
            = (w', Reply (JDict [("success", JBool true); ("folder", JStr name)]) 201))
    as Hagain.
  { intros m1 Hd' Hm1 Hdir' Hknown.
    unfold create_folder, handle, bind at 1, lift. rewrite Hname, Hnt. cbn [negb].
    rewrite bind_load, Hd'. simpl. rewrite Hm1.
    unfold bind at 1, lift, join_value. unfold bind at 1.
    rewrite (os_makedirs_present _ _ Hdir').
    unfold bind at 1, lift. by rewrite Hknown. }
  destruct Hs as [[Hknown ->]|(m' & Hadd & Hs)].
  - split; [|by apply (Hagain m)].
    unfold add_folder in Hknown.
    destruct (getitem m "folders") as [folders|] eqn:Hf; [|done]. simpl in Hknown.
    destruct (contains_str name folders) as [[]|] eqn:Hk; try done.
    + by exists name, m, folders.
    + simpl in Hknown. by destruct (append folders (JStr name)).
  - pose proof (descriptor_saved _ _ _ _ Hlaw Hs) as Hd'.
    assert (path_isdir w' (path_join (get_project_path pid) name) = true) as Hdir'.
    { by rewrite (path_isdir_same_dirs w1 w') by (eapply wrote_same_dirs, Hs). }
    pose proof (add_folder_known _ _ _ Hadd) as Hknown.
    assert (truthy m' = true ∧ ∃ folders, getitem m' "folders" = Some folders
              ∧ contains_str name folders = Some true) as [Hm' (folders & Hf' & Hk')].
    { unfold add_folder in Hknown.
      destruct (getitem m' "folders") as [folders|] eqn:Hf; [|done].
      split; [by eapply getitem_truthy|]. exists folders. split; [done|].
      simpl in Hknown. destruct (contains_str name folders) as [[]|]; try done.
      simpl in Hknown. by destruct (append folders (JStr name)). }
    split; [by exists name, m', folders|]. by apply (Hagain m').
Qed.

(** *** Projects that were created *)

(** What stands behind a 201 of [create_project]. *)
Lemma create_project_created now data w w' project :
  create_project now data w = (w', success "project" project 201) →
  ∃ name template ff w1 w2,
    get data "name" JNull = Some name ∧ truthy name = true
    ∧ get data "template" (JStr "empty") = Some template
    ∧ os_makedirs (get_project_path (Str.of_Z (millis now))) w = (w1, Some ())
    ∧ scaffold (get_project_path (Str.of_Z (millis now))) template w1 = (w2, Some ff)
    ∧ project = JDict [("id", JStr (Str.of_Z (millis now))); ("name", name);
                       ("template", template); ("files", JList ff.1);
                       ("folders", JList ff.2);
                       ("createdAt", JStr (isoformat now))]
    ∧ wrote (metadata_path (Str.of_Z (millis now))) (json_dumps project) w2 w'.
Proof.
  intros Hc%handle_reply.
  apply bind_some in Hc as (w0 & name & [-> Hname]%lift_some & Hc).
  apply bind_some in Hc as (w0 & template & [-> Htemplate]%lift_some & Hc).
  destruct (truthy name) eqn:Hnt; [|done]. cbn [negb] in Hc.
  apply bind_some in Hc as (w1 & [] & Hmk & Hc).
  apply bind_some in Hc as (w2 & ff & Hsc & Hc).
  apply bind_some in Hc as (w3 & [] & Hs & Hc).
  injection Hc as <- <-.
  apply save_spec in Hs as [[_ Hs]|[[=] _]].
  by exists name, template, ff, w1, w2.
Qed.

(** The three branches of [scaffold]. *)
Lemma scaffold_made pp template w w' ff :
  scaffold pp template w = (w', Some ff) →
  (eq_str template "basic" = true ∧ ff = ([main_java], [JStr "src"])
   ∧ ∃ w1, os_makedirs (path_join pp "src") w = (w1, Some ())
           ∧ wrote (path_join (path_join pp "src") "Main.java") "" w1 w')
  ∨ (eq_str template "basic" = false ∧ eq_str template "maven" = true
     ∧ ff = ([pom_xml], [JStr "src"; JStr "src/main/java"; JStr "src/test/java"])
     ∧ ∃ w1 w2, os_makedirs (path_join pp "src/main/java") w = (w1, Some ())
                ∧ os_makedirs (path_join pp "src/test/java") w1 = (w2, Some ())
                ∧ wrote (path_join pp "pom.xml") "" w2 w')
  ∨ (eq_str template "basic" = false ∧ eq_str template "maven" = false
     ∧ ff = ([], [JStr "src"])
     ∧ os_makedirs (path_join pp "src") w = (w', Some ())).
Proof.
  unfold scaffold. destruct (eq_str template "basic");
    [|destruct (eq_str template "maven")]; intros Hsc.
  - apply bind_some in Hsc as (w1 & [] & Hmk & Hsc).
    apply bind_some in Hsc as (w2 & [] & Hw & [= <- <-]).
    apply write_text_spec in Hw as [[_ Hw]|[[=] _]].
    left. repeat (split; [done|]). by exists w1.
  - apply bind_some in Hsc as (w1 & [] & Hmk1 & Hsc).
    apply bind_some in Hsc as (w2 & [] & Hmk2 & Hsc).
    apply bind_some in Hsc as (w3 & [] & Hw & [= <- <-]).
    apply write_text_spec in Hw as [[_ Hw]|[[=] _]].
    right. left. repeat (split; [done|]). by exists w1, w2.
  - apply bind_some in Hsc as (w1 & [] & Hmk & [= <- <-]).
    right. right. done.
Qed.

(** X20.  For a non-empty name and the template ['maven'],
    [create_project] answers with a project in a fresh root, and the
    project it returns, in any state, lists the one file [pom.xml],
    with empty content, and the folders [src], [src/main/java] and
    [src/test/java]. *)
Theorem maven_template now fields name w :
  assoc "name" fields = Some name → truthy name = true →
  assoc "template" fields = Some (JStr "maven") →
  (fresh w (Str.of_Z (millis now)) →
   ∃ w' project,
     create_project now (JDict fields) w = (w', success "project" project 201))
  ∧ ∀ w' project,
      create_project now (JDict fields) w = (w', success "project" project 201) →
      getitem project "files" = Some (JList [pom_xml])
      ∧ getitem pom_xml "path" = Some (JStr "pom.xml")
      ∧ getitem pom_xml "content" = Some (JStr "")
      ∧ getitem project "folders"
        = Some (JList [JStr "src"; JStr "src/main/java"; JStr "src/test/java"]).
Proof.
  intros Hn Ht Hm. split; [by eapply create_project_succeeds|].
  intros w' project Hc.
  apply create_project_created in Hc
    as (name' & template & ff & w1 & w2 & _ & _ & Htemplate & _ & Hsc & -> & _).
  unfold get in Htemplate. rewrite Hm in Htemplate. injection Htemplate as <-.
  apply scaffold_made in Hsc as [([=] & _)|[(_ & _ & -> & _)|(_ & [=] & _)]].
  done.
Qed.

(** X21.  The template is not checked: any value other than ['basic']
    and ['maven'], also one that names no template at all, is stored
    in the descriptor as it came (['empty'] when the request has
    none) and gives the empty project, with no file and the one
    folder [src]. *)
Theorem unknown_template_is_empty now data w w' project :
  create_project now data w = (w', success "project" project 201) →
  ∃ template,
    get data "template" (JStr "empty") = Some template
    ∧ getitem project "template" = Some template
    ∧ (eq_str template "basic" = false → eq_str template "maven" = false →
       getitem project "files" = Some (JList [])
       ∧ getitem project "folders" = Some (JList [JStr "src"])
       ∧ path_isdir w' (path_join (get_project_path (Str.of_Z (millis now))) "src")
         = true).
Proof.
  intros (name & template & ff & w1 & w2 & _ & _ & Htemplate & _ & Hsc & -> & Hs)
    %create_project_created.
  exists template. split; [done|]. split; [done|]. intros Hb Hm.
  apply scaffold_made in Hsc as [(Hb' & _)|[(_ & Hm' & _)|(_ & _ & -> & Hmk)]];
    [congruence..|].
  split; [done|]. split; [done|].
  rewrite (path_isdir_same_dirs w2 w') by (eapply wrote_same_dirs, Hs).
  by eapply os_makedirs_isdir.
Qed.

(** X22.  The descriptor of a new project agrees with the disk: every
    entry of its ['files'] list is a file that [get_file] reads back
    with the recorded content, and every entry of its ['folders']
    list is a directory of the project. *)
Theorem created_project_matches_disk now data w w' project :
  create_project now data w = (w', success "project" project 201) →
  ∃ files folders,
    getitem project "files" = Some (JList files)
    ∧ getitem project "folders" = Some (JList folders)
    ∧ (∀ entry, entry ∈ files →
         ∃ p text,
           getitem entry "path" = Some (JStr p)
           ∧ getitem entry "content" = Some (JStr text)
           ∧ get_file (Str.of_Z (millis now)) p w'
             = (w', success "content" (JStr text) 200))
    ∧ (∀ folder, folder ∈ folders →
         ∃ s, folder = JStr s
              ∧ path_isdir w' (path_join (get_project_path (Str.of_Z (millis now))) s)
                = true).
Proof.
  intros (name & template & ff & w1 & w2 & _ & _ & _ & _ & Hsc & -> & Hs)
    %create_project_created.
  set (pid := Str.of_Z (millis now)) in *.
  pose proof (get_project_path_nonempty pid) as Hpp.
  exists ff.1, ff.2. split; [done|]. split; [done|].
  pose proof (λ p, path_isdir_same_dirs w2 w' p (wrote_same_dirs _ _ _ _ Hs)) as Hsame.
  apply scaffold_made in Hsc
    as [(_ & -> & wa & Hmk & Hw)
       |[(_ & _ & -> & wa & wb & Hmk1 & Hmk2 & Hw)|(_ & _ & -> & Hmk)]]; cbn [fst snd].
  - split.
    + intros entry ->%list_elem_of_singleton. exists "src/Main.java", "".
      split; [done|]. split; [done|].
      eapply (saved_beside pid "src/Main.java" "" _ w2 w');
        [by repeat constructor|done| |exact Hs].
      pose proof (wrote_obs_same _ _ _ _ Hw) as Ho. unfold obs in *.
      by rewrite resolve_nested.
    + intros folder ->%list_elem_of_singleton. exists "src". split; [done|].
      rewrite Hsame, (path_isdir_same_dirs wa w2) by (eapply wrote_same_dirs, Hw).
      by eapply os_makedirs_isdir.
  - assert (path_isdir w' (path_join (get_project_path pid) "src/main/java") = true)
      as Hmain.
    { rewrite Hsame, (path_isdir_same_dirs wb w2) by (eapply wrote_same_dirs, Hw).
      eapply path_isdir_extends; [by eapply os_makedirs_extends|].
      by eapply os_makedirs_isdir. }
    split.
    + intros entry ->%list_elem_of_singleton. exists "pom.xml", "".
      split; [done|]. split; [done|].
      eapply (saved_beside pid "pom.xml" "" _ w2 w');
        [by repeat constructor|done| |exact Hs].
      by apply (wrote_obs_same _ _ _ _ Hw).
    + intros folder Hin.
      apply elem_of_cons in Hin as [->|Hin];
        [exists "src"; split; [done|]; by apply path_isdir_src|].
      apply elem_of_cons in Hin as [->|Hin]; [by exists "src/main/java"|].
      apply list_elem_of_singleton in Hin as ->.
      exists "src/test/java". split; [done|].
      rewrite Hsame, (path_isdir_same_dirs wb w2) by (eapply wrote_same_dirs, Hw).
      by eapply os_makedirs_isdir.
  - split; [by intros entry Hin%elem_of_nil|].
    intros folder ->%list_elem_of_singleton. exists "src". split; [done|].
    rewrite Hsame. by eapply os_makedirs_isdir.
Qed.

Lemma collect_projects_result names acc w :
  collect_projects names acc w = (w, None)
  ∨ ∃ rest, collect_projects names acc w = (w, Some (acc ++ rest))
            ∧ ∀ n m, n ∈ names → listed w n = Some (Some m) → m ∈ rest.
Proof.
  revert acc. induction names as [|n names IH]; intros acc.
  { right. exists []. split; [by rewrite app_nil_r|]. by intros n m Hn%elem_of_nil. }
  rewrite collect_projects_step. destruct (listed w n) as [[m|]|] eqn:Hl; [| |by left].
  - destruct (IH (acc ++ [m])) as [->|(rest & -> & Hrest)]; [by left|].
    right. exists (m :: rest). split; [by rewrite <- app_assoc|].
    intros n' m' [->|Hin]%elem_of_cons Hl'.
    + rewrite Hl in Hl'. injection Hl' as <-. apply list_elem_of_here.
    + apply list_elem_of_further. by eapply Hrest.
  - destruct (IH acc) as [->|(rest & -> & Hrest)]; [by left|].
    right. exists rest. split; [done|].
    intros n' m' [->|Hin]%elem_of_cons Hl'; [congruence|by eapply Hrest].
Qed.

Lemma scaffold_keeps_dirs pp template w w' ff p :
  scaffold pp template w = (w', Some ff) →
  path_isdir w p = true → path_isdir w' p = true.
Proof.
  intros Hsc Hp. apply scaffold_made in Hsc
    as [(_ & _ & wa & Hmk & Hw)
       |[(_ & _ & _ & wa & wb & Hmk1 & Hmk2 & Hw)|(_ & _ & _ & Hmk)]].
  - rewrite (path_isdir_same_dirs wa w') by (eapply wrote_same_dirs, Hw).
    eapply path_isdir_extends; [by eapply os_makedirs_extends|done].
  - rewrite (path_isdir_same_dirs wb w') by (eapply wrote_same_dirs, Hw).
    eapply path_isdir_extends; [by eapply os_makedirs_extends|].
    eapply path_isdir_extends; [by eapply os_makedirs_extends|done].
  - eapply path_isdir_extends; [by eapply os_makedirs_extends|done].
Qed.

(** X23.  A project that [create_project] returned is in the listing:
    [get_projects], when it answers 200 in the state that the
    creation left, lists the project as it was returned. *)
Theorem created_project_is_listed now data w w' project :
  runtime_lawful →
  create_project now data w = (w', success "project" project 201) →
  get_projects w' = (w', InternalError)
  ∨ ∃ projects,
      get_projects w' = (w', success "projects" (JList projects) 200)
      ∧ project ∈ projects.
Proof.
  intros Hlaw (name & template & ff & w1 & w2 & _ & _ & _ & Hmk & Hsc & Hp & Hs)
    %create_project_created.
  set (pid := Str.of_Z (millis now)) in *.
  assert (path_isdir w' (get_project_path pid) = true) as Hdir.
  { rewrite (path_isdir_same_dirs w2 w') by (eapply wrote_same_dirs, Hs).
    eapply scaffold_keeps_dirs; [done|]. by eapply os_makedirs_isdir. }
  assert (listed w' pid = Some (Some project)) as Hl.
  { unfold listed. rewrite Hdir, (descriptor_saved _ _ _ _ Hlaw Hs). by rewrite Hp. }
  destruct (listdir_entry _ _ (of_Z_name (millis now)) Hdir) as (names & Hnames & Hin).
  rewrite (get_projects_listing _ _ Hnames).
  destruct (collect_projects_result names [] w') as [->|(rest & -> & Hrest)]; [by left|].
  right. exists rest. split; [done|]. by eapply Hrest.
Qed.

(** *** Starting up *)

(** X24.  In a working directory that has no [projects] entry, the
    start-up code makes the directory, empty: [get_projects] then
    answers 200 with no project, and the root is one in which
    [create_project] answers 201 for every request that names the
    project. *)
Theorem startup_makes_root w :
  is_dir w (cwd w) = true → stat w (cwd w ++ ["projects"]) = None →
  ∃ w1, startup w = (w1, Some ())
    ∧ path_isdir w1 PROJECTS_DIR = true
    ∧ get_projects w1 = (w1, success "projects" (JList []) 200)
    ∧ ∀ now fields name,
        assoc "name" fields = Some name → truthy name = true →
        ∃ w2 project,
          create_project now (JDict fields) w1 = (w2, success "project" project 201).
Proof.
  intros Hcwd Hnone.
  destruct (makedirs_names ["projects"] w (cwd w) Hcwd) as (w1 & Hmk & Hmade).
  { by repeat constructor. }
  { intros p s Hp Hpre. destruct p as [|x p]; [done|].
    pose proof (prefix_cons_inv_1 _ _ _ _ Hpre) as ->.
    apply prefix_cons_inv_2, prefix_nil_inv in Hpre as ->. by rewrite Hnone. }
  destruct Hmade as (Hc1 & Hd1 & Hf1).
  assert (is_dir w1 (cwd w1 ++ ["projects"]) = true) as Hroot.
  { rewrite Hc1. by apply Hd1. }
  assert (∀ l, l ≠ ["projects"] → stat w1 (cwd w ++ l) = stat w (cwd w ++ l)) as Hfr.
  { intros l Hl. apply Hf1. intros p Hp Hpre Heq. apply app_inv_head in Heq as ->.
    destruct p as [|x p]; [done|].
    pose proof (prefix_cons_inv_1 _ _ _ _ Hpre) as ->.
    by apply prefix_cons_inv_2, prefix_nil_inv in Hpre as ->. }
  assert (is_dir w1 (cwd w1) = true) as Hcwd1.
  { rewrite Hc1, is_dir_stat, <- (app_nil_r (cwd w)), Hfr by done.
    by rewrite app_nil_r, <- is_dir_stat. }
  assert (∀ n, stat w1 (cwd w1 ++ ["projects"; n]) = None) as Hempty.
  { intros n. rewrite Hc1, Hfr by done.
    change (cwd w ++ ["projects"; n]) with (cwd w ++ ["projects"] ++ [n]).
    rewrite app_assoc. by apply stat_below_none. }
  exists w1. split; [|split; [|split]].
  - unfold startup, bind, ask. rewrite path_exists_obs. unfold obs.
    rewrite resolve_root, Hcwd. simpl. rewrite Hnone. simpl.
    unfold os_makedirs, makedirs, PROJECTS_DIR.
    change (String.eqb "projects" "") with false.
    change (Str.split Str.slash "projects") with ["projects"].
    change (start w "projects") with (cwd w). cbv iota. by rewrite Hmk.
  - by rewrite path_isdir_resolve, resolve_root, Hcwd1.
  - destruct (is_dir_lookup _ _ Hroot) as [es Hes].
    assert (es = ∅) as ->.
    { apply map_eq. intros n. rewrite lookup_empty, <- (lookup_entry _ _ _ _ Hes).
      specialize (Hempty n). unfold stat in Hempty.
      rewrite <- app_assoc. by destruct (lookup w1 _) as [[?|?]|]. }
    rewrite (get_projects_listing w1 []); [done|].
    unfold listdir. rewrite resolve_root, Hcwd1. simpl. rewrite Hes.
    by rewrite map_to_list_empty.
  - intros now fields name Hn Ht. eapply create_project_succeeds; [done..|].
    split; [done|]. split; [|by apply Hempty].
    intros s. rewrite is_dir_stat in Hroot. apply bool_decide_eq_true in Hroot.
    by rewrite Hroot.
Qed.

(** *** Paths that leave the project *)

(** X25.  File paths are not confined to their project: with [..] a
    path under one project names the files of any other, so that
    [get_file] on project [pid] returns what [get_file] on project
    [other] does. *)
Theorem file_paths_cross_projects pid other fp w :
  is_name pid = true → is_name other = true →
  path_isdir w (get_project_path pid) = true →
  Str.startswith "/" fp = false →
  get_file pid ("../" +:+ other +:+ "/" +:+ fp) w = get_file other fp w.
Proof.
  intros Hn Ho Hdir Hfp. rewrite !get_file_spec. f_equal.
  destruct (project_dir_resolves _ _ Hn Hdir) as (Hr & Hp & Hroot).
  assert (is_dir w (cwd w) = true) as Hcwd.
  { rewrite path_isdir_resolve, (resolve_project _ _ Hn) in Hdir.
    by destruct (is_dir w (cwd w)). }
  assert (obs w (path_join (get_project_path pid) ("../" +:+ other +:+ "/" +:+ fp))
          = obs w (path_join (get_project_path other) fp)) as ->; [|done].
  unfold obs. f_equal.
  rewrite !resolve_join by (apply get_project_path_nonempty || done).
  rewrite Hr, (resolve_project _ _ Ho), Hcwd, Hroot. cbn [andb].
  change ("../" +:+ other +:+ "/" +:+ fp)
    with (".." +:+ String Str.slash (other +:+ String Str.slash fp)).
  rewrite !split_app, (name_split _ Ho).
  change (Str.split Str.slash "..") with [".."].
  cbn [app foldl walk_step]. rewrite Hp.
  change (move (cwd w ++ ["projects"; pid]) "..")
    with (removelast (cwd w ++ ["projects"; pid])).
  change (cwd w ++ ["projects"; pid]) with (cwd w ++ ["projects"] ++ [pid]).
  rewrite app_assoc, removelast_last. cbn [walk_step]. rewrite Hroot.
  by rewrite (name_move _ _ Ho), <- app_assoc.
Qed.

(** *** One project at a time *)

Lemma write_value_within P p v w w' r :
  write_value p v w = (w', r) →
  (∀ c, resolve w p = Some c → P `prefix_of` c) → within P w w'.
Proof.
  intros Hw Hin.
  assert (∀ text, wrote p text w w' → within P w w') as Hwrote.
  { intros text Hwr. destruct (Hwr) as (c & Hc & _). eapply wrote_within; eauto. }
  apply write_value_spec in Hw as [[_ (text & _ & Hw)]|[_ [->|Hw]]]; eauto.
  apply within_refl.
Qed.

Lemma write_text_within P p text w w' r :
  write_text p text w = (w', r) →
  (∀ c, resolve w p = Some c → P `prefix_of` c) → within P w w'.
Proof.
  intros Hw Hin. apply write_text_spec in Hw as [[_ Hw]|[_ ->]]; [|apply within_refl].
  destruct (Hw) as (c & Hc & _). eapply wrote_within; eauto.
Qed.

Lemma save_within pid m w w' r :
  is_name pid = true → save_project_metadata pid m w = (w', r) →
  within (cwd w ++ ["projects"; pid]) w w'.
Proof.
  intros Hn Hs. eapply write_text_within; [exact Hs|].
  intros c. apply resolve_in_project; [done|apply descriptor_name].
Qed.

(** A step that stays within the project, followed by more of them. *)
Lemma within_step P w w1 w' :
  within P w w1 → (cwd w1 = cwd w → within P w1 w') → within P w w'.
Proof. intros H1 H2. eapply within_trans; [exact H1|]. apply H2, H1. Qed.

Lemma scaffold_within pid template w w' r :
  is_name pid = true → path_isdir w (get_project_path pid) = true →
  scaffold (get_project_path pid) template w = (w', r) →
  within (cwd w ++ ["projects"; pid]) w w'.
Proof.
  intros Hn Hdir.
  assert (∀ rel w0 w1 r0,
            Forall (λ n, is_name n = true) (Str.split Str.slash rel) →
            path_isdir w0 (get_project_path pid) = true →
            os_makedirs (path_join (get_project_path pid) rel) w0 = (w1, r0) →
            within (cwd w0 ++ ["projects"; pid]) w0 w1) as Hmk.
  { intros rel w0 w1 r0 Hrel Hdir0 Hm.
    pose proof (names_relative _ Hrel) as Hr.
    destruct (project_file_components pid rel Hn Hr) as [Heq Hsplit].
    eapply os_makedirs_within; [done|done|exact Hsplit|done| |exact Hm].
    rewrite Heq, (project_path_name _ Hn). done. }
  unfold scaffold. destruct (eq_str template "basic");
    [|destruct (eq_str template "maven")]; intros Hsc.
  - apply bind_inv in Hsc as [(w1 & [] & Hm & Hsc)|[Hm _]];
      [|by eapply (Hmk "src"); [repeat constructor|..]].
    eapply within_step; [by eapply (Hmk "src" w w1 (Some ())); [repeat constructor|..]|].
    intros Hc1. rewrite <- Hc1.
    apply bind_inv in Hsc as [(w2 & [] & Hw & [= <- _])|[Hw _]];
      (eapply write_text_within; [exact Hw|]); intros c;
      rewrite <- resolve_nested by apply get_project_path_nonempty;
      by apply resolve_in_project; [|repeat constructor].
  - apply bind_inv in Hsc as [(w1 & [] & Hm1 & Hsc)|[Hm1 _]];
      [|by eapply (Hmk "src/main/java"); [repeat constructor|..]].
    eapply within_step;
      [by eapply (Hmk "src/main/java" w w1 (Some ())); [repeat constructor|..]|].
    intros Hc1. rewrite <- Hc1.
    assert (path_isdir w1 (get_project_path pid) = true) as Hdir1.
    { eapply path_isdir_extends; [by eapply os_makedirs_extends|done]. }
    apply bind_inv in Hsc as [(w2 & [] & Hm2 & Hsc)|[Hm2 _]];
      [|by eapply (Hmk "src/test/java"); [repeat constructor|..]].
    eapply within_step;
      [by eapply (Hmk "src/test/java" w1 w2 (Some ())); [repeat constructor|..]|].
    intros Hc2. rewrite <- Hc2.
    apply bind_inv in Hsc as [(w3 & [] & Hw & [= <- _])|[Hw _]];
      (eapply write_text_within; [exact Hw|]); intros c;
      by apply resolve_in_project; [|repeat constructor].
  - apply bind_inv in Hsc as [(w1 & [] & Hm & [= <- _])|[Hm _]];
      by eapply (Hmk "src" w _ _); [repeat constructor|..].
Qed.

Lemma create_project_within now data w w' r :
  path_isdir w PROJECTS_DIR = true →
  create_project now data w = (w', r) →
  within (cwd w ++ ["projects"; Str.of_Z (millis now)]) w w'.
Proof.
  intros Hroot (r0 & Hb & _)%handle_inv.
  pose proof (of_Z_name (millis now)) as Hn.
  apply bind_inv in Hb as [(w1 & name & [-> _]%lift_some & Hb)|[[= <-] _]]; [|done].
  apply bind_inv in Hb as [(w1 & template & [-> _]%lift_some & Hb)|[[= <-] _]]; [|done].
  destruct (negb _); [by injection Hb as <- _|].
  apply bind_inv in Hb as [(w1 & [] & Hm & Hb)|[Hm _]];
    [|by eapply os_makedirs_project_within].
  eapply within_step; [by eapply os_makedirs_project_within|].
  intros Hc1. rewrite <- Hc1.
  pose proof (os_makedirs_isdir _ _ _ Hm) as Hdir1.
  apply bind_inv in Hb as [(w2 & ff & Hsc & Hb)|[Hsc _]];
    [|by eapply scaffold_within].
  eapply within_step; [by eapply scaffold_within|].
  intros Hc2. rewrite <- Hc2.
  apply bind_inv in Hb as [(w3 & [] & Hs & [= <- _])|[Hs _]]; by eapply save_within.
Qed.

Lemma create_file_within pid data w w' r :
  is_name pid = true →
  (∀ fp, get data "path" JNull = Some (JStr fp) →
         Forall (λ n, is_name n = true) (Str.split Str.slash fp)) →
  create_file pid data w = (w', r) →
  within (cwd w ++ ["projects"; pid]) w w'.
Proof.
  intros Hn Hnames (r0 & Hb & _)%handle_inv.
  apply bind_inv in Hb as [(w1 & name & [-> _]%lift_some & Hb)|[[= <-] _]]; [|done].
  apply bind_inv in Hb as [(w1 & path & [-> Hpath]%lift_some & Hb)|[[= <-] _]]; [|done].
  apply bind_inv in Hb as [(w1 & content & [-> _]%lift_some & Hb)|[[= <-] _]]; [|done].
  destruct (_ || _); [by injection Hb as <- _|].
  rewrite bind_load in Hb.
  destruct (descriptor w pid) as [| |m] eqn:Hd; simpl in Hb;
    [by injection Hb as <- _..|].
  destruct (truthy m); [|by injection Hb as <- _].
  apply bind_inv in Hb as [(w1 & full & [-> Hfull]%lift_some & Hb)|[[= <-] _]]; [|done].
  destruct path as [| | |fp| |]; try done. injection Hfull as <-.
  specialize (Hnames fp Hpath).
  pose proof (names_relative _ Hnames) as Hrel.
  pose proof (loaded_project_dir _ _ _ Hn Hd) as Hdir.
  destruct (project_file_components pid fp Hn Hrel) as [_ Hsplit].
  destruct (exists_last (split_nonempty Str.slash fp)) as (l' & x & Hlx).
  assert (Forall (λ c, is_name c = true) l') as Hl'.
  { rewrite Hlx in Hnames. by apply Forall_app in Hnames as [? _]. }
  destruct (dirname_split (path_join (get_project_path pid) fp)
              (["projects"; pid] ++ l') x) as (Hdsplit & _ & Hdrel).
  { by rewrite Hsplit, Hlx, app_assoc. }
  { done. }
  { repeat constructor; [done|by apply name_nonempty|].
    eapply Forall_impl; [exact Hl'|]. intros c. apply name_nonempty. }
  assert (∀ w1 r1, os_makedirs (dirname (path_join (get_project_path pid) fp)) w
                   = (w1, r1) → within (cwd w ++ ["projects"; pid]) w w1) as Hmk.
  { intros w1 r1. by apply os_makedirs_within with (l := l'). }
  apply bind_inv in Hb as [(w1 & [] & Hm & Hb)|[Hm _]]; [|by eapply Hmk].
  eapply within_step; [by eapply Hmk|]. intros Hc1. rewrite <- Hc1.
  assert (∀ w2 r2, write_value (path_join (get_project_path pid) fp) content w1
                   = (w2, r2) → within (cwd w1 ++ ["projects"; pid]) w1 w2) as Hwv.
  { intros w2 r2 Hw. eapply write_value_within; [exact Hw|].
    intros c. by apply resolve_in_project. }
  apply bind_inv in Hb as [(w2 & [] & Hw & Hb)|[Hw _]]; [|by eapply Hwv].
  eapply within_step; [by eapply Hwv|]. intros Hc2. rewrite <- Hc2.
  apply bind_inv in Hb as [(w3 & ty & [-> _]%lift_some & Hb)|[[= <-] _]]; [|done].
  apply bind_inv in Hb as [(w3 & files & [-> _]%lift_some & Hb)|[[= <-] _]]; [|done].
  apply bind_inv in Hb as [(w3 & files' & [-> _]%lift_some & Hb)|[[= <-] _]]; [|done].
  apply bind_inv in Hb as [(w3 & [] & Hs & [= <- _])|[Hs _]]; by eapply save_within.
Qed.

(** The metadata step of [update_file] and [delete_file]. *)
Lemma resave_within (change : json → option json) pid metadata w w' r :
  is_name pid = true →
  match present metadata with
  | Some m => bind (lift (change m)) (λ m', save_project_metadata pid m')
  | None => ret ()
  end w = (w', r) →
  within (cwd w ++ ["projects"; pid]) w w'.
Proof.
  intros Hn. destruct (present metadata) as [m|]; [|by intros [= <- _]].
  intros [(w1 & m' & [-> _]%lift_some & Hs)|[[= <-] _]]%bind_inv; [|done].
  by eapply save_within.
Qed.

Lemma update_file_within pid fp data w w' r :
  is_name pid = true → Forall (λ n, is_name n = true) (Str.split Str.slash fp) →
  update_file pid fp data w = (w', r) →
  within (cwd w ++ ["projects"; pid]) w w'.
Proof.
  intros Hn Hnames (r0 & Hb & _)%handle_inv.
  apply bind_inv in Hb as [(w1 & content & [-> _]%lift_some & Hb)|[[= <-] _]]; [|done].
  apply bind_inv in Hb as [(w1 & found & [= <- <-] & Hb)|[[=] _]].
  destruct (negb _); [by injection Hb as <- _|].
  assert (∀ w2 r2, write_value (path_join (get_project_path pid) fp) content w
                   = (w2, r2) → within (cwd w ++ ["projects"; pid]) w w2) as Hwv.
  { intros w2 r2 Hw. eapply write_value_within; [exact Hw|].
    intros c. by apply resolve_in_project. }
  apply bind_inv in Hb as [(w1 & [] & Hw & Hb)|[Hw _]]; [|by eapply Hwv].
  eapply within_step; [by eapply Hwv|]. intros Hc1. rewrite <- Hc1.
  rewrite bind_load in Hb. destruct (load_result _) as [metadata|];
    [|by injection Hb as <- _].
  apply bind_inv in Hb as [(w2 & [] & Hs & [= <- _])|[Hs _]];
    by eapply resave_within.
Qed.

Lemma delete_file_within pid fp w w' r :
  is_name pid = true → Forall (λ n, is_name n = true) (Str.split Str.slash fp) →
  delete_file pid fp w = (w', r) →
  within (cwd w ++ ["projects"; pid]) w w'.
Proof.
  intros Hn Hnames (r0 & Hb & _)%handle_inv.
  apply bind_inv in Hb as [(w1 & found & [= <- <-] & Hb)|[[=] _]].
  destruct (negb _); [by injection Hb as <- _|].
  assert (∀ w1 r1, act (λ w, remove w (path_join (get_project_path pid) fp)) w
                   = (w1, r1) → within (cwd w ++ ["projects"; pid]) w w1) as Hrm.
  { intros w1 r1. unfold act.
    destruct (remove w _) as [w2|] eqn:Hr; intros [= <- _]; [|done].
    pose proof (remove_spec _ _ _ Hr) as Hrd. destruct (Hrd) as (c & s & Hc & _).
    eapply removed_within; [exact Hrd|exact Hc|]. by eapply resolve_in_project. }
  apply bind_inv in Hb as [(w1 & [] & Hr & Hb)|[Hr _]]; [|by eapply Hrm].
  eapply within_step; [by eapply Hrm|]. intros Hc1. rewrite <- Hc1.
  rewrite bind_load in Hb. destruct (load_result _) as [metadata|];
    [|by injection Hb as <- _].
  apply bind_inv in Hb as [(w2 & [] & Hs & [= <- _])|[Hs _]];
    by eapply resave_within.
Qed.

Lemma create_folder_within pid data w w' r :
  is_name pid = true →
  (∀ name, get data "name" JNull = Some (JStr name) →
           Forall (λ n, is_name n = true) (Str.split Str.slash name)) →
  create_folder pid data w = (w', r) →
  within (cwd w ++ ["projects"; pid]) w w'.
Proof.
  intros Hn Hnames (r0 & Hb & _)%handle_inv.
  apply bind_inv in Hb as [(w1 & folder & [-> Hname]%lift_some & Hb)|[[= <-] _]]; [|done].
  destruct (negb _); [by injection Hb as <- _|].
  rewrite bind_load in Hb.
  destruct (descriptor w pid) as [| |m] eqn:Hd; simpl in Hb;
    [by injection Hb as <- _..|].
  destruct (truthy m); [|by injection Hb as <- _].
  apply bind_inv in Hb as [(w1 & path & [-> Hpath]%lift_some & Hb)|[[= <-] _]]; [|done].
  destruct folder as [| | |name| |]; try done. injection Hpath as <-.
  specialize (Hnames name Hname).
  pose proof (names_relative _ Hnames) as Hrel.
  pose proof (loaded_project_dir _ _ _ Hn Hd) as Hdir.
  destruct (project_file_components pid name Hn Hrel) as [Heq Hsplit].
  assert (∀ w1 r1, os_makedirs (path_join (get_project_path pid) name) w = (w1, r1) →
                   within (cwd w ++ ["projects"; pid]) w w1) as Hmk.
  { intros w1 r1. apply os_makedirs_within with (l := Str.split Str.slash name);
      [done..|]. by rewrite Heq, (project_path_name _ Hn). }
  apply bind_inv in Hb as [(w1 & [] & Hm & Hb)|[Hm _]]; [|by eapply Hmk].
  eapply within_step; [by eapply Hmk|]. intros Hc1. rewrite <- Hc1.
  apply bind_inv in Hb as [(w2 & changed & [-> _]%lift_some & Hb)|[[= <-] _]]; [|done].
  apply bind_inv in Hb as [(w2 & [] & Hs & [= <- _])|[Hs _]];
    (destruct changed as [m'|]; [by eapply save_within|by injection Hs as <-]).
Qed.

Lemma within_same_project pid other w w' :
  is_name pid = true → is_name other = true → other ≠ pid →
  within (cwd w ++ ["projects"; pid]) w w' → same_project other w w'.
Proof.
  intros Hn Ho Hne [Hcwd Hoff].
  assert (∀ fp, Forall (λ n, is_name n = true) (Str.split Str.slash fp) →
            obs w' (path_join (get_project_path other) fp)
            = obs w (path_join (get_project_path other) fp)) as Hobs.
  { intros fp Hfp. by apply (obs_other_project w w' pid). }
  split.
  - rewrite !get_project_spec. cbn [snd].
    by rewrite (descriptor_obs w w' other (Hobs _ descriptor_name)).
  - intros fp Hfp. rewrite !get_file_spec. cbn [snd]. by rewrite Hobs.
Qed.

(** X26.  With an identifier that is an entry name and paths made of
    entry names, a request changes its own project only: whatever
    [create_project] (below an existing root), [create_file],
    [update_file], [delete_file] and [create_folder] answer, every
    other project is afterwards as it was, for [get_project] and for
    [get_file]. *)
Theorem writes_stay_in_project pid other w :
  is_name pid = true → is_name other = true → other ≠ pid →
  (∀ now data w' r,
      pid = Str.of_Z (millis now) → path_isdir w PROJECTS_DIR = true →
      create_project now data w = (w', r) → same_project other w w')
  ∧ (∀ data w' r,
      (∀ fp, get data "path" JNull = Some (JStr fp) →
             Forall (λ n, is_name n = true) (Str.split Str.slash fp)) →
      create_file pid data w = (w', r) → same_project other w w')
  ∧ (∀ fp data w' r,
      Forall (λ n, is_name n = true) (Str.split Str.slash fp) →
      update_file pid fp data w = (w', r) → same_project other w w')
  ∧ (∀ fp w' r,
      Forall (λ n, is_name n = true) (Str.split Str.slash fp) →
      delete_file pid fp w = (w', r) → same_project other w w')
  ∧ (∀ data w' r,
      (∀ name, get data "name" JNull = Some (JStr name) →
               Forall (λ n, is_name n = true) (Str.split Str.slash name)) →
      create_folder pid data w = (w', r) → same_project other w w').
Proof.
  intros Hn Ho Hne. split; [|split; [|split; [|split]]].
  - intros now data w' r -> Hroot Hc.
    apply (within_same_project (Str.of_Z (millis now))); [done..|].
    by eapply create_project_within.
  - intros data w' r Hnames Hc.
    apply (within_same_project pid); [done..|]. by eapply create_file_within.
  - intros fp data w' r Hnames Hc.
    apply (within_same_project pid); [done..|]. by eapply update_file_within.
  - intros fp w' r Hnames Hc.
    apply (within_same_project pid); [done..|]. by eapply delete_file_within.
  - intros data w' r Hnames Hc.
    apply (within_same_project pid); [done..|]. by eapply create_folder_within.
Qed.

End Handlers.

(* ================================================================== *)
(** ** The reference runtime is lawful; the scenario *)
(* ================================================================== *)

Import Reference.

(** Induction on JSON values, with the hypothesis for every item of a
    list and every value of a dict. *)
Lemma json_nested_ind (P : json → Prop) :
  P JNull → (∀ b, P (JBool b)) → (∀ n, P (JInt n)) → (∀ s, P (JStr s)) →
  (∀ l, Forall P l → P (JList l)) →
  (∀ fs, Forall (λ kv, P kv.2) fs → P (JDict fs)) →
  ∀ v, P v.
Proof.
  intros Hnull Hbool Hint Hstr Hlist Hdict. fix IH 1.
  intros [|b|n|s|l|fs]; [exact Hnull|apply Hbool|apply Hint|apply Hstr| |].
  - apply Hlist. induction l as [|x l IHl]; constructor; [apply IH|exact IHl].
  - apply Hdict. induction fs as [|[k x] fs IHfs]; constructor; [apply IH|exact IHfs].
Qed.

Lemma of_bits_of p : of_bits (bits_of p) = Some p.
Proof. induction p as [p IH|p IH|]; simpl; by rewrite ?IH. Qed.

Lemma of_to_tree v : of_tree (to_tree v) = Some v.
Proof.
  induction v as [|b|n|s|l IH|fs IH] using json_nested_ind; try done.
  - cbn [to_tree of_tree]. induction IH as [|x l Hx _ IHl]; [done|].
    rewrite fmap_cons, Hx. simpl in *.
    destruct (_ (to_tree <$> l)) as [l'|]; simplify_eq/=; done.
  - cbn [to_tree of_tree]. induction IH as [|[k x] fs Hx _ IHfs]; [done|].
    rewrite fmap_cons. simpl in *. rewrite Hx. simpl.
    destruct (_ (_ <$> fs)) as [l'|]; simplify_eq/=; done.
Qed.

Lemma loads_dumps v : loads (dumps v) = Some v.
Proof.
  unfold loads, dumps. rewrite of_bits_of. simpl. rewrite decode_encode. simpl.
  apply of_to_tree.
Qed.

Lemma reference_lawful : @runtime_lawful Reference.runtime.
Proof. exact loads_dumps. Qed.

Lemma create_then_get_witness :
  assoc "name" demo_fields = Some (JStr "Demo")
  ∧ truthy (JStr "Demo") = true
  ∧ fresh empty_world (Str.of_Z (millis now))
  ∧ create_project now (JDict demo_fields) empty_world
    = (demo_world, success "project" demo 201)
  ∧ ∃ project_id,
      getitem demo "id" = Some (JStr project_id)
      ∧ get_project project_id demo_world = (demo_world, success "project" demo 200).
Proof.
  assert (create_project now (JDict demo_fields) empty_world
          = (demo_world, success "project" demo 201)) as Hc
    by (vm_compute; reflexivity).
  split; [reflexivity|]. split; [reflexivity|]. split.
  { vm_compute. split; [reflexivity|]. split; [intros s; discriminate|reflexivity]. }
  split; [exact Hc|].
  apply (proj2 (create_then_get now demo_fields (JStr "Demo") empty_world
                  reference_lawful eq_refl eq_refl) demo_world demo Hc).
Defined.

(** C10 fails on the descriptor's own path: [update_file] on
    ['project.json'], with the dump of another descriptor as content,
    answers 200 and leaves a descriptor with another ['id'], ['name'],
    ['template'] and ['createdAt']. *)
Lemma descriptor_overwritten :
  descriptor demo_world demo_id = Loaded demo
  ∧ update_file demo_id "project.json" overwrite demo_world
    = ((update_file demo_id "project.json" overwrite demo_world).1, updated)
  ∧ descriptor (update_file demo_id "project.json" overwrite demo_world).1 demo_id
    = Loaded other
  ∧ getitem other "name" ≠ getitem demo "name".
Proof. vm_compute. repeat split; done. Qed.

(** C3 fails on a corrupted descriptor: with one valid project and one
    directory whose [project.json] is not JSON, the listing is not
    a list with the valid project but the answer 500. *)
Lemma corrupt_listing_fails :
  listdir corrupt_world PROJECTS_DIR = Some [demo_id; "broken"]
  ∧ descriptor corrupt_world demo_id = Loaded demo
  ∧ file_text corrupt_world (metadata_path "broken") = Some "{broken"
  ∧ json_loads "{broken" = None
  ∧ get_projects corrupt_world = (corrupt_world, InternalError).
Proof. vm_compute. repeat split; done. Qed.

Lemma basic_template_witness :
  assoc "name" demo_fields = Some (JStr "Demo")
  ∧ truthy (JStr "Demo") = true
  ∧ assoc "template" demo_fields = Some (JStr "basic")
  ∧ create_project now (JDict demo_fields) empty_world
    = (demo_world, success "project" demo 201)
  ∧ (∃ entry,
        getitem demo "files" = Some (JList [entry])
        ∧ getitem entry "path" = Some (JStr "src/Main.java")
        ∧ getitem entry "content" = Some (JStr ""))
  ∧ ∃ folders,
      getitem demo "folders" = Some (JList folders) ∧ JStr "src" ∈ folders.
Proof.
  assert (create_project now (JDict demo_fields) empty_world
          = (demo_world, success "project" demo 201)) as Hc
    by (vm_compute; reflexivity).
  split; [reflexivity|]. split; [reflexivity|]. split; [reflexivity|].
  split; [exact Hc|].
  apply (proj2 (basic_template now demo_fields (JStr "Demo") empty_world
                  eq_refl eq_refl eq_refl) demo_world demo Hc).
Defined.

Lemma create_file_requires_name_and_path_witness :
  (from_option truthy false (assoc "name" nameless) = false
   ∨ from_option truthy false (assoc "path" nameless) = false)
  ∧ create_file demo_id (JDict nameless) demo_world
    = (demo_world, failure "File name and path are required" 400).
Proof.
  split; [left; reflexivity|].
  apply create_file_requires_name_and_path. left; reflexivity.
Defined.

Lemma file_type_from_name_witness :
  create_file demo_id app_request demo_world
  = ((create_file demo_id app_request demo_world).1, Reply app_reply 201)
  ∧ ∃ name path content type,
      get app_request "name" JNull = Some name
      ∧ app_reply
        = JDict [("success", JBool true);
                 ("file", JDict [("name", name); ("path", path);
                                 ("content", content); ("type", JStr type)])]
      ∧ extension_of name type.
Proof.
  split; [vm_compute; reflexivity|].
  apply (file_type_from_name demo_id app_request demo_world
           (create_file demo_id app_request demo_world).1).
  vm_compute; reflexivity.
Defined.

Lemma run_project_needs_descriptor_witness :
  descriptor empty_world "ghost" = Absent
  ∧ run_project "ghost" empty_world
    = (empty_world, failure "Project not found" 404)
  ∧ run_project demo_id demo_world
    = (demo_world, Reply (JDict [("success", JBool true);
                                 ("output", canned_output (JStr "Demo"))]) 200)
  ∧ ∃ m name,
      descriptor demo_world demo_id = Loaded m ∧ truthy m = true
      ∧ getitem m "name" = Some name.
Proof.
  split; [reflexivity|]. split.
  - apply (proj1 (run_project_needs_descriptor "ghost" empty_world)). reflexivity.
  - assert (run_project demo_id demo_world
            = (demo_world, Reply (JDict [("success", JBool true);
                                         ("output", canned_output (JStr "Demo"))]) 200))
      as Hrun by (vm_compute; reflexivity).
    split; [exact Hrun|].
    destruct (proj2 (run_project_needs_descriptor demo_id demo_world) _ _ Hrun)
      as (m & name & Hd & Ht & Hn & _).
    exists m, name. auto.
Defined.

Lemma update_file_first_match_witness :
  get (JDict main_update) "content" (JStr "") = Some (JStr "class Main {}")
  ∧ file_text demo_world (path_join (get_project_path demo_id) "src/Main.java")
    = Some ""
  ∧ update_file demo_id "src/Main.java" (JDict main_update) demo_world
    = ((update_file demo_id "src/Main.java" (JDict main_update) demo_world).1,
       updated)
  ∧ descriptor
      (update_file demo_id "src/Main.java" (JDict main_update) demo_world).1
      demo_id
    = Loaded (setitem demo "files"
                (JList [setitem main_java "content" (JStr "class Main {}")]))
  ∧ (¬ targets_descriptor demo_world demo_id "src/Main.java" →
     file_text
       (update_file demo_id "src/Main.java" (JDict main_update) demo_world).1
       (path_join (get_project_path demo_id) "src/Main.java")
     = Some "class Main {}").
Proof.
  assert (file_text demo_world (path_join (get_project_path demo_id) "src/Main.java")
          = Some "") as Hr by (vm_compute; reflexivity).
  destruct (update_file_first_match demo_id "src/Main.java" main_update
              "class Main {}" "" demo_world reference_lawful eq_refl Hr)
    as (_ & _ & _ & _ & Hmatch).
  split; [reflexivity|]. split; [exact Hr|].
  apply (Hmatch demo [] main_java [] (JStr "src/Main.java")).
  - vm_compute; reflexivity.
  - reflexivity.
  - intros e He. inversion He.
  - reflexivity.
  - reflexivity.
Defined.

Lemma delete_file_then_gone_witness :
  let w' := (delete_file demo_id "src/Main.java" demo_world).1 in
  delete_file demo_id "src/Main.java" demo_world
  = (w', success "message" (JStr "File deleted successfully") 200)
  ∧ get_file demo_id "src/Main.java" w' = (w', failure "File not found" 404)
  ∧ ∀ project, get_project demo_id w' = (w', success "project" project 200) →
      ∃ kept, getitem project "files" = Some (JList kept)
        ∧ ∀ entry, entry ∈ kept →
            ∃ p, getitem entry "path" = Some p ∧ eq_str p "src/Main.java" = false.
Proof.
  intros w'. split; [vm_compute; reflexivity|].
  apply (delete_file_then_gone demo_id "src/Main.java" demo_world w'
           (JDict [("success", JBool true);
                   ("message", JStr "File deleted successfully")])
           reference_lawful).
  vm_compute; reflexivity.
Defined.

Lemma missing_project_not_found_witness :
  path_exists demo_world (get_project_path "ghost") = false
  ∧ create_file "ghost" app_request demo_world
    = (demo_world, failure "Project not found" 404)
  ∧ get_file "ghost" "src/App.java" demo_world
    = (demo_world, failure "File not found" 404)
  ∧ update_file "ghost" "src/App.java" (JDict main_update) demo_world
    = (demo_world, failure "File not found" 404)
  ∧ delete_file "ghost" "src/App.java" demo_world
    = (demo_world, failure "File not found" 404)
  ∧ create_folder "ghost" (body [("name", "lib")]) demo_world
    = (demo_world, failure "Project not found" 404).
Proof.
  assert (path_exists demo_world (get_project_path "ghost") = false) as Hp
    by (vm_compute; reflexivity).
  destruct (missing_project_not_found "ghost" demo_world Hp)
    as (Hcf & Hgf & Huf & Hdf & Hfo).
  split; [exact Hp|]. split.
  { apply (Hcf _ (JStr "App.java") (JStr "src/App.java")); reflexivity. }
  split; [by apply Hgf|]. split; [by apply Huf|]. split; [by apply Hdf|].
  apply (Hfo _ (JStr "lib")); reflexivity.
Defined.

Lemma get_projects_skips_or_fails_witness :
  listdir corrupt_world PROJECTS_DIR = Some [demo_id; "broken"]
  ∧ get_projects corrupt_world = (corrupt_world, InternalError)
  ∧ listdir demo_world PROJECTS_DIR = Some [demo_id]
  ∧ get_projects demo_world
    = (demo_world, success "projects" (JList [demo]) 200).
Proof.
  assert (listdir corrupt_world PROJECTS_DIR = Some [demo_id; "broken"]) as Hc
    by (vm_compute; reflexivity).
  assert (listdir demo_world PROJECTS_DIR = Some [demo_id]) as Hd
    by (vm_compute; reflexivity).
  split; [exact Hc|]. split; [|split; [exact Hd|]].
  - apply (proj2 (get_projects_skips_or_fails corrupt_world _ Hc)).
    exists "broken". split; [by apply list_elem_of_further, list_elem_of_here|].
    split; vm_compute; reflexivity.
  - rewrite (proj1 (get_projects_skips_or_fails demo_world _ Hd)).
    + vm_compute; reflexivity.
    + intros n ->%list_elem_of_singleton _. vm_compute. discriminate.
Defined.

Lemma descriptor_fields_kept_witness :
  descriptor demo_world demo_id = Loaded demo
  ∧ (∃ m', descriptor (create_file demo_id app_request demo_world).1 demo_id
           = Loaded m' ∧ same_but "files" demo m')
  ∧ (∃ m', descriptor
             (update_file demo_id "src/Main.java" (JDict main_update) demo_world).1
             demo_id = Loaded m' ∧ same_but "files" demo m')
  ∧ (∃ m', descriptor (delete_file demo_id "src/Main.java" demo_world).1 demo_id
           = Loaded m' ∧ same_but "files" demo m')
  ∧ (∃ m', descriptor (create_folder demo_id (body [("name", "lib")]) demo_world).1
             demo_id = Loaded m' ∧ same_but "folders" demo m').
Proof.
  assert (descriptor demo_world demo_id = Loaded demo) as Hd
    by (vm_compute; reflexivity).
  destruct (descriptor_fields_kept demo_id demo_world demo reference_lawful Hd)
    as (Hcf & Huf & Hdf & Hfo).
  split; [exact Hd|]. split; [|split; [|split]].
  - eapply Hcf; [apply surjective_pairing|]. left. vm_compute; reflexivity.
  - eapply Huf; [apply surjective_pairing|]. vm_compute. discriminate.
  - eapply Hdf; [apply surjective_pairing|]. vm_compute. discriminate.
  - eapply Hfo. apply surjective_pairing.
Defined.

(** C5 fails on a body that is not a JSON object: such a request has
    no name and no path, and [create_file] answers 500, not 400. *)
Lemma create_file_body_not_object :
  get JNull "name" JNull = None
  ∧ create_file demo_id JNull demo_world = (demo_world, InternalError)
  ∧ create_file demo_id (JList []) demo_world = (demo_world, InternalError)
  ∧ status_of (create_file demo_id JNull demo_world).2 ≠ 400.
Proof. vm_compute. repeat split; done. Qed.

(** C6 fails on a descriptor with an entry that bears no ['path'], and
    on a content that is not a string.  In a project whose
    descriptor lists one entry without a path, no entry has the path
    ['src/Main.java']; [update_file] on that file writes the text and
    then answers 500, not 200.  And with the number 5 for a content,
    [update_file] answers 500 and leaves the file empty. *)
Lemma update_file_fails_after_write :
  descriptor pathless_world demo_id = Loaded pathless
  ∧ getitem pathless "files" = Some (JList [JDict [("name", JStr "Main.java")]])
  ∧ getitem (JDict [("name", JStr "Main.java")]) "path" = None
  ∧ file_text pathless_world (path_join (get_project_path demo_id) "src/Main.java")
    = Some ""
  ∧ (update_file demo_id "src/Main.java" (JDict main_update) pathless_world).2
    = InternalError
  ∧ file_text (update_file demo_id "src/Main.java" (JDict main_update) pathless_world).1
      (path_join (get_project_path demo_id) "src/Main.java")
    = Some "class Main {}"
  ∧ (update_file demo_id "src/Main.java" (JDict numeric_update) demo_world).2
    = InternalError
  ∧ file_text (update_file demo_id "src/Main.java" (JDict numeric_update) demo_world).1
      (path_join (get_project_path demo_id) "src/Main.java")
    = Some "".
Proof. vm_compute. repeat split; done. Qed.

(** C2 fails on a request without a name: for a project that does not
    exist, [create_file] answers 400, not 404. *)
Lemma missing_project_validation_first :
  path_exists empty_world (get_project_path "ghost") = false
  ∧ create_file "ghost" (JDict [("path", JStr "a.txt")]) empty_world
    = (empty_world, failure "File name and path are required" 400)
  ∧ status_of (create_file "ghost" (JDict [("path", JStr "a.txt")]) empty_world).2
    ≠ 404.
Proof. vm_compute. repeat split; done. Qed.

(** The properties X1 to X26 on the scenario: a project deleted next to
    another, requests that are turned down, files and folders created,
    updated and deleted, and the templates. *)

Lemma delete_project_outcome_witness :
  path_exists demo_world (get_project_path "ghost") = false
  ∧ delete_project "ghost" demo_world
    = (demo_world, failure "Project not found" 404)
  ∧ obs notes_world (get_project_path "notes") = Some (Some "to do")
  ∧ delete_project "notes" notes_world = (notes_world, InternalError)
  ∧ is_name demo_id = true
  ∧ path_isdir demo_world (get_project_path demo_id) = true
  ∧ ∃ w', delete_project demo_id demo_world = (w', deleted).
Proof.
  assert (path_exists demo_world (get_project_path "ghost") = false) as Hghost
    by (vm_compute; reflexivity).
  assert (obs notes_world (get_project_path "notes") = Some (Some "to do")) as Hnotes
    by (vm_compute; reflexivity).
  assert (path_isdir demo_world (get_project_path demo_id) = true) as Hdemo
    by (vm_compute; reflexivity).
  split; [exact Hghost|].
  split; [exact (proj1 (delete_project_outcome "ghost" demo_world) Hghost)|].
  split; [exact Hnotes|].
  split; [exact (proj1 (proj2 (delete_project_outcome "notes" notes_world)) _ Hnotes)|].
  split; [reflexivity|]. split; [exact Hdemo|].
  exact (proj2 (proj2 (delete_project_outcome demo_id demo_world)) eq_refl Hdemo).
Defined.

Lemma delete_project_then_gone_witness :
  let w' := (delete_project demo_id demo_world).1 in
  delete_project demo_id demo_world
  = (w', Reply (JDict [("success", JBool true);
                       ("message", JStr "Project deleted successfully")]) 200)
  ∧ path_exists w' (get_project_path demo_id) = false
  ∧ get_project demo_id w' = (w', failure "Project not found" 404)
  ∧ delete_project demo_id w' = (w', failure "Project not found" 404)
  ∧ ∀ fp, Str.startswith "/" fp = false →
      get_file demo_id fp w' = (w', failure "File not found" 404).
Proof.
  intros w'.
  assert (delete_project demo_id demo_world
          = (w', Reply (JDict [("success", JBool true);
                               ("message", JStr "Project deleted successfully")]) 200))
    as Hd by (vm_compute; reflexivity).
  split; [exact Hd|].
  exact (delete_project_then_gone demo_id demo_world w' _ Hd).
Defined.

Lemma delete_project_keeps_others_witness :
  let w' := (delete_project demo_id second_world).1 in
  is_name demo_id = true ∧ is_name second_id = true ∧ second_id ≠ demo_id
  ∧ delete_project demo_id second_world = (w', deleted)
  ∧ get_project second_id second_world
    = (second_world, success "project" library 200)
  ∧ (get_project second_id w').2 = (get_project second_id second_world).2
  ∧ ∀ fp, Forall (λ n, is_name n = true) (Str.split Str.slash fp) →
      (get_file second_id fp w').2 = (get_file second_id fp second_world).2.
Proof.
  intros w'.
  assert (second_id ≠ demo_id) as Hne by discriminate.
  split; [reflexivity|]. split; [reflexivity|]. split; [exact Hne|].
  split; [vm_compute; reflexivity|]. split; [vm_compute; reflexivity|].
  exact (delete_project_keeps_others demo_id second_id second_world w'
           (delete_project demo_id second_world).2 eq_refl eq_refl Hne
           (surjective_pairing _)).
Defined.

Lemma delete_project_dotdot_witness :
  path_isdir demo_world PROJECTS_DIR = true
  ∧ delete_project ".." demo_world
    = (clear (cwd demo_world) demo_world, InternalError)
  ∧ ∀ l, l ≠ [] → stat (clear (cwd demo_world) demo_world) (cwd demo_world ++ l) = None.
Proof.
  assert (path_isdir demo_world PROJECTS_DIR = true) as Hroot
    by (vm_compute; reflexivity).
  split; [exact Hroot|]. exact (delete_project_dotdot demo_world Hroot).
Defined.

Lemma client_errors_change_nothing_witness :
  (404 = 400 ∨ 404 = 404)
  ∧ create_file "ghost" app_request demo_world
    = ((create_file "ghost" app_request demo_world).1,
       Reply (JDict [("success", JBool false); ("error", JStr "Project not found")])
         404)
  ∧ (create_file "ghost" app_request demo_world).1 = demo_world.
Proof.
  assert (create_file "ghost" app_request demo_world
          = ((create_file "ghost" app_request demo_world).1,
             Reply (JDict [("success", JBool false);
                           ("error", JStr "Project not found")]) 404)) as Hc
    by (vm_compute; reflexivity).
  split; [right; reflexivity|]. split; [exact Hc|].
  exact (proj1 (proj2 (proj2
           (client_errors_change_nothing demo_world _ _ 404 (or_intror eq_refl))))
           "ghost" app_request Hc).
Defined.

Lemma body_must_be_object_witness :
  (∀ fields, JList [] ≠ JDict fields)
  ∧ (∀ now, create_project now (JList []) demo_world = (demo_world, InternalError))
  ∧ (∀ pid, create_file pid (JList []) demo_world = (demo_world, InternalError))
  ∧ (∀ pid fp, update_file pid fp (JList []) demo_world = (demo_world, InternalError))
  ∧ (∀ pid, create_folder pid (JList []) demo_world = (demo_world, InternalError)).
Proof.
  assert (∀ fields, JList [] ≠ JDict fields) as Hlist by (intros fields; discriminate).
  split; [exact Hlist|]. exact (body_must_be_object (JList []) demo_world Hlist).
Defined.

Lemma name_is_required_witness :
  from_option truthy false (assoc "name" [("name", JStr "")]) = false
  ∧ (∀ now, create_project now (JDict [("name", JStr "")]) demo_world
            = (demo_world, failure "Project name is required" 400))
  ∧ (∀ pid, create_folder pid (JDict [("name", JStr "")]) demo_world
            = (demo_world, failure "Folder name is required" 400)).
Proof.
  split; [reflexivity|].
  exact (name_is_required [("name", JStr "")] demo_world eq_refl).
Defined.


Lemma directories_are_not_files_witness :
  path_isdir demo_world (path_join (get_project_path demo_id) "src") = true
  ∧ get_file demo_id "src" demo_world = (demo_world, InternalError)
  ∧ (∀ fields, update_file demo_id "src" (JDict fields) demo_world
               = (demo_world, InternalError))
  ∧ delete_file demo_id "src" demo_world = (demo_world, InternalError).
Proof.
  assert (path_isdir demo_world (path_join (get_project_path demo_id) "src") = true)
    as Hsrc by (vm_compute; reflexivity).
  split; [exact Hsrc|]. exact (directories_are_not_files demo_id "src" demo_world Hsrc).
Defined.

Lemma create_file_succeeds_witness :
  is_name demo_id = true
  ∧ descriptor demo_world demo_id = Loaded demo
  ∧ stat demo_world (cwd demo_world ++ ["projects"; demo_id] ++ ["src"; "util"]) = None
  ∧ ∃ w' info,
      create_file demo_id (JDict util_request) demo_world
      = (w', success "file" info 201)
      ∧ getitem info "path" = Some (JStr "src/util/Util.java")
      ∧ file_text w' (path_join (get_project_path demo_id) "src/util/Util.java")
        = Some "class Util {}"
      ∧ get_file demo_id "src/util/Util.java" w'
        = (w', success "content" (JStr (Str.universal_newlines "class Util {}")) 200)
      ∧ descriptor w' demo_id
        = Loaded (setitem demo "files" (JList ([main_java] ++ [info]))).
Proof.
  assert (descriptor demo_world demo_id = Loaded demo) as Hd
    by (vm_compute; reflexivity).
  assert ("Util.java" ≠ "") as Hn by discriminate.
  assert (Forall (λ c, is_name c = true) (Str.split Str.slash "src/util/Util.java"))
    as Hnames by (repeat constructor).
  assert (Forall (λ c, os_name c = true) (Str.split Str.slash "src/util/Util.java"))
    as Hos by (repeat constructor).
  assert (Str.split Str.slash "src/util/Util.java" ≠ ["project.json"]) as Hnd
    by discriminate.
  assert (∀ p s, p ≠ [] → p `prefix_of` Str.split Str.slash "src/util/Util.java" →
            p ≠ Str.split Str.slash "src/util/Util.java" →
            stat demo_world (cwd demo_world ++ ["projects"; demo_id] ++ p)
            ≠ Some (Some s)) as Hway.
  { intros p s Hp Hpre Hne. apply prefixes_spec in Hpre; [|exact Hp].
    apply elem_of_cons in Hpre as [->|Hpre]; [vm_compute; discriminate|].
    apply elem_of_cons in Hpre as [->|Hpre]; [vm_compute; discriminate|].
    apply list_elem_of_singleton in Hpre as ->. destruct Hne. reflexivity. }
  assert (stat demo_world
            (cwd demo_world ++ ["projects"; demo_id]
             ++ Str.split Str.slash "src/util/Util.java") ≠ Some None) as Hend
    by (vm_compute; discriminate).
  split; [reflexivity|]. split; [exact Hd|]. split; [vm_compute; reflexivity|].
  exact (create_file_succeeds demo_id util_request "Util.java" "src/util/Util.java"
           "class Util {}" demo [main_java] demo_world reference_lawful
           eq_refl Hn eq_refl eq_refl eq_refl Hnames Hos eq_refl Hnd Hd eq_refl
           Hway Hend).
Defined.

Lemma create_file_then_get_witness :
  let w' := (create_file demo_id (JDict dos_request) demo_world).1 in
  create_file demo_id (JDict dos_request) demo_world = (w', Reply dos_reply 201)
  ∧ Str.universal_newlines dos_text = unix_text
  ∧ get_file demo_id "notes.txt" w' = (w', success "content" (JStr unix_text) 200)
  ∧ ∃ fp text,
      get (JDict dos_request) "path" JNull = Some (JStr fp)
      ∧ get (JDict dos_request) "content" (JStr "") = Some (JStr text)
      ∧ path_isdir w' (dirname (path_join (get_project_path demo_id) fp)) = true
      ∧ (¬ targets_descriptor w' demo_id fp →
         file_text w' (path_join (get_project_path demo_id) fp) = Some text
         ∧ get_file demo_id fp w'
           = (w', success "content" (JStr (Str.universal_newlines text)) 200)
         ∧ (Str.has_char Str.cr text = false →
            get_file demo_id fp w' = (w', success "content" (JStr text) 200))).
Proof.
  intros w'.
  assert (create_file demo_id (JDict dos_request) demo_world
          = (w', Reply dos_reply 201))
    as Hc by (vm_compute; reflexivity).
  split; [exact Hc|]. split; [reflexivity|]. split; [vm_compute; reflexivity|].
  exact (create_file_then_get demo_id (JDict dos_request) demo_world w' dos_reply Hc).
Defined.

Lemma create_file_appends_witness :
  let w' := (create_file demo_id app_request demo_world).1 in
  descriptor demo_world demo_id = Loaded demo
  ∧ create_file demo_id app_request demo_world = (w', Reply app_reply 201)
  ∧ ∃ files info,
      getitem demo "files" = Some (JList files)
      ∧ app_reply = JDict [("success", JBool true); ("file", info)]
      ∧ descriptor w' demo_id
        = Loaded (setitem demo "files" (JList (files ++ [info])))
      ∧ get_project demo_id w'
        = (w', success "project"
                 (setitem demo "files" (JList (files ++ [info]))) 200).
Proof.
  intros w'.
  assert (descriptor demo_world demo_id = Loaded demo) as Hd
    by (vm_compute; reflexivity).
  assert (create_file demo_id app_request demo_world = (w', Reply app_reply 201))
    as Hc by (vm_compute; reflexivity).
  split; [exact Hd|]. split; [exact Hc|].
  exact (create_file_appends demo_id app_request demo_world w' app_reply demo
           reference_lawful Hd Hc).
Defined.

Lemma update_file_then_get_witness :
  let w' := (update_file demo_id "src/Main.java" (JDict dos_update) demo_world).1 in
  update_file demo_id "src/Main.java" (JDict dos_update) demo_world
  = (w', Reply (JDict [("success", JBool true);
                       ("message", JStr "File updated successfully")]) 200)
  ∧ Str.universal_newlines dos_text = unix_text
  ∧ get_file demo_id "src/Main.java" w' = (w', success "content" (JStr unix_text) 200)
  ∧ ∃ text,
      get (JDict dos_update) "content" (JStr "") = Some (JStr text)
      ∧ (¬ targets_descriptor demo_world demo_id "src/Main.java" →
         file_text w' (path_join (get_project_path demo_id) "src/Main.java")
         = Some text
         ∧ get_file demo_id "src/Main.java" w'
           = (w', success "content" (JStr (Str.universal_newlines text)) 200)
         ∧ (Str.has_char Str.cr text = false →
            get_file demo_id "src/Main.java" w'
            = (w', success "content" (JStr text) 200))).
Proof.
  intros w'.
  assert (update_file demo_id "src/Main.java" (JDict dos_update) demo_world
          = (w', Reply (JDict [("success", JBool true);
                               ("message", JStr "File updated successfully")]) 200))
    as Hu by (vm_compute; reflexivity).
  split; [exact Hu|]. split; [reflexivity|]. split; [vm_compute; reflexivity|].
  exact (update_file_then_get demo_id "src/Main.java" (JDict dos_update)
           demo_world w' _ Hu).
Defined.

Lemma update_file_needs_text_witness :
  assoc "content" numeric_update = Some (JInt 5)
  ∧ (∀ text, JInt 5 ≠ JStr text)
  ∧ file_text demo_world (path_join (get_project_path demo_id) "src/Main.java")
    = Some ""
  ∧ ∃ w', update_file demo_id "src/Main.java" (JDict numeric_update) demo_world
          = (w', InternalError)
      ∧ file_text w' (path_join (get_project_path demo_id) "src/Main.java")
        = Some ""
      ∧ ∀ q, resolve demo_world q
             ≠ resolve demo_world
                 (path_join (get_project_path demo_id) "src/Main.java") →
             obs w' q = obs demo_world q.
Proof.
  assert (∀ text, JInt 5 ≠ JStr text) as Hnum by (intros text; discriminate).
  assert (file_text demo_world (path_join (get_project_path demo_id) "src/Main.java")
          = Some "") as Hold by (vm_compute; reflexivity).
  split; [reflexivity|]. split; [exact Hnum|]. split; [exact Hold|].
  exact (update_file_needs_text demo_id "src/Main.java" numeric_update (JInt 5) ""
           demo_world eq_refl Hnum Hold).
Defined.

Lemma delete_file_drops_only_that_path_witness :
  descriptor demo_world demo_id = Loaded demo
  ∧ getitem demo "files" = Some (JList [main_java])
  ∧ Forall (λ e, is_Some (getitem e "path")) [main_java]
  ∧ file_text demo_world (path_join (get_project_path demo_id) "src/Main.java")
    = Some ""
  ∧ ∃ w', delete_file demo_id "src/Main.java" demo_world
          = (w', success "message" (JStr "File deleted successfully") 200)
      ∧ descriptor w' demo_id
        = Loaded (setitem demo "files"
                    (JList (filter (λ e, path_is "src/Main.java" e = false)
                              [main_java])))
      ∧ ∀ q, resolve demo_world q
             ≠ resolve demo_world
                 (path_join (get_project_path demo_id) "src/Main.java") →
             resolve demo_world q ≠ resolve demo_world (metadata_path demo_id) →
             obs w' q = obs demo_world q.
Proof.
  assert (descriptor demo_world demo_id = Loaded demo) as Hd
    by (vm_compute; reflexivity).
  assert (Forall (λ e, is_Some (getitem e "path")) [main_java]) as Hall.
  { repeat constructor. exists (JStr "src/Main.java"). reflexivity. }
  assert (file_text demo_world (path_join (get_project_path demo_id) "src/Main.java")
          = Some "") as Hold by (vm_compute; reflexivity).
  assert (¬ targets_descriptor demo_world demo_id "src/Main.java") as Hne
    by (vm_compute; discriminate).
  split; [exact Hd|]. split; [reflexivity|]. split; [exact Hall|].
  split; [exact Hold|].
  exact (delete_file_drops_only_that_path demo_id "src/Main.java" "" demo
           [main_java] demo_world reference_lawful Hd eq_refl Hall Hold Hne).
Defined.

Lemma delete_file_on_descriptor_witness :
  obs demo_world (metadata_path demo_id) = Some (Some (dumps demo))
  ∧ targets_descriptor demo_world demo_id "project.json"
  ∧ ∃ w', delete_file demo_id "project.json" demo_world
          = (w', success "message" (JStr "File deleted successfully") 200)
      ∧ get_project demo_id w' = (w', failure "Project not found" 404)
      ∧ path_isdir w' (get_project_path demo_id) = true
      ∧ ∀ q, resolve demo_world q ≠ resolve demo_world (metadata_path demo_id) →
             obs w' q = obs demo_world q.
Proof.
  assert (obs demo_world (metadata_path demo_id) = Some (Some (dumps demo))) as Ho
    by (vm_compute; reflexivity).
  assert (targets_descriptor demo_world demo_id "project.json") as Ht
    by (vm_compute; reflexivity).
  split; [exact Ho|]. split; [exact Ht|].
  exact (delete_file_on_descriptor demo_id "project.json" (dumps demo) demo_world
           Ho Ht).
Defined.

Lemma create_folder_succeeds_witness :
  descriptor demo_world demo_id = Loaded demo
  ∧ resolve demo_world (get_project_path demo_id) = Some ["projects"; demo_id]
  ∧ path_isdir demo_world (path_join (get_project_path demo_id) "lib") = false
  ∧ ∃ w' m',
      create_folder demo_id (JDict native_request) demo_world
      = (w', success "folder" (JStr "lib/native") 201)
      ∧ path_isdir w' (path_join (get_project_path demo_id) "lib/native") = true
      ∧ descriptor w' demo_id = Loaded m'
      ∧ getitem m' "folders"
        = Some (JList (if existsb (λ x, eq_str x "lib/native") [JStr "src"]
                       then [JStr "src"] else [JStr "src"] ++ [JStr "lib/native"])).
Proof.
  assert (descriptor demo_world demo_id = Loaded demo) as Hd
    by (vm_compute; reflexivity).
  assert (resolve demo_world (get_project_path demo_id) = Some ["projects"; demo_id])
    as HP by (vm_compute; reflexivity).
  assert (Forall (λ c, is_name c = true) (Str.split Str.slash "lib/native"))
    as Hnames by (repeat constructor).
  assert (Forall (λ c, os_name c = true) (Str.split Str.slash "lib/native"))
    as Hos by (repeat constructor).
  assert (∀ p s, p ≠ [] → p `prefix_of` Str.split Str.slash "lib/native" →
            stat demo_world (["projects"; demo_id] ++ p) ≠ Some (Some s)) as Hway.
  { intros p s Hp Hpre. apply prefixes_spec in Hpre; [|exact Hp].
    apply elem_of_cons in Hpre as [->|Hpre]; [vm_compute; discriminate|].
    apply list_elem_of_singleton in Hpre as ->. vm_compute; discriminate. }
  split; [exact Hd|]. split; [exact HP|]. split; [vm_compute; reflexivity|].
  exact (create_folder_succeeds demo_id native_request "lib/native" demo [JStr "src"]
           ["projects"; demo_id] demo_world reference_lawful eq_refl Hnames Hos
           eq_refl Hd eq_refl HP Hway).
Defined.

Lemma create_folder_twice_witness :
  let w' := (create_folder demo_id (JDict [("name", JStr "lib")]) demo_world).1 in
  create_folder demo_id (JDict [("name", JStr "lib")]) demo_world
  = (w', Reply (JDict [("success", JBool true); ("folder", JStr "lib")]) 201)
  ∧ (∃ name m' folders,
        get (JDict [("name", JStr "lib")]) "name" JNull = Some (JStr name)
        ∧ path_isdir w' (path_join (get_project_path demo_id) name) = true
        ∧ descriptor w' demo_id = Loaded m'
        ∧ getitem m' "folders" = Some folders
        ∧ contains_str name folders = Some true)
  ∧ create_folder demo_id (JDict [("name", JStr "lib")]) w'
    = (w', Reply (JDict [("success", JBool true); ("folder", JStr "lib")]) 201).
Proof.
  intros w'.
  assert (create_folder demo_id (JDict [("name", JStr "lib")]) demo_world
          = (w', Reply (JDict [("success", JBool true); ("folder", JStr "lib")]) 201))
    as Hc by (vm_compute; reflexivity).
  split; [exact Hc|].
  exact (create_folder_twice demo_id (JDict [("name", JStr "lib")]) demo_world w' _
           reference_lawful Hc).
Defined.

Lemma maven_template_witness :
  assoc "name" maven_fields = Some (JStr "Library")
  ∧ truthy (JStr "Library") = true
  ∧ assoc "template" maven_fields = Some (JStr "maven")
  ∧ create_project later (JDict maven_fields) demo_world
    = (second_world, success "project" library 201)
  ∧ getitem library "files" = Some (JList [pom_xml])
  ∧ getitem pom_xml "path" = Some (JStr "pom.xml")
  ∧ getitem pom_xml "content" = Some (JStr "")
  ∧ getitem library "folders"
    = Some (JList [JStr "src"; JStr "src/main/java"; JStr "src/test/java"]).
Proof.
  assert (create_project later (JDict maven_fields) demo_world
          = (second_world, success "project" library 201)) as Hc
    by (vm_compute; reflexivity).
  split; [reflexivity|]. split; [reflexivity|]. split; [reflexivity|].
  split; [exact Hc|].
  exact (proj2 (maven_template later maven_fields (JStr "Library") demo_world
                  eq_refl eq_refl eq_refl) second_world library Hc).
Defined.

Lemma unknown_template_is_empty_witness :
  let w' := (create_project now (JDict gradle_fields) empty_world).1 in
  create_project now (JDict gradle_fields) empty_world
  = (w', success "project" gradle 201)
  ∧ ∃ template,
      get (JDict gradle_fields) "template" (JStr "empty") = Some template
      ∧ getitem gradle "template" = Some template
      ∧ (eq_str template "basic" = false → eq_str template "maven" = false →
         getitem gradle "files" = Some (JList [])
         ∧ getitem gradle "folders" = Some (JList [JStr "src"])
         ∧ path_isdir w' (path_join (get_project_path (Str.of_Z (millis now))) "src")
           = true).
Proof.
  intros w'.
  assert (create_project now (JDict gradle_fields) empty_world
          = (w', success "project" gradle 201)) as Hc
    by (vm_compute; reflexivity).
  split; [exact Hc|].
  exact (unknown_template_is_empty now (JDict gradle_fields) empty_world w' gradle Hc).
Defined.

Lemma created_project_matches_disk_witness :
  create_project later (JDict maven_fields) demo_world
  = (second_world, success "project" library 201)
  ∧ ∃ files folders,
      getitem library "files" = Some (JList files)
      ∧ getitem library "folders" = Some (JList folders)
      ∧ (∀ entry, entry ∈ files →
           ∃ p text,
             getitem entry "path" = Some (JStr p)
             ∧ getitem entry "content" = Some (JStr text)
             ∧ get_file (Str.of_Z (millis later)) p second_world
               = (second_world, success "content" (JStr text) 200))
      ∧ (∀ folder, folder ∈ folders →
           ∃ s, folder = JStr s
                ∧ path_isdir second_world
                    (path_join (get_project_path (Str.of_Z (millis later))) s)
                  = true).
Proof.
  assert (create_project later (JDict maven_fields) demo_world
          = (second_world, success "project" library 201)) as Hc
    by (vm_compute; reflexivity).
  split; [exact Hc|].
  exact (created_project_matches_disk later (JDict maven_fields) demo_world
           second_world library Hc).
Defined.

Lemma created_project_is_listed_witness :
  create_project later (JDict maven_fields) demo_world
  = (second_world, success "project" library 201)
  ∧ get_projects second_world
    = (second_world, success "projects" (JList [demo; library]) 200)
  ∧ (get_projects second_world = (second_world, InternalError)
     ∨ ∃ projects,
         get_projects second_world
         = (second_world, success "projects" (JList projects) 200)
         ∧ library ∈ projects).
Proof.
  assert (create_project later (JDict maven_fields) demo_world
          = (second_world, success "project" library 201)) as Hc
    by (vm_compute; reflexivity).
  split; [exact Hc|]. split; [vm_compute; reflexivity|].
  exact (created_project_is_listed later (JDict maven_fields) demo_world
           second_world library reference_lawful Hc).
Defined.

Lemma startup_makes_root_witness :
  is_dir empty_world (cwd empty_world) = true
  ∧ stat empty_world (cwd empty_world ++ ["projects"]) = None
  ∧ ∃ w1, startup empty_world = (w1, Some ())
      ∧ path_isdir w1 PROJECTS_DIR = true
      ∧ get_projects w1 = (w1, success "projects" (JList []) 200)
      ∧ ∀ now fields name,
          assoc "name" fields = Some name → truthy name = true →
          ∃ w2 project,
            create_project now (JDict fields) w1
            = (w2, success "project" project 201).
Proof.
  split; [reflexivity|]. split; [reflexivity|].
  exact (startup_makes_root empty_world eq_refl eq_refl).
Defined.

Lemma file_paths_cross_projects_witness :
  is_name demo_id = true ∧ is_name second_id = true
  ∧ path_isdir second_world (get_project_path demo_id) = true
  ∧ Str.startswith "/" "pom.xml" = false
  ∧ get_file second_id "pom.xml" second_world
    = (second_world, success "content" (JStr "") 200)
  ∧ get_file demo_id ("../" +:+ second_id +:+ "/" +:+ "pom.xml") second_world
    = get_file second_id "pom.xml" second_world.
Proof.
  assert (path_isdir second_world (get_project_path demo_id) = true) as Hdir
    by (vm_compute; reflexivity).
  split; [reflexivity|]. split; [reflexivity|]. split; [exact Hdir|].
  split; [reflexivity|]. split; [vm_compute; reflexivity|].
  exact (file_paths_cross_projects demo_id second_id "pom.xml" second_world
           eq_refl eq_refl Hdir eq_refl).
Defined.

Lemma writes_stay_in_project_witness :
  let w' := (create_file demo_id (JDict util_request) second_world).1 in
  is_name demo_id = true ∧ is_name second_id = true ∧ second_id ≠ demo_id
  ∧ status_of (create_file demo_id (JDict util_request) second_world).2 = 201
  ∧ get_project second_id second_world
    = (second_world, success "project" library 200)
  ∧ same_project second_id second_world w'.
Proof.
  intros w'.
  assert (second_id ≠ demo_id) as Hne by discriminate.
  assert (∀ fp, get (JDict util_request) "path" JNull = Some (JStr fp) →
                Forall (λ n, is_name n = true) (Str.split Str.slash fp)) as Hnames.
  { intros fp Hfp. vm_compute in Hfp. injection Hfp as <-. by repeat constructor. }
  split; [reflexivity|]. split; [reflexivity|]. split; [exact Hne|].
  split; [vm_compute; reflexivity|]. split; [vm_compute; reflexivity|].
  exact (proj1 (proj2 (writes_stay_in_project demo_id second_id second_world
                         eq_refl eq_refl Hne))
           (JDict util_request) w' _ Hnames (surjective_pairing _)).
Defined.
